(** * Portal de tarefas CDU: sector-scoped synchronisation layer

    A shallow embedding of the data-access code of the portal's pages
    (daily map, users, professionals, dashboard, auth context) together
    with the properties of its specification.

    JavaScript strings are sequences of UTF-16 code units; remote rows
    are records with nullable columns; React state is passed explicitly;
    the remote store is a record of tables, and every remote call takes
    the fault (if any) with which the transport answers it. *)

From Stdlib Require Import String Ascii ZArith NArith.
From stdpp Require Import base decidable option numbers list sorting strings pretty gmap.

Local Open Scope N_scope.

(** ** JavaScript strings *)

(** A string value: its UTF-16 code units. *)
Abbreviation jsstring := (list N).

(** Code units of a source literal.  The literals of the source files are
    UTF-8 text of the Basic Multilingual Plane: sequences of one, two or
    three bytes, each giving one unit. *)
Fixpoint utf8_units (bs : list N) : jsstring :=
  match bs with
  | [] => []
  | b0 :: r0 =>
    if b0 <? 128 then b0 :: utf8_units r0
    else match r0 with
         | [] => []
         | b1 :: r1 =>
           if b0 <? 224 then ((b0 - 192) * 64 + (b1 - 128)) :: utf8_units r1
           else match r1 with
                | [] => []
                | b2 :: r2 =>
                  ((b0 - 224) * 4096 + (b1 - 128) * 64 + (b2 - 128))
                    :: utf8_units r2
                end
         end
  end.

Definition js (s : string) : jsstring :=
  utf8_units (N_of_ascii <$> list_ascii_of_string s).
Global Arguments js : simpl never.

(** [a === b] on strings. *)
Definition str_eqb (a b : jsstring) : bool := bool_decide (a = b).

(** Truthiness of a nullable string: [null], [undefined] and [''] are falsy. *)
Definition truthy (v : option jsstring) : bool :=
  match v with
  | Some (_ :: _) => true
  | _ => false
  end.

(** [v || d] where [v] is a nullable string and [d] a string. *)
Definition or_else (v : option jsstring) (d : jsstring) : jsstring :=
  match v with
  | Some (c :: s) => c :: s
  | _ => d
  end.

(** [!!v] on a nullable boolean column. *)
Definition to_boolean (v : option bool) : bool :=
  match v with
  | Some b => b
  | None => false
  end.

(** [s.startsWith(p)]. *)
Fixpoint startsWith (p s : jsstring) : bool :=
  match p, s with
  | [], _ => true
  | _ :: _, [] => false
  | a :: p', b :: s' => (a =? b) && startsWith p' s'
  end.

(** [s.includes(p)]. *)
Fixpoint includes (p s : jsstring) : bool :=
  startsWith p s ||
  match s with
  | [] => false
  | _ :: s' => includes p s'
  end.

(** [s.split(sep)] for a non-empty separator: scan from the left, cut at
    each occurrence and resume after it.  [skip] counts the units of an
    occurrence still to pass over, [cur] is the current segment reversed. *)
Fixpoint split_go (sep s : jsstring) (skip : nat) (cur : jsstring)
  : list jsstring :=
  match s with
  | [] => [reverse cur]
  | c :: s' =>
    match skip with
    | S k => split_go sep s' k cur
    | O =>
      if startsWith sep s
      then reverse cur :: split_go sep s' (length sep - 1) []
      else split_go sep s' 0 (c :: cur)
    end
  end.

(** With the empty separator [split] yields the units one by one. *)
Definition split (sep s : jsstring) : list jsstring :=
  match sep with
  | [] => (fun c => [c]) <$> s
  | _ :: _ => split_go sep s 0 []
  end.

(** [parts[i]] of an array of strings ([undefined] out of range). *)
Definition at_index (parts : list jsstring) (i : nat) : option jsstring :=
  parts !! i.

(** White space and line terminators, the units [trim] removes. *)
Definition is_white_space (c : N) : bool :=
  ((9 <=? c) && (c <=? 13)) || (c =? 32) || (c =? 160) || (c =? 5760)
  || ((8192 <=? c) && (c <=? 8202)) || (c =? 8232) || (c =? 8233)
  || (c =? 8239) || (c =? 8287) || (c =? 12288) || (c =? 65279).

Fixpoint trimStart (s : jsstring) : jsstring :=
  match s with
  | [] => []
  | c :: s' => if is_white_space c then trimStart s' else s
  end.

Definition trimEnd (s : jsstring) : jsstring :=
  reverse (trimStart (reverse s)).

Definition trim (s : jsstring) : jsstring := trimEnd (trimStart s).

(** [s.padStart(targetLength, padString)]. *)
Definition padStart (targetLength : nat) (padString s : jsstring) : jsstring :=
  let len := length s in
  match padString with
  | [] => s
  | _ :: _ =>
    if (targetLength <=? len)%nat then s
    else take (targetLength - len)
              (concat (replicate (targetLength - len) padString)) ++ s
  end.

(** ** JavaScript numbers read from a [Date] *)

(** The getters of a [Date] return an integer, or [NaN] on an invalid date. *)
Inductive Number :=
| Int (z : Z)
| NaN.

(** [x + 1]. *)
Definition succ_number (x : Number) : Number :=
  match x with
  | Int z => Int (z + 1)
  | NaN => NaN
  end.

(** [String(x)] and the interpolation of [x] in a template literal. *)
Definition String_of_number (x : Number) : jsstring :=
  match x with
  | Int z => js (pretty z)
  | NaN => js "NaN"
  end.

(** ** Rows of the remote store *)

(** A remote call answers [{ data, error }]: the data, or an error with
    its message. *)
Inductive Result (A : Type) :=
| Data (data : A)
| Failed (message : jsstring).
Arguments Data {A} data.
Arguments Failed {A} message.

(** [shift] is typed ['morning' | 'afternoon']. *)
Inductive Shift := morning | afternoon.

Global Instance Shift_eq_dec : EqDecision Shift.
Proof. solve_decision. Defined.

(** [profiles(id, name, email, role, specialty, phone, avatar, status,
    gender, is_admin)]; every column but the key is nullable. *)
Module ProfileRow.
Record t := mk {
  id : jsstring;
  name : option jsstring;
  email : option jsstring;
  role : option jsstring;
  specialty : option jsstring;
  phone : option jsstring;
  avatar : option jsstring;
  color : option jsstring;
  status : option jsstring;
  gender : option jsstring;
  is_admin : option bool
}.
End ProfileRow.

(** [rooms(id, name, extension, sector, order)].  The key is generated by
    the store and opaque to the client: a serial number here. *)
Module Room.
Record t := mk {
  id : N;
  name : jsstring;
  extension : jsstring;
  sector : jsstring;
  order : Z
}.
End Room.

(** [room_allocations(id, room_id, doctor_id, date, shift, created_by)]. *)
Module DBAllocation.
Record t := mk {
  id : N;
  room_id : N;
  doctor_id : jsstring;
  date : jsstring;
  shift : Shift;
  created_by : option jsstring
}.
End DBAllocation.

(** The [Doctor] shape the pages map profile rows to. *)
Module Doctor.
Record t := mk {
  id : jsstring;
  name : jsstring;
  specialty : jsstring;
  sector : jsstring;
  phone : jsstring;
  avatar : jsstring;
  color : jsstring;
  status : jsstring;
  gender : option jsstring;
  isAdmin : option bool
}.
End Doctor.

(** The [UnifiedUser] shape of the users page. *)
Module UnifiedUser.
Record t := mk {
  id : jsstring;
  name : jsstring;
  roleType : option jsstring;
  roleDisplay : jsstring;
  phone : jsstring;
  avatar : jsstring;
  status : jsstring;
  isAdmin : bool;
  email : option jsstring;
  gender : option jsstring;
  originalData : ProfileRow.t
}.
End UnifiedUser.

(** The authenticated identity held by the auth context. *)
Module User.
Record t := mk {
  id : jsstring;
  name : jsstring;
  role : jsstring;
  isAdmin : bool
}.
End User.

(** ** The remote store *)

Record Store := mkStore {
  profiles : list ProfileRow.t;
  rooms : list Room.t;
  room_allocations : list DBAllocation.t;
  serial : N
}.

(** The requests a page sends: the table and the verb. *)
Inductive Verb := SELECT | INSERT | UPDATE | UPSERT | DELETE.

Record Request := mkRequest {
  table : jsstring;
  verb : Verb
}.

Definition is_write (r : Request) : bool :=
  match verb r with
  | SELECT => false
  | _ => true
  end.

(** What a page touches outside its own state: the store, the requests
    sent to it so far, the [console.error] lines and the [alert] boxes. *)
Record World := mkWorld {
  db : Store;
  requests : list Request;
  console : list jsstring;
  alerts : list jsstring
}.

(** [console.error(label, error)]. *)
Definition console_error (label : jsstring) (w : World) : World :=
  mkWorld (db w) (requests w) (console w ++ [label]) (alerts w).

(** [alert(text)]. *)
Definition alert (text : jsstring) (w : World) : World :=
  mkWorld (db w) (requests w) (console w) (alerts w ++ [text]).

(** A remote call [await supabase.from(table)...]: the request is sent;
    with a fault the transport answers the error and the store is left as
    it was, otherwise the operation runs on the store. *)
Definition remote {A} (tbl : jsstring) (v : Verb) (fault : option jsstring)
  (op : Store → A * Store) (w : World) : Result A * World :=
  let sent := requests w ++ [mkRequest tbl v] in
  match fault with
  | Some message =>
    (Failed message, mkWorld (db w) sent (console w) (alerts w))
  | None =>
    let '(a, s) := op (db w) in
    (Data a, mkWorld s sent (console w) (alerts w))
  end.

(** A query leaves the store as it is, a write returns no data. *)
Definition query {A} (q : Store → A) (s : Store) : A * Store := (q s, s).
Definition write (f : Store → Store) (s : Store) : unit * Store := (tt, f s).

(** *** Queries *)

(** [from('rooms').select('*').eq('sector', floor).order('order',
    { ascending: true })]. *)
Definition order_le (a b : Room.t) : Prop := (Room.order a ≤ Room.order b)%Z.

Global Instance order_le_dec a b : Decision (order_le a b).
Proof. unfold order_le. apply _. Defined.

Global Instance order_le_total : Total order_le.
Proof. intros a b. unfold order_le. lia. Qed.

Global Instance order_le_transitive : Transitive order_le.
Proof. intros a b c. unfold order_le. lia. Qed.

Definition select_rooms (floor : jsstring) (s : Store) : list Room.t :=
  merge_sort order_le
    (filter (λ r, Room.sector r = floor) (rooms s)).

(** A [select] on [profiles] names no order: the store answers the rows
    selected in an order of its choosing.  A [RowOrder] is that choice,
    any rearrangement of the rows; each request comes with its own. *)
Record RowOrder := mkRowOrder {
  arrange :> list ProfileRow.t → list ProfileRow.t;
  arrange_rows : ∀ rows, arrange rows ≡ₚ rows
}.

(** [from('profiles').select('*')]. *)
Definition select_profiles (order : RowOrder) (s : Store)
  : list ProfileRow.t :=
  order (profiles s).

(** [from('profiles').select(...).eq('role', role)]. *)
Definition select_profiles_by_role (order : RowOrder) (role : jsstring)
  (s : Store) : list ProfileRow.t :=
  order (filter (λ p, ProfileRow.role p = Some role) (profiles s)).

(** [from('room_allocations').select('*').eq('date', dateKey)
    .in('room_id', roomIds)]. *)
Definition select_allocations (dateKey : jsstring) (roomIds : list N)
  (s : Store) : list DBAllocation.t :=
  filter (λ a, DBAllocation.date a = dateKey ∧ DBAllocation.room_id a ∈ roomIds)
    (room_allocations s).

(** *** Writes to [rooms] *)

(** [from('rooms').insert({ name, extension, sector, order })]. *)
Definition insert_room (name extension sector : jsstring) (order : Z)
  (s : Store) : Store :=
  mkStore (profiles s)
    (rooms s ++ [Room.mk (serial s) name extension sector order])
    (room_allocations s) (serial s + 1).

(** [from('rooms').update({ name, extension }).eq('id', id)]. *)
Definition update_room (id : N) (name extension : jsstring) (s : Store)
  : Store :=
  mkStore (profiles s)
    ((λ r, if bool_decide (Room.id r = id)
           then Room.mk (Room.id r) name extension (Room.sector r) (Room.order r)
           else r) <$> rooms s)
    (room_allocations s) (serial s).

(** [from('rooms').delete().eq('id', id)]; the allocations of the room go
    with it, as the confirmation of [handleDeleteRoom] announces. *)
Definition delete_room (id : N) (s : Store) : Store :=
  mkStore (profiles s)
    (filter (λ r, Room.id r ≠ id) (rooms s))
    (filter (λ a, DBAllocation.room_id a ≠ id) (room_allocations s))
    (serial s).

(** *** Writes to [room_allocations] *)

Inductive Column :=
| col_id | col_room_id | col_doctor_id | col_date | col_shift | col_created_by.

Definition column_of_name (name : jsstring) : option Column :=
  if str_eqb name (js "id") then Some col_id
  else if str_eqb name (js "room_id") then Some col_room_id
  else if str_eqb name (js "doctor_id") then Some col_doctor_id
  else if str_eqb name (js "date") then Some col_date
  else if str_eqb name (js "shift") then Some col_shift
  else if str_eqb name (js "created_by") then Some col_created_by
  else None.

(** The columns an [onConflict] option names, comma separated. *)
Definition conflict_columns (onConflict : jsstring) : list Column :=
  omap column_of_name (split (js ",") onConflict).

Definition same_on (c : Column) (a b : DBAllocation.t) : bool :=
  match c with
  | col_id => bool_decide (DBAllocation.id a = DBAllocation.id b)
  | col_room_id => bool_decide (DBAllocation.room_id a = DBAllocation.room_id b)
  | col_doctor_id =>
    bool_decide (DBAllocation.doctor_id a = DBAllocation.doctor_id b)
  | col_date => bool_decide (DBAllocation.date a = DBAllocation.date b)
  | col_shift => bool_decide (DBAllocation.shift a = DBAllocation.shift b)
  | col_created_by =>
    bool_decide (DBAllocation.created_by a = DBAllocation.created_by b)
  end.

Definition conflicts (target : list Column) (a b : DBAllocation.t) : bool :=
  forallb (λ c, same_on c a b) target.

(** The row of an upsert takes the place of the row it conflicts with,
    whose key it keeps; without a conflict it is added. *)
Fixpoint upsert_row (target : list Column) (new : DBAllocation.t)
  (rows : list DBAllocation.t) : list DBAllocation.t :=
  match rows with
  | [] => [new]
  | r :: rows' =>
    if conflicts target r new
    then DBAllocation.mk (DBAllocation.id r) (DBAllocation.room_id new)
           (DBAllocation.doctor_id new) (DBAllocation.date new)
           (DBAllocation.shift new) (DBAllocation.created_by new) :: rows'
    else r :: upsert_row target new rows'
  end.

(** [from('room_allocations').upsert({ room_id, doctor_id, date, shift,
    created_by }, { onConflict })]. *)
Definition upsert_allocation (room_id : N) (doctor_id date : jsstring)
  (shift : Shift) (created_by : option jsstring) (onConflict : jsstring)
  (s : Store) : Store :=
  mkStore (profiles s) (rooms s)
    (upsert_row (conflict_columns onConflict)
       (DBAllocation.mk (serial s) room_id doctor_id date shift created_by)
       (room_allocations s))
    (serial s + 1).

(** The slot of an allocation: its room, date and shift. *)
Definition slot_of (a : DBAllocation.t) : N * jsstring * Shift :=
  (DBAllocation.room_id a, DBAllocation.date a, DBAllocation.shift a).

(** [from('room_allocations').delete().eq('room_id', room_id)
    .eq('date', date).eq('shift', shift)]. *)
Definition delete_allocation (room_id : N) (date : jsstring) (shift : Shift)
  (s : Store) : Store :=
  mkStore (profiles s) (rooms s)
    (filter (λ a, slot_of a ≠ (room_id, date, shift)) (room_allocations s))
    (serial s).

(** *** Writes to [profiles] *)

Definition map_profile (id : jsstring) (f : ProfileRow.t → ProfileRow.t)
  (s : Store) : Store :=
  mkStore
    ((λ p, if bool_decide (ProfileRow.id p = id) then f p else p)
       <$> profiles s)
    (rooms s) (room_allocations s) (serial s).

(** [from('profiles').update({ is_admin }).eq('id', id)]. *)
Definition update_profile_is_admin (id : jsstring) (is_admin : bool)
  : Store → Store :=
  map_profile id (λ p,
    ProfileRow.mk (ProfileRow.id p) (ProfileRow.name p) (ProfileRow.email p)
      (ProfileRow.role p) (ProfileRow.specialty p) (ProfileRow.phone p)
      (ProfileRow.avatar p) (ProfileRow.color p) (ProfileRow.status p)
      (ProfileRow.gender p) (Some is_admin)).

(** [from('profiles').delete().eq('id', id)]. *)
Definition delete_profile (id : jsstring) (s : Store) : Store :=
  mkStore (filter (λ p, ProfileRow.id p ≠ id) (profiles s))
    (rooms s) (room_allocations s) (serial s).

(** [from('profiles').insert([row])]. *)
Definition insert_profile (row : ProfileRow.t) (s : Store) : Store :=
  mkStore (profiles s ++ [row]) (rooms s) (room_allocations s) (serial s).

(** ** Dates *)

(** A [Date] as the pages read it: the local calendar fields of a valid
    date ([month] counted from 0), or an invalid date. *)
Inductive Date :=
| LocalDate (year month day : Z)
| InvalidDate.

Definition getFullYear (d : Date) : Number :=
  match d with
  | LocalDate year _ _ => Int year
  | InvalidDate => NaN
  end.

Definition getMonth (d : Date) : Number :=
  match d with
  | LocalDate _ month _ => Int month
  | InvalidDate => NaN
  end.

Definition getDate (d : Date) : Number :=
  match d with
  | LocalDate _ _ day => Int day
  | InvalidDate => NaN
  end.

(** The fields of a calendar date: a month of the year and a day of the
    month. *)
Definition calendar_date (d : Date) : Prop :=
  match d with
  | LocalDate _ month day => (0 ≤ month ≤ 11 ∧ 1 ≤ day ≤ 31)%Z
  | InvalidDate => False
  end.

(** ** The auth context (contexts/AuthContext) *)

Module AuthContext.

Definition FLOOR_OPTIONS : list jsstring := [
  js "10º Andar ( CENTRO CIRÚRGICO )";
  js "9º Andar ( OFTALMOLOGIA )";
  js "8º Andar ( CLÍNICA MÉDICA / CARDIOLOGIA )";
  js "7º Andar ( PEDIATRIA / OTORRINO )";
  js "6º Andar ( GINECOLOGIA / OBSTETRÍCIA )";
  js "5º Andar ( ORTOPEDIA / VASCULAR )";
  js "4º Andar ( ESP CIRÚRGICAS / DERMATOLOGIA )";
  js "3º Andar ( SARA )";
  js "2º Andar ( PSIQUISTRIA )";
  js "CDU - CENTRO DE DIAGNÓSTICO UNIMED";
  js "Térreo ( RECEPÇÃO / TRIAGEM )"
].

(** [localStorage]: string values under string keys. *)
Abbreviation Storage := (gmap jsstring jsstring).

Definition getItem (key : jsstring) (localStorage : Storage)
  : option jsstring := localStorage !! key.

Definition setItem (key value : jsstring) (localStorage : Storage)
  : Storage := <[key := value]> localStorage.

(** The provider's state the pages read through [useAuth]. *)
Record t := mk {
  user : option User.t;
  selectedFloor : jsstring
}.

(** The initial state of [selectedFloor], computed when the provider
    mounts, that is on every load of the application. *)
Definition initialSelectedFloor (localStorage : Storage) : jsstring :=
  or_else (getItem (js "mediportal_selected_floor") localStorage)
    (js "9º Andar ( OFTALMOLOGIA )").

Definition mount (localStorage : Storage) : t :=
  mk None (initialSelectedFloor localStorage).

Definition setSelectedFloor (floor : jsstring) (ctx : t)
  (localStorage : Storage) : t * Storage :=
  (mk (user ctx) floor,
   setItem (js "mediportal_selected_floor") floor localStorage).

(** [get_current_sector] of the specification. *)
Definition get_current_sector (ctx : t) : jsstring := selectedFloor ctx.

(** [currentUser?.id]. *)
Definition user_id (ctx : t) : option jsstring := User.id <$> user ctx.

End AuthContext.

(** ** The provider of the auth context (contexts/AuthContext) *)

Module AuthProvider.

(** The [User] the provider maps a profile to. *)
Record User := mkUser {
  id : jsstring;
  name : jsstring;
  email : jsstring;
  role : jsstring;
  avatar : option jsstring;
  specialty : option jsstring;
  status : option jsstring;
  isAdmin : bool
}.

(** The state of the provider; [session] is [session?.user.id]. *)
Record State := mkState {
  user : option User;
  session : option jsstring;
  loading : bool;
  selectedFloor : jsstring
}.

Definition setUser (v : option User) (st : State) : State :=
  mkState v (session st) (loading st) (selectedFloor st).

Definition setSession (v : option jsstring) (st : State) : State :=
  mkState (user st) v (loading st) (selectedFloor st).

(** [from('profiles').select('*').eq('id', userId)]. *)
Definition select_profile (userId : jsstring) (s : Store)
  : list ProfileRow.t :=
  filter (λ p, ProfileRow.id p = userId) (profiles s).

(** [from('profiles').update({ status }).eq('id', id)]. *)
Definition update_profile_status (id : jsstring) (status : jsstring)
  : Store → Store :=
  map_profile id (λ p,
    ProfileRow.mk (ProfileRow.id p) (ProfileRow.name p) (ProfileRow.email p)
      (ProfileRow.role p) (ProfileRow.specialty p) (ProfileRow.phone p)
      (ProfileRow.avatar p) (ProfileRow.color p) (Some status)
      (ProfileRow.gender p) (ProfileRow.is_admin p)).

(** The mapping of [fetchProfile]; [is_admin] is the flag after the
    promotion, if any. *)
Definition mappedUser (data : ProfileRow.t) (is_admin : option bool) : User :=
  mkUser (ProfileRow.id data)
    (or_else (ProfileRow.name data) [])
    (or_else (ProfileRow.email data) [])
    (or_else (ProfileRow.role data) (js "reception"))
    (ProfileRow.avatar data) (ProfileRow.specialty data)
    (ProfileRow.status data) (to_boolean is_admin).

(** [.single()] answers an error unless exactly one row is selected.  The
    answer to the update of the promotion is not looked at. *)
Definition fetchProfile (select_fault update_fault : option jsstring)
  (userId : jsstring) (st : State) (w : World) : State * World :=
  match remote (js "profiles") SELECT select_fault
          (query (select_profile userId)) w with
  | (Data [data], w1) =>
    if bool_decide (ProfileRow.name data = Some (js "Luiz Gustavo Macedo Segura"))
       && negb (to_boolean (ProfileRow.is_admin data))
    then
      let '(_, w2) := remote (js "profiles") UPDATE update_fault
                        (write (update_profile_is_admin userId true)) w1 in
      (setUser (Some (mappedUser data (Some true))) st, w2)
    else (setUser (Some (mappedUser data (ProfileRow.is_admin data))) st, w1)
  | (_, w1) => (st, console_error (js "Error fetching profile:") w1)
  end.

(** [supabase.auth.signOut()] is a call to the auth provider, outside the
    store. *)
Definition logout (update_fault : option jsstring) (st : State) (w : World)
  : State * World :=
  let w1 :=
    match user st with
    | Some u =>
      match id u with
      | [] => w
      | _ :: _ =>
        (remote (js "profiles") UPDATE update_fault
           (write (update_profile_status (id u) (js "offline"))) w).2
      end
    | None => w
    end in
  (setSession None (setUser None st), w1).

Definition updateStatus (update_fault : option jsstring) (status : jsstring)
  (st : State) (w : World) : State * World :=
  match user st with
  | Some u =>
    match id u with
    | [] => (st, w)
    | _ :: _ =>
      let st1 :=
        setUser (Some (mkUser (id u) (name u) (email u) (role u) (avatar u)
                         (specialty u) (Some status) (isAdmin u))) st in
      match remote (js "profiles") UPDATE update_fault
              (write (update_profile_status (id u) status)) w with
      | (Data _, w1) => (st1, w1)
      | (Failed _, w1) => (st1, console_error (js "Error updating status:") w1)
      end
    end
  | None => (st, w)
  end.

End AuthProvider.

(** ** The daily map page (pages/DailyMap) *)

Module DailyMap.

Record State := mkState {
  currentDate : Date;
  rooms : list Room.t;
  allocations : list DBAllocation.t;
  doctors : list Doctor.t;
  doctorSearch : jsstring;
  showAllocationModal : bool;
  selectedSlot : option (N * Shift);
  roomForm : jsstring * jsstring;
  editingRoomId : option N
}.

Definition setRooms (v : list Room.t) (st : State) : State :=
  mkState (currentDate st) v (allocations st) (doctors st) (doctorSearch st)
    (showAllocationModal st) (selectedSlot st) (roomForm st) (editingRoomId st).

Definition setAllocations (v : list DBAllocation.t) (st : State) : State :=
  mkState (currentDate st) (rooms st) v (doctors st) (doctorSearch st)
    (showAllocationModal st) (selectedSlot st) (roomForm st) (editingRoomId st).

Definition setDoctors (v : list Doctor.t) (st : State) : State :=
  mkState (currentDate st) (rooms st) (allocations st) v (doctorSearch st)
    (showAllocationModal st) (selectedSlot st) (roomForm st) (editingRoomId st).

Definition setShowAllocationModal (v : bool) (st : State) : State :=
  mkState (currentDate st) (rooms st) (allocations st) (doctors st)
    (doctorSearch st) v (selectedSlot st) (roomForm st) (editingRoomId st).

Definition setSelectedSlot (v : option (N * Shift)) (st : State) : State :=
  mkState (currentDate st) (rooms st) (allocations st) (doctors st)
    (doctorSearch st) (showAllocationModal st) v (roomForm st)
    (editingRoomId st).

Definition setRoomForm (v : jsstring * jsstring) (st : State) : State :=
  mkState (currentDate st) (rooms st) (allocations st) (doctors st)
    (doctorSearch st) (showAllocationModal st) (selectedSlot st) v
    (editingRoomId st).

Definition setEditingRoomId (v : option N) (st : State) : State :=
  mkState (currentDate st) (rooms st) (allocations st) (doctors st)
    (doctorSearch st) (showAllocationModal st) (selectedSlot st) (roomForm st)
    v.

(** [canEdit = user?.role !== 'doctor']. *)
Definition canEdit (ctx : AuthContext.t) : bool :=
  negb (bool_decide (User.role <$> AuthContext.user ctx = Some (js "doctor"))).

Definition formatDateKey (date : Date) : jsstring :=
  let year := getFullYear date in
  let month := padStart 2 (js "0") (String_of_number (succ_number (getMonth date))) in
  let day := padStart 2 (js "0") (String_of_number (getDate date)) in
  String_of_number year ++ js "-" ++ month ++ js "-" ++ day.

(** *** Fetches *)

Definition fetchRooms (ctx : AuthContext.t) (fault : option jsstring)
  (st : State) (w : World) : list Room.t * State * World :=
  let floorToFetch := AuthContext.selectedFloor ctx in
  match remote (js "rooms") SELECT fault (query (select_rooms floorToFetch)) w with
  | (Data data, w') => (data, setRooms data st, w')
  | (Failed _, w') => ([], st, console_error (js "Error fetching rooms:") w')
  end.

(** The row to [Doctor] mapping of [fetchDoctors]. *)
Definition mapDoctor (p : ProfileRow.t) : Doctor.t :=
  let specialtyParts := split (js " | ") (or_else (ProfileRow.specialty p) []) in
  Doctor.mk
    (ProfileRow.id p)
    (or_else (ProfileRow.name p) (js "Sem Nome"))
    (trim (or_else (at_index specialtyParts 0) (js "Médico")))
    (trim (or_else (at_index specialtyParts 1) []))
    (or_else (ProfileRow.phone p) [])
    (or_else (ProfileRow.avatar p) [])
    (or_else (ProfileRow.color p) [])
    (or_else (ProfileRow.status p) (js "active"))
    None
    (ProfileRow.is_admin p).

Definition fetchDoctors (fault : option jsstring) (order : RowOrder)
  (st : State) (w : World) : State * World :=
  match remote (js "profiles") SELECT fault
          (query (select_profiles_by_role order (js "doctor"))) w with
  | (Data data, w') => (setDoctors (mapDoctor <$> data) st, w')
  | (Failed _, w') => (st, console_error (js "Error fetching doctors:") w')
  end.

Definition fetchAllocations (fault : option jsstring)
  (passedRooms : option (list Room.t)) (st : State) (w : World)
  : State * World :=
  let dateKey := formatDateKey (currentDate st) in
  let roomsToUse := default (rooms st) passedRooms in
  let roomIds := Room.id <$> roomsToUse in
  match roomIds with
  | [] => (setAllocations [] st, w)
  | _ :: _ =>
    match remote (js "room_allocations") SELECT fault
            (query (select_allocations dateKey roomIds)) w with
    | (Data data, w') => (setAllocations data st, w')
    | (Failed _, w') =>
      (st, console_error (js "Error fetching allocations:") w')
    end
  end.

(** *** Helpers of the grid *)

Definition getAllocation (st : State) (roomId : N) (shift : Shift)
  : option DBAllocation.t :=
  snd <$> list_find
    (λ a, DBAllocation.room_id a = roomId ∧ DBAllocation.shift a = shift)
    (allocations st).

Definition getDoctor (st : State) (doctorId : jsstring) : option Doctor.t :=
  snd <$> list_find (λ d, Doctor.id d = doctorId) (doctors st).

(** *** Handlers *)

Definition handleSaveRoom (ctx : AuthContext.t)
  (write_fault fetch_fault : option jsstring) (st : State) (w : World)
  : State * World :=
  match trim (fst (roomForm st)) with
  | [] => (st, w)
  | _ :: _ =>
    let saved :=
      match editingRoomId st with
      | Some id =>
        remote (js "rooms") UPDATE write_fault
          (write (update_room id (fst (roomForm st)) (snd (roomForm st)))) w
      | None =>
        remote (js "rooms") INSERT write_fault
          (write (insert_room (fst (roomForm st)) (snd (roomForm st))
                    (AuthContext.selectedFloor ctx)
                    (Z.of_nat (length (rooms st))))) w
      end in
    match saved with
    | (Data _, w1) =>
      let '(_, st2, w2) := fetchRooms ctx fetch_fault st w1 in
      (setEditingRoomId None (setRoomForm ([], []) st2), w2)
    | (Failed message, w1) =>
      (st, alert (js "Erro ao salvar sala: " ++ message)
             (console_error (js "Error saving room:") w1))
    end
  end.

(** [confirmed] is the answer to [window.confirm]. *)
Definition handleDeleteRoom (ctx : AuthContext.t) (confirmed : bool)
  (write_fault fetch_fault : option jsstring) (id : N) (st : State)
  (w : World) : State * World :=
  if confirmed then
    let '(_, w1) := remote (js "rooms") DELETE write_fault
                      (write (delete_room id)) w in
    let '(_, st2, w2) := fetchRooms ctx fetch_fault st w1 in
    (st2, w2)
  else (st, w).

Definition handleAssignDoctor (ctx : AuthContext.t)
  (write_fault fetch_fault : option jsstring) (doctorId : jsstring)
  (st : State) (w : World) : State * World :=
  match selectedSlot st with
  | None => (st, w)
  | Some (roomId, shift) =>
    let dateKey := formatDateKey (currentDate st) in
    match remote (js "room_allocations") UPSERT write_fault
            (write (upsert_allocation roomId doctorId dateKey shift
                      (AuthContext.user_id ctx) (js "room_id,date,shift"))) w
    with
    | (Data _, w1) =>
      fetchAllocations fetch_fault None (setShowAllocationModal false st) w1
    | (Failed message, w1) =>
      (st, alert (js "Erro ao realizar alocação: " ++ message)
             (console_error (js "Failed to assign doctor:") w1))
    end
  end.

Definition handleClearSlot (write_fault fetch_fault : option jsstring)
  (st : State) (w : World) : State * World :=
  match selectedSlot st with
  | None => (st, w)
  | Some (roomId, shift) =>
    let dateKey := formatDateKey (currentDate st) in
    match remote (js "room_allocations") DELETE write_fault
            (write (delete_allocation roomId dateKey shift)) w with
    | (Data _, w1) =>
      let '(st2, w2) := fetchAllocations fetch_fault None st w1 in
      (setShowAllocationModal false st2, w2)
    | (Failed message, w1) =>
      (st, alert (js "Erro ao remover alocação: " ++ message)
             (console_error (js "Error clearing slot:") w1))
    end
  end.

(** *** The allocation modal *)

Section Runtime.

(** [String.prototype.toLowerCase] and [localeCompare] of the runtime. *)
Variable toLowerCase : jsstring → jsstring.
Variable localeCompare : jsstring → jsstring → Z.

Definition by_name (a b : Doctor.t) : Prop :=
  (localeCompare (Doctor.name a) (Doctor.name b) ≤ 0)%Z.

Local Instance by_name_dec a b : Decision (by_name a b).
Proof. unfold by_name. apply _. Defined.

(** The doctors the modal lists, one button each. *)
Definition candidates (ctx : AuthContext.t) (st : State) : list Doctor.t :=
  merge_sort by_name
    (filter (λ d,
       includes (toLowerCase (doctorSearch st)) (toLowerCase (Doctor.name d))
         = true
       ∧ Doctor.sector d = AuthContext.selectedFloor ctx)
       (doctors st)).

(** A click on the [i]-th button of the modal, which is rendered while
    [showAllocationModal] holds. *)
Definition clickCandidate (ctx : AuthContext.t)
  (write_fault fetch_fault : option jsstring) (i : nat) (st : State)
  (w : World) : State * World :=
  if showAllocationModal st then
    match candidates ctx st !! i with
    | Some doctor =>
      handleAssignDoctor ctx write_fault fetch_fault (Doctor.id doctor) st w
    | None => (st, w)
    end
  else (st, w).

End Runtime.

(** A click on a slot of the grid opens the modal for it. *)
Definition clickSlot (ctx : AuthContext.t) (roomId : N) (shift : Shift)
  (st : State) : State :=
  if canEdit ctx
  then setShowAllocationModal true (setSelectedSlot (Some (roomId, shift)) st)
  else st.

End DailyMap.

(** ** The users page (pages/Users) *)

Module Users.

(** [role] is typed ['doctor' | 'reception'], but [openEditModal] puts the
    [roleType] of the user there, which is [null] for a profile without a
    role. *)
Record FormData := mkForm {
  name : jsstring;
  phone : jsstring;
  role : option jsstring;
  roleDisplay : jsstring;
  email : jsstring;
  gender : jsstring;
  isAdmin : bool
}.

Record State := mkState {
  users : list UnifiedUser.t;
  loading : bool;
  toastMessage : option jsstring;
  isModalOpen : bool;
  editingUser : option UnifiedUser.t;
  formData : FormData
}.

Definition setUsers (v : list UnifiedUser.t) (st : State) : State :=
  mkState v (loading st) (toastMessage st) (isModalOpen st) (editingUser st)
    (formData st).

Definition setLoading (v : bool) (st : State) : State :=
  mkState (users st) v (toastMessage st) (isModalOpen st) (editingUser st)
    (formData st).

Definition setIsModalOpen (v : bool) (st : State) : State :=
  mkState (users st) (loading st) (toastMessage st) v (editingUser st)
    (formData st).

Definition setEditingUser (v : option UnifiedUser.t) (st : State) : State :=
  mkState (users st) (loading st) (toastMessage st) (isModalOpen st) v
    (formData st).

Definition setFormData (v : FormData) (st : State) : State :=
  mkState (users st) (loading st) (toastMessage st) (isModalOpen st)
    (editingUser st) v.

(** [showToast(msg)]: the toast is shown; a timer takes it down later. *)
Definition showToast (msg : jsstring) (st : State) : State :=
  mkState (users st) (loading st) (Some msg) (isModalOpen st) (editingUser st)
    (formData st).

(** The row to [UnifiedUser] mapping of [fetchUsers]. *)
Definition mapUser (p : ProfileRow.t) : UnifiedUser.t :=
  UnifiedUser.mk
    (ProfileRow.id p)
    (or_else (ProfileRow.name p) (js "Sem Nome"))
    (ProfileRow.role p)
    (or_else (ProfileRow.specialty p)
       (if bool_decide (ProfileRow.role p = Some (js "reception"))
        then js "Recepção" else js "Médico"))
    (or_else (ProfileRow.phone p) [])
    (or_else (ProfileRow.avatar p) [])
    (or_else (ProfileRow.status p) (js "offline"))
    (to_boolean (ProfileRow.is_admin p))
    (ProfileRow.email p)
    (ProfileRow.gender p)
    p.

Definition fetchUsers (fault : option jsstring) (order : RowOrder)
  (st : State) (w : World) : State * World :=
  let st := setLoading true st in
  match remote (js "profiles") SELECT fault (query (select_profiles order)) w
  with
  | (Data data, w') => (setLoading false (setUsers (mapUser <$> data) st), w')
  | (Failed _, w') =>
    (setLoading false (showToast (js "Erro ao carregar usuários.") st),
     console_error (js "Error loading users:") w')
  end.

Definition toggleAdmin (ctx : AuthContext.t) (fault : option jsstring)
  (userId : jsstring) (currentStatus : bool) (st : State) (w : World)
  : State * World :=
  if bool_decide (Some userId = AuthContext.user_id ctx) then
    (st, alert (js "Você não pode alterar seu próprio status de administrador por aqui.") w)
  else
    match remote (js "profiles") UPDATE fault
            (write (update_profile_is_admin userId (negb currentStatus))) w
    with
    | (Data _, w') =>
      (showToast (if negb currentStatus
                  then js "Usuário promovido a Admin!"
                  else js "Status de Admin removido.") st, w')
    | (Failed _, w') =>
      (showToast (js "Erro ao alterar permissão.") st,
       console_error (js "Error toggling admin:") w')
    end.

(** [confirmed] is the answer to [window.confirm]. *)
Definition handleDeleteUser (ctx : AuthContext.t) (confirmed : bool)
  (write_fault fetch_fault : option jsstring) (order : RowOrder)
  (userId : jsstring) (st : State) (w : World) : State * World :=
  if bool_decide (Some userId = AuthContext.user_id ctx) then
    (st, alert (js "Você não pode excluir seu próprio usuário.") w)
  else if confirmed then
    match remote (js "profiles") DELETE write_fault
            (write (delete_profile userId)) w with
    | (Data _, w') =>
      fetchUsers fetch_fault order
        (showToast (js "Usuário removido com sucesso.") st) w'
    | (Failed _, w') =>
      (showToast (js "Erro ao remover usuário.") st,
       console_error (js "Error deleting user:") w')
    end
  else (st, w).

Definition openEditModal (user : UnifiedUser.t) (st : State) : State :=
  setIsModalOpen true
    (setFormData
       (mkForm (UnifiedUser.name user) (UnifiedUser.phone user)
          (UnifiedUser.roleType user)
          (UnifiedUser.roleDisplay user)
          (or_else (UnifiedUser.email user) [])
          (or_else (UnifiedUser.gender user) (js "male"))
          (UnifiedUser.isAdmin user))
       (setEditingUser (Some user) st)).

(** The checkbox of the modal: [setFormData({ ...formData, isAdmin })]. *)
Definition changeIsAdmin (checked : bool) (st : State) : State :=
  let f := formData st in
  setFormData (mkForm (name f) (phone f) (role f) (roleDisplay f) (email f)
                 (gender f) checked) st.

Section Runtime.

(** [encodeURIComponent] of the runtime. *)
Variable encodeURIComponent : jsstring → jsstring.

Definition avatar_url (f : FormData) : jsstring :=
  js "https://ui-avatars.com/api/?name=" ++ encodeURIComponent (name f)
  ++ js "&background="
  ++ (if bool_decide (role f = Some (js "reception"))
      then js "f97316" else js "10605B")
  ++ js "&color=fff".

(** [from('profiles').update(profileData).eq('id', id)]. *)
Definition update_profile (id : jsstring) (f : FormData) : Store → Store :=
  map_profile id (λ p,
    ProfileRow.mk (ProfileRow.id p) (Some (name f)) (Some (email f))
      (role f) (Some (roleDisplay f)) (Some (phone f))
      (Some (avatar_url f)) (ProfileRow.color p) (ProfileRow.status p)
      (Some (gender f)) (Some (isAdmin f))).

(** The row [{ ...profileData, id }] of a creation. *)
Definition new_profile (id : jsstring) (f : FormData) : ProfileRow.t :=
  ProfileRow.mk id (Some (name f)) (Some (email f)) (role f)
    (Some (roleDisplay f)) (Some (phone f)) (Some (avatar_url f)) None None
    (Some (gender f)) (Some (isAdmin f)).

(** [randomUUID] is the value [crypto.randomUUID()] returns. *)
Definition handleSaveUser (randomUUID : jsstring)
  (write_fault fetch_fault : option jsstring) (order : RowOrder)
  (st : State) (w : World) : State * World :=
  let f := formData st in
  match name f, roleDisplay f with
  | _ :: _, _ :: _ =>
    let saved :=
      match editingUser st with
      | Some u =>
        (remote (js "profiles") UPDATE write_fault
           (write (update_profile (UnifiedUser.id u) f)) w,
         js "Usuário atualizado com sucesso!")
      | None =>
        (remote (js "profiles") INSERT write_fault
           (write (insert_profile (new_profile randomUUID f))) w,
         js "Novo usuário criado!")
      end in
    match saved with
    | ((Data _, w'), msg) =>
      fetchUsers fetch_fault order (setIsModalOpen false (showToast msg st)) w'
    | ((Failed _, w'), _) =>
      (showToast (js "Erro ao salvar usuário.") st,
       console_error (js "Error saving user:") w')
    end
  | _, _ =>
    (st, alert (js "Nome e Setor/Especialidade são obrigatórios.") w)
  end.

End Runtime.

End Users.

(** ** The title of a doctor's name *)

(** A unit of the subject matches a letter of a pattern under the flag
    [i] when it is the letter in either case. *)
Definition letter (lower : N) (c : N) : bool := (c =? lower) || (c =? lower - 32).

(** A unit matches a character without case when it is that character. *)
Definition exactly (unit : N) (c : N) : bool := c =? unit.

(** The alternatives of [(dr|dra|dr\.|dra\.|drº|drª)], in their order. *)
Definition title_alternatives : list (list (N → bool)) :=
  [ [letter 100; letter 114];
    [letter 100; letter 114; letter 97];
    [letter 100; letter 114; exactly 46];
    [letter 100; letter 114; letter 97; exactly 46];
    [letter 100; letter 114; exactly 186];
    [letter 100; letter 114; exactly 170] ].

(** What follows a prefix of the subject matched unit by unit. *)
Fixpoint match_units (pattern : list (N → bool)) (s : jsstring)
  : option jsstring :=
  match pattern, s with
  | [], _ => Some s
  | _ :: _, [] => None
  | m :: pattern', c :: s' => if m c then match_units pattern' s' else None
  end.

(** What follows a match of one alternative and of [\s+] after it: the
    white space is matched as far as it goes. *)
Definition match_title (pattern : list (N → bool)) (s : jsstring)
  : option jsstring :=
  match match_units pattern s with
  | Some (c :: rest) => if is_white_space c then Some (trimStart rest) else None
  | _ => None
  end.

(** [name.replace(/^(dr|dra|dr\.|dra\.|drº|drª)\s+/i, '')]: the first
    alternative that matches at the start, white space included, is cut
    off; without a match the name is as it was. *)
Definition strip_title (name : jsstring) : jsstring :=
  default name
    (head (omap (λ pattern, match_title pattern name) title_alternatives)).

(** ** The professionals page (pages/Professionals) *)

Module Professionals.

Record FormData := mkForm {
  name : jsstring;
  specialty : jsstring;
  phone : jsstring;
  gender : jsstring;
  sector : jsstring;
  status : jsstring
}.

Record State := mkState {
  professionals : list Doctor.t;
  loading : bool;
  search : jsstring;
  toastMessage : option jsstring;
  isModalOpen : bool;
  editingProfessional : option Doctor.t;
  formData : FormData
}.

Definition setProfessionals (v : list Doctor.t) (st : State) : State :=
  mkState v (loading st) (search st) (toastMessage st) (isModalOpen st)
    (editingProfessional st) (formData st).

Definition setLoading (v : bool) (st : State) : State :=
  mkState (professionals st) v (search st) (toastMessage st) (isModalOpen st)
    (editingProfessional st) (formData st).

Definition setIsModalOpen (v : bool) (st : State) : State :=
  mkState (professionals st) (loading st) (search st) (toastMessage st) v
    (editingProfessional st) (formData st).

Definition showToast (msg : jsstring) (st : State) : State :=
  mkState (professionals st) (loading st) (search st) (Some msg)
    (isModalOpen st) (editingProfessional st) (formData st).

(** The row to [Doctor] mapping of [fetchProfessionals]; the column
    stores "Specialty | Sector". *)
Definition mapProfessional (p : ProfileRow.t) : Doctor.t :=
  let parts := split (js " | ") (or_else (ProfileRow.specialty p) []) in
  Doctor.mk
    (ProfileRow.id p)
    (or_else (ProfileRow.name p) (js "Sem Nome"))
    (trim (or_else (at_index parts 0) (js "Geral")))
    (trim (or_else (at_index parts 1) []))
    (or_else (ProfileRow.phone p) [])
    (or_else (ProfileRow.avatar p) [])
    []
    (or_else (ProfileRow.status p) (js "active"))
    (Some (or_else (ProfileRow.gender p) (js "male")))
    (Some (to_boolean (ProfileRow.is_admin p))).

Definition fetchProfessionals (fault : option jsstring) (order : RowOrder)
  (st : State) (w : World) : State * World :=
  let st := setLoading true st in
  match remote (js "profiles") SELECT fault
          (query (select_profiles_by_role order (js "doctor"))) w with
  | (Data data, w') =>
    (setLoading false (setProfessionals (mapProfessional <$> data) st), w')
  | (Failed message, w') =>
    (setLoading false
       (showToast (js "Erro ao carregar profissionais: "
                   ++ or_else (Some message) (js "Erro desconhecido")) st),
     console_error (js "Catch error fetching professionals:")
       (console_error (js "Supabase error fetching professionals:") w'))
  end.

(** The value [handleSave] stores in the [specialty] column. *)
Definition combinedSpecialty (f : FormData) : jsstring :=
  specialty f ++ js " | " ++ sector f.

Definition fullName (f : FormData) : jsstring :=
  (if bool_decide (gender f = js "male") then js "Drº" else js "Drª")
  ++ js " " ++ name f.

(** [from('profiles').update(profData).eq('id', id)]. *)
Definition update_professional (id : jsstring) (f : FormData)
  : Store → Store :=
  map_profile id (λ p,
    ProfileRow.mk (ProfileRow.id p) (Some (fullName f)) (ProfileRow.email p)
      (Some (js "doctor")) (Some (combinedSpecialty f)) (Some (phone f))
      (ProfileRow.avatar p) (ProfileRow.color p) (Some (status f))
      (Some (gender f)) (ProfileRow.is_admin p)).

(** The row [{ ...profData, id }] of a creation. *)
Definition new_professional (id : jsstring) (f : FormData) : ProfileRow.t :=
  ProfileRow.mk id (Some (fullName f)) None (Some (js "doctor"))
    (Some (combinedSpecialty f)) (Some (phone f)) None None (Some (status f))
    (Some (gender f)) None.

(** [randomUUID] is the value [window.crypto.randomUUID()] returns. *)
Definition handleSave (randomUUID : jsstring)
  (write_fault fetch_fault : option jsstring) (order : RowOrder)
  (st : State) (w : World) : State * World :=
  let f := formData st in
  match name f with
  | [] => (st, alert (js "Nome é obrigatório.") w)
  | _ :: _ =>
    let saved :=
      match editingProfessional st with
      | Some prof =>
        (remote (js "profiles") UPDATE write_fault
           (write (update_professional (Doctor.id prof) f)) w,
         js "Profissional atualizado com sucesso!")
      | None =>
        (remote (js "profiles") INSERT write_fault
           (write (insert_profile (new_professional randomUUID f))) w,
         js "Profissional criado com sucesso!")
      end in
    match saved with
    | ((Data _, w'), msg) =>
      fetchProfessionals fetch_fault order
        (setIsModalOpen false (showToast msg st)) w'
    | ((Failed _, w'), _) =>
      (showToast (js "Erro ao salvar profissional.") st,
       console_error (js "Error saving professional:") w')
    end
  end.

(** [confirmed] is the answer to [window.confirm]. *)
Definition handleDelete (confirmed : bool)
  (write_fault fetch_fault : option jsstring) (order : RowOrder)
  (id : jsstring) (st : State) (w : World) : State * World :=
  if confirmed then
    match remote (js "profiles") DELETE write_fault
            (write (delete_profile id)) w with
    | (Data _, w') =>
      fetchProfessionals fetch_fault order
        (showToast (js "Profissional excluído.") st) w'
    | (Failed _, w') =>
      (showToast (js "Erro ao excluir profissional.") st,
       console_error (js "Error deleting professional:") w')
    end
  else (st, w).

Definition setEditingProfessional (v : option Doctor.t) (st : State) : State :=
  mkState (professionals st) (loading st) (search st) (toastMessage st)
    (isModalOpen st) v (formData st).

Definition setFormData (v : FormData) (st : State) : State :=
  mkState (professionals st) (loading st) (search st) (toastMessage st)
    (isModalOpen st) (editingProfessional st) v.

Section Runtime.

(** [String.prototype.toLowerCase] of the runtime. *)
Variable toLowerCase : jsstring → jsstring.

(** The professionals the page lists: those that match the search and
    belong to the selected sector. *)
Definition filtered (ctx : AuthContext.t) (st : State) : list Doctor.t :=
  filter (λ p,
    let matchesSearch :=
      includes (toLowerCase (search st)) (toLowerCase (Doctor.name p))
      || includes (toLowerCase (search st)) (toLowerCase (Doctor.specialty p)) in
    let matchesSector :=
      bool_decide (Doctor.sector p = AuthContext.selectedFloor ctx) in
    matchesSearch && matchesSector = true)
    (professionals st).

(** [FLOOR_OPTIONS[0]]. *)
Definition first_floor : jsstring := default [] (AuthContext.FLOOR_OPTIONS !! 0%nat).

Definition openModal (ctx : AuthContext.t) (prof : option Doctor.t)
  (st : State) : State :=
  match prof with
  | Some prof =>
    let name := Doctor.name prof in
    let gender :=
      or_else (Doctor.gender prof)
        (if startsWith (js "dra") (toLowerCase name)
         then js "female" else js "male") in
    setIsModalOpen true
      (setFormData
         (mkForm (trim (strip_title name)) (Doctor.specialty prof)
            (Doctor.phone prof) gender
            (or_else (Some (Doctor.sector prof))
               (or_else (Some (AuthContext.selectedFloor ctx)) first_floor))
            (Doctor.status prof))
         (setEditingProfessional (Some prof) st))
  | None =>
    setIsModalOpen true
      (setFormData
         (mkForm [] [] [] (js "male")
            (or_else (Some (AuthContext.selectedFloor ctx)) first_floor)
            (js "active"))
         (setEditingProfessional None st))
  end.

End Runtime.

End Professionals.

(** ** Tasks and notes (types) *)

(** The declarations of [Task], [Note], [TaskStatus] and [Priority] are
    not among the sources: the members and fields below are the ones the
    pages name. *)
Module Types.

Inductive TaskStatus := PENDING | IN_PROGRESS | DONE.

Inductive Priority := HIGH | MEDIUM | LOW.

Global Instance TaskStatus_eq_dec : EqDecision TaskStatus.
Proof. solve_decision. Defined.

Global Instance Priority_eq_dec : EqDecision Priority.
Proof. solve_decision. Defined.

Record Task := mkTask {
  id : jsstring;
  title : jsstring;
  description : option jsstring;
  isPatientRelated : option bool;
  patient : option jsstring;
  patientCard : option jsstring;
  patientGuide : option jsstring;
  patientPhone : option jsstring;
  status : TaskStatus;
  priority : Priority;
  date : jsstring;
  taskType : option jsstring;
  messageType : option jsstring;
  authorName : option jsstring;
  createdAt : option jsstring;
  sector : option jsstring;
  recipientId : option jsstring;
  recipientName : option jsstring;
  assignedTo : option jsstring
}.

Record Note := mkNote {
  to : option jsstring;
  note_status : option jsstring;
  category : option jsstring
}.

(** What [JSON.parse] makes of a stored text, as far as a page that
    types the result [A[]] can tell: the parse throws; or the value is no
    array, so that it has no [filter] to call; or it is an array, whose
    items are [null] or values read as [A]. *)
Inductive Parsed (A : Type) :=
| SyntaxError
| NotArray
| Array (items : list (option A)).

Global Arguments SyntaxError {A}.
Global Arguments NotArray {A}.
Global Arguments Array {A} items.

(** [items.filter(t => ... t.field ...)]: reading a field of [null]
    throws, and so does the call on a value without [filter]; [None] is
    the exception. *)
Definition filter_items {A} (P : A → Prop) `{!∀ x, Decision (P x)}
  (value : Parsed A) : option (list A) :=
  match value with
  | Array items => filter P <$> mapM (λ item, item) items
  | _ => None
  end.

End Types.

(** ** The dashboard (pages/Dashboard) *)

Module Dashboard.

(** [now] is the value of [new Date()]. *)
Definition getLocalDateKey (now : Date) : jsstring :=
  let d := now in
  let year := getFullYear d in
  let month := padStart 2 (js "0") (String_of_number (succ_number (getMonth d))) in
  let day := padStart 2 (js "0") (String_of_number (getDate d)) in
  String_of_number year ++ js "-" ++ month ++ js "-" ++ day.

(** A row of [select('*, profiles(name, specialty)')]: the allocation
    with the name and specialty of the profile of its doctor embedded. *)
Record AllocationRow := mkAllocationRow {
  allocation : DBAllocation.t;
  embedded : option (option jsstring * option jsstring)
}.

(** [from('room_allocations').select('*, profiles(name, specialty)')
    .eq('date', dateKey).in('room_id', roomIds)]. *)
Definition select_allocations_with_profiles (dateKey : jsstring)
  (roomIds : list N) (s : Store) : list AllocationRow :=
  (λ a,
     mkAllocationRow a
       ((λ found, (ProfileRow.name found.2, ProfileRow.specialty found.2))
          <$> list_find (λ p, ProfileRow.id p = DBAllocation.doctor_id a)
                (profiles s)))
    <$> select_allocations dateKey roomIds s.

Record DashboardStats := mkStats {
  pendingTasks : nat;
  highPriorityTasks : nat;
  pendingNotes : nat;
  urgentNotes : nat;
  morningDoctors : nat;
  afternoonDoctors : nat;
  totalDoctors : nat
}.

Record State := mkState {
  rooms : list Room.t;
  allocations : list AllocationRow;
  stats : DashboardStats;
  loading : bool
}.

(** [new Set(values).size]. *)
Definition distinct (values : list jsstring) : nat :=
  length (remove_dups values).

Section Runtime.

(** [JSON.parse] of the runtime, at the types the page gives its results,
    [Task[]] and [Note[]]. *)
Variable JSON_parse_tasks : jsstring → Types.Parsed Types.Task.
Variable JSON_parse_notes : jsstring → Types.Parsed Types.Note.

Definition doctor_of (a : AllocationRow) : jsstring :=
  DBAllocation.doctor_id (allocation a).

Definition on_shift (shift : Shift) (allocsData : list AllocationRow)
  : list AllocationRow :=
  filter (λ a, DBAllocation.shift (allocation a) = shift) allocsData.

Definition setRooms (value : list Room.t) (st : State) : State :=
  mkState value (allocations st) (stats st) (loading st).

Definition setAllocations (value : list AllocationRow) (st : State) : State :=
  mkState (rooms st) value (stats st) (loading st).

Definition setStats (value : DashboardStats) (st : State) : State :=
  mkState (rooms st) (allocations st) value (loading st).

Definition setLoading (value : bool) (st : State) : State :=
  mkState (rooms st) (allocations st) (stats st) value.

(** [now] is the value of [new Date()] when the page renders.  The
    [error] of the two answers is not looked at.  Whatever is thrown is
    caught and logged, and the page stops loading: a text that does not
    parse throws before the rooms and the allocations are set, a value
    that cannot be filtered throws after. *)
Definition fetchRealtimeData (ctx : AuthContext.t) (now : Date)
  (localStorage : AuthContext.Storage)
  (rooms_fault allocations_fault : option jsstring) (st : State) (w : World)
  : State * World :=
  let todayDateKey := getLocalDateKey now in
  let '(roomsAnswer, w1) :=
    remote (js "rooms") SELECT rooms_fault
      (query (select_rooms (AuthContext.selectedFloor ctx))) w in
  let roomsData :=
    match roomsAnswer with
    | Data data => data
    | Failed _ => []
    end in
  let roomIds := Room.id <$> roomsData in
  let '(allocsData, w2) :=
    match roomIds with
    | [] => ([], w1)
    | _ :: _ =>
      match remote (js "room_allocations") SELECT allocations_fault
              (query (select_allocations_with_profiles todayDateKey roomIds))
              w1 with
      | (Data data, w2) => (data, w2)
      | (Failed _, w2) => ([], w2)
      end
    end in
  let caught := λ st1,
    (setLoading false st1,
     console_error (js "Error loading dashboard data:") w2) in
  let savedTasks :=
    JSON_parse_tasks
      (or_else (AuthContext.getItem (js "mediportal_tasks") localStorage)
         (js "[]")) in
  let savedNotes :=
    JSON_parse_notes
      (or_else (AuthContext.getItem (js "mediportal_notes") localStorage)
         (js "[]")) in
  match savedTasks, savedNotes with
  | Types.SyntaxError, _ | _, Types.SyntaxError => caught st
  | _, _ =>
    let st1 := setAllocations allocsData (setRooms roomsData st) in
    let morningDocs := distinct (doctor_of <$> on_shift morning allocsData) in
    let afternoonDocs :=
      distinct (doctor_of <$> on_shift afternoon allocsData) in
    let totalDocs := distinct (doctor_of <$> allocsData) in
    let is_doctor :=
      bool_decide (User.role <$> AuthContext.user ctx = Some (js "doctor")) in
    let myPendingTasks :=
      if is_doctor
      then Types.filter_items
             (λ t, Types.assignedTo t = AuthContext.user_id ctx
                   ∧ Types.status t ≠ Types.DONE) savedTasks
      else Types.filter_items (λ t, Types.status t ≠ Types.DONE) savedTasks in
    let myPendingNotes :=
      if is_doctor
      then Types.filter_items
             (λ n, Types.to n = AuthContext.user_id ctx
                   ∧ Types.note_status n ≠ Some (js "completed")) savedNotes
      else Types.filter_items
             (λ n, Types.note_status n ≠ Some (js "completed")) savedNotes in
    match myPendingTasks, myPendingNotes with
    | Some myPendingTasks, Some myPendingNotes =>
      (setLoading false
         (setStats
            (mkStats (length myPendingTasks)
               (length (filter (λ t, Types.priority t = Types.HIGH)
                          myPendingTasks))
               (length myPendingNotes)
               (length (filter (λ n, Types.category n = Some (js "urgent"))
                          myPendingNotes))
               morningDocs afternoonDocs totalDocs)
            st1),
       w2)
    | _, _ => caught st1
    end
  end.

End Runtime.

End Dashboard.

(** ** The tasks page (pages/Tasks) *)

Module Tasks.

(** The value of the filter: a status, or ['Active']. *)
Inductive Filter := Active | Only (status : Types.TaskStatus).

(** The state the handlers below work on.  [formData], [modalMode] and
    the cached doctors are left out: none of these handlers reads them. *)
Record State := mkState {
  tasks : list Types.Task;
  filter_by : Filter;
  isModalOpen : bool;
  currentTask : option Types.Task;
  searchProfessional : jsstring;
  showProfessionalResults : bool
}.

Definition setTasks (update : list Types.Task → list Types.Task) (st : State)
  : State :=
  mkState (update (tasks st)) (filter_by st) (isModalOpen st) (currentTask st)
    (searchProfessional st) (showProfessionalResults st).

Definition setFilter (value : Filter) (st : State) : State :=
  mkState (tasks st) value (isModalOpen st) (currentTask st)
    (searchProfessional st) (showProfessionalResults st).

(** [{ ...task, status: newStatus }]. *)
Definition with_status (newStatus : Types.TaskStatus) (task : Types.Task)
  : Types.Task :=
  Types.mkTask (Types.id task) (Types.title task) (Types.description task)
    (Types.isPatientRelated task) (Types.patient task)
    (Types.patientCard task) (Types.patientGuide task)
    (Types.patientPhone task) newStatus (Types.priority task)
    (Types.date task) (Types.taskType task) (Types.messageType task)
    (Types.authorName task) (Types.createdAt task) (Types.sector task)
    (Types.recipientId task) (Types.recipientName task)
    (Types.assignedTo task).

(** The predicate of [filteredTasks]. *)
Definition shown (ctx : AuthContext.t) (value : Filter) (task : Types.Task)
  : bool :=
  if truthy (Types.sector task)
     && negb (bool_decide
                (Types.sector task = Some (AuthContext.selectedFloor ctx)))
  then false
  else
    match value with
    | Active => negb (bool_decide (Types.status task = Types.DONE))
    | Only status => bool_decide (Types.status task = status)
    end.

Definition filteredTasks (ctx : AuthContext.t) (st : State)
  : list Types.Task :=
  filter (λ task, shown ctx (filter_by st) task = true) (tasks st).

Definition handleStatusChange (taskId : jsstring)
  (newStatus : Types.TaskStatus) (st : State) : State :=
  setTasks
    (λ prevTasks,
       (λ task,
          if bool_decide (Types.id task = taskId)
          then with_status newStatus task
          else task) <$> prevTasks)
    st.

(** The timer that clears [currentTask] 200 ms later is not part of the
    step. *)
Definition closeModal (st : State) : State :=
  mkState (tasks st) (filter_by st) false (currentTask st) [] false.

(** [confirmed] is the answer to [window.confirm]. *)
Definition handleDelete (confirmed : bool) (taskId : jsstring) (st : State)
  : State :=
  if confirmed
  then
    let st1 :=
      setTasks (λ prevTasks, filter (λ t, Types.id t ≠ taskId) prevTasks) st in
    if isModalOpen st
       && bool_decide (Types.id <$> currentTask st = Some taskId)
    then closeModal st1
    else st1
  else st.

End Tasks.

(** ** Words of the specification *)

(** The segments of a string cut at a delimiter: a string without the
    delimiter is its own single segment; otherwise the first segment ends
    where the delimiter first occurs and the others are the segments of
    what follows it. *)
Inductive segments (sep : jsstring) : jsstring → list jsstring → Prop :=
| segments_whole s :
    includes sep s = false → segments sep s [s]
| segments_cut a rest parts :
    (∀ i, (i < length a)%nat → startsWith sep (drop i (a ++ sep ++ rest)) = false) →
    segments sep rest parts →
    segments sep (a ++ sep ++ rest) (a :: parts).

(** The decimal digit [k]. *)
Definition digit (k : Z) : N := 48 + Z.to_N k.

(** A number written with two digits, and a year written with four. *)
Definition two_digits (n : Z) : jsstring :=
  [digit (n / 10); digit (n mod 10)]%Z.

Definition four_digits (n : Z) : jsstring :=
  [digit (n / 1000); digit (n / 100 mod 10); digit (n / 10 mod 10);
   digit (n mod 10)]%Z.

(** The zero-padded key 'YYYY-MM-DD' of a calendar day: [month] is the
    month of the year counted from 1. *)
Definition YYYY_MM_DD (year month day : Z) : jsstring :=
  four_digits year ++ js "-" ++ two_digits month ++ js "-" ++ two_digits day.

(** *** Sequences of assignments *)

(** One call of [handleAssignDoctor]: the context and the state of the
    page that makes it, the doctor chosen, and the faults of its two
    remote calls.  The pages of all clients write to the one store. *)
Record Assign := mkAssign {
  assign_ctx : AuthContext.t;
  assign_page : DailyMap.State;
  assign_doctor : jsstring;
  assign_write_fault : option jsstring;
  assign_fetch_fault : option jsstring
}.

Definition run_assign (w : World) (op : Assign) : World :=
  snd (DailyMap.handleAssignDoctor (assign_ctx op) (assign_write_fault op)
         (assign_fetch_fault op) (assign_doctor op) (assign_page op) w).

Definition run_assigns (ops : list Assign) (w : World) : World :=
  foldl run_assign w ops.

(** The slot an assignment commits to: the one selected on its page, at
    the date in view, when the store answers the write. *)
Definition committed_slot (op : Assign) : option (N * jsstring * Shift) :=
  match DailyMap.selectedSlot (assign_page op), assign_write_fault op with
  | Some (roomId, shift), None =>
    Some (roomId, DailyMap.formatDateKey (DailyMap.currentDate (assign_page op)),
          shift)
  | _, _ => None
  end.

(** The doctor of the most recent assignment committed to a slot. *)
Fixpoint last_assigned (slot : N * jsstring * Shift) (ops : list Assign)
  : option jsstring :=
  match ops with
  | [] => None
  | op :: ops' =>
    match last_assigned slot ops' with
    | Some d => Some d
    | None =>
      if bool_decide (committed_slot op = Some slot)
      then Some (assign_doctor op) else None
    end
  end.

(** The rows of the store for a slot. *)
Definition rows_of_slot (slot : N * jsstring * Shift) (s : Store)
  : list DBAllocation.t :=
  filter (λ a, slot_of a = slot) (room_allocations s).

(** The uniqueness constraint of [room_allocations]. *)
Definition unique_slots (s : Store) : Prop :=
  NoDup (slot_of <$> room_allocations s).

(** *** Sequences of events of the daily map *)

(** The handlers of the daily map that write to the store, each with the
    context and state of the page that runs it. *)
Inductive Event :=
| SaveRoom (ctx : AuthContext.t) (write_fault fetch_fault : option jsstring)
    (page : DailyMap.State)
| DeleteRoom (ctx : AuthContext.t) (confirmed : bool)
    (write_fault fetch_fault : option jsstring) (id : N)
    (page : DailyMap.State)
| AssignDoctor (ctx : AuthContext.t)
    (write_fault fetch_fault : option jsstring) (doctorId : jsstring)
    (page : DailyMap.State)
| ClearSlot (write_fault fetch_fault : option jsstring)
    (page : DailyMap.State).

Definition run_event (w : World) (ev : Event) : World :=
  match ev with
  | SaveRoom ctx wf ff page => snd (DailyMap.handleSaveRoom ctx wf ff page w)
  | DeleteRoom ctx confirmed wf ff id page =>
    snd (DailyMap.handleDeleteRoom ctx confirmed wf ff id page w)
  | AssignDoctor ctx wf ff doctorId page =>
    snd (DailyMap.handleAssignDoctor ctx wf ff doctorId page w)
  | ClearSlot wf ff page => snd (DailyMap.handleClearSlot wf ff page w)
  end.

Definition run_events (evs : list Event) (w : World) : World :=
  foldl run_event w evs.

(** The keys of the rooms are below the serial number of the store. *)
Definition serial_fresh (s : Store) : Prop :=
  ∀ r, r ∈ rooms s → Room.id r < serial s.

(** The room with key [created] belongs to [sector], and the store will
    not give its key to another room. *)
Definition stamped (created : N) (sector : jsstring) (s : Store) : Prop :=
  created < serial s
  ∧ serial_fresh s
  ∧ ∀ r, r ∈ rooms s → Room.id r = created → Room.sector r = sector.


(** The constraints of the store the daily map writes to: one allocation
    per slot, one room per key, and keys below the serial number. *)
Definition store_constraints (s : Store) : Prop :=
  unique_slots s ∧ NoDup (Room.id <$> rooms s) ∧ serial_fresh s.

(** *** Stored lists that cannot be filtered *)

(** A parsed value on which [filter] with a callback that reads a field
    of the item throws: a value that is no array, or an array that holds
    [null]. *)
Definition throws_on_filter {A} (value : Types.Parsed A) : Prop :=
  match value with
  | Types.SyntaxError => False
  | Types.NotArray => True
  | Types.Array items => None ∈ items
  end.

(** *** The task open in the modal *)

(** While the modal of the tasks page is open on a task, a task of that
    id is in the list. *)
Definition modal_task_listed (st : Tasks.State) : Prop :=
  Tasks.isModalOpen st = true →
  ∀ t, Tasks.currentTask st = Some t →
       Types.id t ∈ Types.id <$> Tasks.tasks st.

(** ** Inputs of the examples *)

(** The row of the example of the mapping property. *)
Definition cardiologia_row : ProfileRow.t :=
  ProfileRow.mk (js "d1") (Some (js "Drª Ana")) None (Some (js "doctor"))
    (Some (js "Cardiologia | 8º Andar ( CLÍNICA MÉDICA / CARDIOLOGIA )"))
    None None None None None None.

(** A store without rows and a world around it. *)
Definition empty_store : Store := mkStore [] [] [] 0.
Definition empty_world : World := mkWorld empty_store [] [] [].

(** A reception user working on the CDU sector. *)
Definition reception_ctx : AuthContext.t :=
  AuthContext.mk
    (Some (User.mk (js "u1") (js "Rita") (js "reception") true))
    (js "CDU - CENTRO DE DIAGNÓSTICO UNIMED").

(** The daily map on 2024-01-10 with the morning slot of a room selected. *)
Definition page_with_slot (roomId : N) : DailyMap.State :=
  DailyMap.mkState (LocalDate 2024 0 10) [] [] [] [] true
    (Some (roomId, morning)) ([], []) None.

(** The same user working on the 9th floor. *)
Definition floor9_ctx : AuthContext.t :=
  AuthContext.mk (AuthContext.user reception_ctx)
    (js "9º Andar ( OFTALMOLOGIA )").

(** The daily map with the room form filled in for a new room. *)
Definition sala1_page : DailyMap.State :=
  DailyMap.mkState (LocalDate 2024 0 10) [] [] [] [] false None
    (js "Sala 1", js "201") None.

(** The daily map with two doctors in its cache, one of the CDU sector and
    one of the 9th floor, and the modal open on the morning slot of a room. *)
Definition doctors_page (roomId : N) : DailyMap.State :=
  DailyMap.mkState (LocalDate 2024 0 10) [] []
    [Doctor.mk (js "D1") (js "Drª Ana") (js "Cardiologia")
       (js "CDU - CENTRO DE DIAGNÓSTICO UNIMED") [] [] [] (js "active") None
       None;
     Doctor.mk (js "D2") (js "Drº Rui") (js "Oftalmologia")
       (js "9º Andar ( OFTALMOLOGIA )") [] [] [] (js "active") None None]
    [] true (Some (roomId, morning)) ([], []) None.

(** An administrator, the store that holds the profile, the context of the
    session and the users page once it has fetched the profiles. *)
Definition admin_row : ProfileRow.t :=
  ProfileRow.mk (js "u1") (Some (js "Rita")) (Some (js "rita@example.com"))
    (Some (js "reception")) (Some (js "CDU - CENTRO DE DIAGNÓSTICO UNIMED"))
    None None None (Some (js "online")) (Some (js "female")) (Some true).

Definition admin_world : World :=
  mkWorld (mkStore [admin_row] [] [] 0) [] [] [].

Definition users_page : Users.State :=
  Users.mkState [Users.mapUser admin_row] false None false None
    (Users.mkForm [] [] (Some (js "reception")) [] [] (js "male") false).

(** The scenario of the specification: on the CDU sector create a room,
    assign D1 and then D2 to its morning slot on 2024-01-10, then clear the
    slot.  Each step runs on the page state and the world of the one
    before. *)
Definition scenario_created : DailyMap.State * World :=
  DailyMap.handleSaveRoom reception_ctx None None sala1_page empty_world.

Definition scenario_assign (doctorId : jsstring)
  (before : DailyMap.State * World) : DailyMap.State * World :=
  DailyMap.handleAssignDoctor reception_ctx None None doctorId
    (DailyMap.clickSlot reception_ctx 0 morning before.1) before.2.

Definition scenario_clear (before : DailyMap.State * World)
  : DailyMap.State * World :=
  DailyMap.handleClearSlot None None
    (DailyMap.clickSlot reception_ctx 0 morning before.1) before.2.

(** A room of the CDU sector and the daily map that has it in its cache,
    with the modal open on its morning slot. *)
Definition sala1 : Room.t :=
  Room.mk 0 (js "Sala 1") (js "201") (js "CDU - CENTRO DE DIAGNÓSTICO UNIMED")
    0.

Definition sala1_slot_page : DailyMap.State :=
  DailyMap.mkState (LocalDate 2024 0 10) [sala1] [] [] [] true
    (Some (0, morning)) ([], []) None.

(** A store that holds the room, and the daily map editing it. *)
Definition sala1_world : World :=
  mkWorld (mkStore [] [sala1] [] 1) [] [] [].

Definition sala1_edit_page : DailyMap.State :=
  DailyMap.mkState (LocalDate 2024 0 10) [sala1] [] [] [] false None
    (js "Sala 1A", js "202") (Some 0).

(** A doctor without the administrator flag, a store with both profiles,
    and the users page that has fetched them. *)
Definition doctor_row : ProfileRow.t :=
  ProfileRow.mk (js "u2") (Some (js "Drº Rui")) (Some (js "rui@example.com"))
    (Some (js "doctor")) (Some (js "Oftalmologia | 9º Andar ( OFTALMOLOGIA )"))
    None None None (Some (js "active")) (Some (js "male")) (Some false).

Definition staff_world : World :=
  mkWorld (mkStore [admin_row; doctor_row] [] [] 0) [] [] [].

Definition staff_page : Users.State :=
  Users.mkState [Users.mapUser admin_row; Users.mapUser doctor_row] false None
    false None (Users.mkForm [] [] (Some (js "reception")) [] [] (js "male") false).

(** A profile without a role, as the sign-up leaves it, and a store that
    holds it beside the administrator. *)
Definition guest_row : ProfileRow.t :=
  ProfileRow.mk (js "u5") (Some (js "Caio")) (Some (js "caio@example.com"))
    None None None None None None None None.

Definition guest_world : World :=
  mkWorld (mkStore [admin_row; guest_row] [] [] 0) [] [] [].

(** The users page with the form filled in for a new receptionist. *)
Definition new_user_page : Users.State :=
  Users.mkState [Users.mapUser admin_row] false None true None
    (Users.mkForm (js "Bia") (js "14 99999-0000") (Some (js "reception"))
       (js "3º Andar ( SARA )") (js "bia@example.com") (js "female") false).

(** The professionals page with the form filled in for a new doctor. *)
Definition new_professional_form : Professionals.FormData :=
  Professionals.mkForm (js "Ana Souza") (js "Cardiologia") (js "14 3333-0000")
    (js "female") (js "8º Andar ( CLÍNICA MÉDICA / CARDIOLOGIA )")
    (js "active").

Definition new_professional_page : Professionals.State :=
  Professionals.mkState [] false [] None true None new_professional_form.

(** The account the provider promotes, demoted in the store, and the
    provider before the profile is fetched. *)
Definition named_row : ProfileRow.t :=
  ProfileRow.mk (js "u7") (Some (js "Luiz Gustavo Macedo Segura"))
    (Some (js "luiz@example.com")) (Some (js "reception"))
    (Some (js "CDU - CENTRO DE DIAGNÓSTICO UNIMED")) None None None
    (Some (js "online")) (Some (js "male")) (Some true).

Definition named_world : World :=
  mkWorld (mkStore [admin_row; named_row] [] [] 0) [] [] [].

Definition signed_in (userId : jsstring) : AuthProvider.State :=
  AuthProvider.mkState None (Some userId) false
    (js "9º Andar ( OFTALMOLOGIA )").

Definition rita_session : AuthProvider.State :=
  AuthProvider.mkState
    (Some (AuthProvider.mkUser (js "u1") (js "Rita") (js "rita@example.com")
             (js "reception") None None (Some (js "online")) true))
    (Some (js "u1")) false (js "9º Andar ( OFTALMOLOGIA )").

(** Two of the page's mock tasks, a stored note, the storage that holds
    them and a parser that reads them back. *)
Definition mockTask3 : Types.Task :=
  Types.mkTask (js "3") (js "Solicitar insumos") None None None None None
    None Types.DONE Types.LOW (js "2023-10-26") None None None None None None
    None None.

Definition mockTask4 : Types.Task :=
  Types.mkTask (js "4") (js "Confirmar cirurgias da semana") None None None
    None None None Types.PENDING Types.HIGH (js "2023-10-29") None None None
    None None None None None.

Definition urgent_note : Types.Note :=
  Types.mkNote (Some (js "u2")) (Some (js "pending")) (Some (js "urgent")).

Definition parse_tasks (text : jsstring) : Types.Parsed Types.Task :=
  if str_eqb text (js "[]") then Types.Array []
  else Types.Array [Some mockTask3; Some mockTask4].

Definition parse_notes (text : jsstring) : Types.Parsed Types.Note :=
  if str_eqb text (js "[]") then Types.Array []
  else Types.Array [Some urgent_note].

(** Parsers for a text that is no JSON, for a text that holds an object,
    and for an array whose second item is [null]. *)
Definition unreadable (text : jsstring) : Types.Parsed Types.Task :=
  Types.SyntaxError.

Definition parses_to_object (text : jsstring) : Types.Parsed Types.Task :=
  Types.NotArray.

Definition parses_with_null (text : jsstring) : Types.Parsed Types.Task :=
  Types.Array [Some mockTask4; None].

(** Two choices of the store for the order of its answer: the rows as
    the table lists them, and the other way round. *)
Definition insertion_order : RowOrder :=
  mkRowOrder id (λ rows, Permutation_refl rows).

Definition reversed_order : RowOrder :=
  mkRowOrder reverse reverse_Permutation.

Definition stored_lists : AuthContext.Storage :=
  <[js "mediportal_tasks" := js "[...]"]>
    (<[js "mediportal_notes" := js "[...]"]> ∅).

(** A store with the room, both profiles and the doctor on the morning
    and the afternoon of 2024-01-10, and the dashboard before it loads. *)
Definition busy_world : World :=
  mkWorld
    (mkStore [admin_row; doctor_row] [sala1]
       [DBAllocation.mk 0 0 (js "u2") (js "2024-01-10") morning
          (Some (js "u1"));
        DBAllocation.mk 1 0 (js "u2") (js "2024-01-10") afternoon
          (Some (js "u1"))]
       2)
    [] [] [].

Definition dashboard_loading : Dashboard.State :=
  Dashboard.mkState [] [] (Dashboard.mkStats 0 0 0 0 0 0 0) true.

(** The tasks page with the two tasks, the modal open on the second. *)
Definition tasks_page : Tasks.State :=
  Tasks.mkState [mockTask3; mockTask4] Tasks.Active true (Some mockTask4) []
    false.

(** * Properties *)

(** ** The model on concrete inputs *)

Example js_units : js "8º Andar" = [56; 186; 32; 65; 110; 100; 97; 114].
Proof. vm_compute. reflexivity. Qed.

Example split_delimiter :
  split (js " | ") (js "Cardiologia | 8º Andar ( SARA )")
  = [js "Cardiologia"; js "8º Andar ( SARA )"].
Proof. vm_compute. reflexivity. Qed.

Example split_leftmost :
  split (js " | ") (js "x | | b") = [js "x"; js "| b"].
Proof. vm_compute. reflexivity. Qed.

Example split_empty : split (js " | ") [] = [[]].
Proof. vm_compute. reflexivity. Qed.

Example trim_spaces : trim (js "  Clínica Médica ") = js "Clínica Médica".
Proof. vm_compute. reflexivity. Qed.

Example padStart_short : padStart 2 (js "0") (js "7") = js "07".
Proof. vm_compute. reflexivity. Qed.

Example padStart_long : padStart 2 (js "0") (js "123") = js "123".
Proof. vm_compute. reflexivity. Qed.

Example formatDateKey_day :
  DailyMap.formatDateKey (LocalDate 2024 0 10) = js "2024-01-10".
Proof. vm_compute. reflexivity. Qed.

(** The year is written as it is, without padding. *)
Example formatDateKey_early_year :
  DailyMap.formatDateKey (LocalDate 999 11 5) = js "999-12-05".
Proof. vm_compute. reflexivity. Qed.

Example formatDateKey_invalid :
  DailyMap.formatDateKey InvalidDate = js "NaN-NaN-NaN".
Proof. vm_compute. reflexivity. Qed.

(** The scenario of the specification: the second assignment wins, and
    the slot is empty after the clear. *)
Example scenario_lookup :
  Room.name <$> DailyMap.rooms scenario_created.1 = [js "Sala 1"]
  ∧ DBAllocation.doctor_id
      <$> DailyMap.getAllocation (scenario_assign (js "D1") scenario_created).1
            0 morning
    = Some (js "D1")
  ∧ DBAllocation.doctor_id
      <$> DailyMap.getAllocation
            (scenario_assign (js "D2")
               (scenario_assign (js "D1") scenario_created)).1 0 morning
    = Some (js "D2")
  ∧ DailyMap.getAllocation
      (scenario_clear
         (scenario_assign (js "D2")
            (scenario_assign (js "D1") scenario_created))).1 0 morning
    = None.
Proof. vm_compute. repeat split. Qed.


(** ** Strings *)

Lemma startsWith_app (p s : jsstring) : startsWith p (p ++ s) = true.
Proof.
  induction p as [|c p IH]; simpl; [done|].
  by rewrite N.eqb_refl, IH.
Qed.

Lemma startsWith_inv (p s : jsstring) :
  startsWith p s = true → ∃ rest, s = p ++ rest.
Proof.
  revert s. induction p as [|c p IH]; intros s H.
  - by exists s.
  - destruct s as [|d s]; simpl in H; [done|].
    apply andb_true_iff in H as [Hc Hp].
    apply N.eqb_eq in Hc as ->.
    destruct (IH _ Hp) as [rest ->]. by exists rest.
Qed.

Lemma includes_false_inv (p : jsstring) (c : N) (s : jsstring) :
  includes p (c :: s) = false →
  startsWith p (c :: s) = false ∧ includes p s = false.
Proof.
  intros H. change (startsWith p (c :: s) || includes p s = false) in H.
  by apply orb_false_iff in H.
Qed.

Lemma split_go_skip (sep s : jsstring) (k : nat) (cur : jsstring) :
  (k ≤ length s)%nat → split_go sep s k cur = split_go sep (drop k s) 0 cur.
Proof.
  revert k. induction s as [|c s IH]; intros [|k] Hk; simpl in *;
    [done|lia|done|].
  apply IH. lia.
Qed.

Lemma split_go_before (sep a rest cur : jsstring) :
  (∀ i, (i < length a)%nat → startsWith sep (drop i (a ++ rest)) = false) →
  split_go sep (a ++ rest) 0 cur = split_go sep rest 0 (reverse a ++ cur).
Proof.
  revert cur. induction a as [|c a IH]; intros cur H; [done|].
  pose proof (H 0%nat ltac:(simpl; lia)) as H0. simpl in H0.
  change (split_go sep (c :: (a ++ rest)) 0 cur
          = split_go sep rest 0 (reverse (c :: a) ++ cur)).
  cbn [split_go]. rewrite H0, reverse_cons, <-app_assoc. simpl.
  apply IH. intros i Hi. apply (H (S i)). simpl. lia.
Qed.

Lemma split_go_sep (sep rest cur : jsstring) :
  sep ≠ [] →
  split_go sep (sep ++ rest) 0 cur = reverse cur :: split_go sep rest 0 [].
Proof.
  destruct sep as [|c sep]; [done|]. intros _.
  change (split_go (c :: sep) (c :: (sep ++ rest)) 0 cur
          = reverse cur :: split_go (c :: sep) rest 0 []).
  cbn [split_go].
  change (c :: sep ++ rest) with ((c :: sep) ++ rest).
  rewrite startsWith_app. f_equal.
  replace (length (c :: sep) - 1)%nat with (length sep) by (simpl; lia).
  rewrite split_go_skip by (rewrite length_app; lia).
  by rewrite drop_app_length.
Qed.

Lemma split_go_whole (sep s cur : jsstring) :
  includes sep s = false → split_go sep s 0 cur = [reverse cur ++ s].
Proof.
  revert cur. induction s as [|c s IH]; intros cur H.
  - simpl. by rewrite app_nil_r.
  - apply includes_false_inv in H as [H0 Hs].
    cbn [split_go]. rewrite H0, IH by done.
    by rewrite reverse_cons, <-app_assoc.
Qed.

Lemma first_occurrence (sep s : jsstring) :
  includes sep s = true →
  ∃ a rest, s = a ++ sep ++ rest
    ∧ ∀ i, (i < length a)%nat → startsWith sep (drop i s) = false.
Proof.
  induction s as [|c s IH]; intros H.
  - destruct sep; [|done]. exists [], []. split; [done|]. simpl. lia.
  - change (startsWith sep (c :: s) || includes sep s = true) in H.
    destruct (startsWith sep (c :: s)) eqn:H0.
    + destruct (startsWith_inv _ _ H0) as [rest Hrest].
      exists [], rest. split; [done|]. simpl. lia.
    + destruct (IH H) as (a & rest & -> & Hbefore).
      exists (c :: a), rest. split; [done|].
      intros [|i] Hi; [done|]. apply Hbefore. simpl in Hi. lia.
Qed.

(** [split] cuts a string into its segments. *)
Lemma split_segments (sep s : jsstring) :
  sep ≠ [] → segments sep s (split sep s).
Proof.
  intros Hsep.
  assert (split sep s = split_go sep s 0 []) as -> by by destruct sep.
  remember (length s) as n eqn:Hn. revert s Hn.
  induction (lt_wf n) as [n _ IH]; intros s Hn.
  destruct (includes sep s) eqn:Hocc.
  - destruct (first_occurrence _ _ Hocc) as (a & rest & -> & Hbefore).
    rewrite split_go_before, split_go_sep by done.
    rewrite app_nil_r, reverse_involutive.
    apply segments_cut; [done|].
    apply (IH (length rest)); [|done].
    subst n. rewrite !length_app. destruct sep; [done|]. simpl. lia.
  - rewrite split_go_whole by done. by apply segments_whole.
Qed.

(** A string has one sequence of segments only. *)
Lemma segments_split (sep s : jsstring) (parts : list jsstring) :
  sep ≠ [] → segments sep s parts → parts = split sep s.
Proof.
  intros Hsep Hparts.
  assert (split sep s = split_go sep s 0 []) as -> by by destruct sep.
  induction Hparts as [s Hocc|a rest parts Hbefore _ IH].
  - by rewrite split_go_whole.
  - rewrite split_go_before, split_go_sep by done.
    by rewrite app_nil_r, reverse_involutive, IH.
Qed.

(** ** Mapping of profile rows *)

Lemma delimiter_nonempty : js " | " ≠ [].
Proof. done. Qed.

(** C3 (as amended).  For every profile row, cut the stored specialty (the
    empty string when the column is null) at the delimiter " | ".  The
    mapped specialty is the first segment trimmed, or the default label
    ('Geral' on the professionals page, 'Médico' on the daily map) when
    the first segment is empty; the mapped sector is the second segment
    trimmed, or the empty string when there is none.  A row without the
    delimiter maps to the empty sector, and the row with specialty
    "Cardiologia | 8º Andar ( CLÍNICA MÉDICA / CARDIOLOGIA )" maps to
    specialty "Cardiologia" and sector
    "8º Andar ( CLÍNICA MÉDICA / CARDIOLOGIA )". *)
Theorem specialty_sector_split (p : ProfileRow.t) (parts : list jsstring) :
  segments (js " | ") (or_else (ProfileRow.specialty p) []) parts →
  Doctor.specialty (Professionals.mapProfessional p)
    = trim (or_else (parts !! 0%nat) (js "Geral"))
  ∧ Doctor.sector (Professionals.mapProfessional p)
    = trim (or_else (parts !! 1%nat) [])
  ∧ Doctor.specialty (DailyMap.mapDoctor p)
    = trim (or_else (parts !! 0%nat) (js "Médico"))
  ∧ Doctor.sector (DailyMap.mapDoctor p)
    = trim (or_else (parts !! 1%nat) [])
  ∧ (includes (js " | ") (or_else (ProfileRow.specialty p) []) = false →
     Doctor.sector (Professionals.mapProfessional p) = []
     ∧ Doctor.sector (DailyMap.mapDoctor p) = [])
  ∧ (ProfileRow.specialty p
       = Some (js "Cardiologia | 8º Andar ( CLÍNICA MÉDICA / CARDIOLOGIA )") →
     Doctor.specialty (Professionals.mapProfessional p) = js "Cardiologia"
     ∧ Doctor.sector (Professionals.mapProfessional p)
       = js "8º Andar ( CLÍNICA MÉDICA / CARDIOLOGIA )"
     ∧ Doctor.specialty (DailyMap.mapDoctor p) = js "Cardiologia"
     ∧ Doctor.sector (DailyMap.mapDoctor p)
       = js "8º Andar ( CLÍNICA MÉDICA / CARDIOLOGIA )").
Proof.
  intros Hparts.
  apply segments_split in Hparts as ->; [|apply delimiter_nonempty].
  split; [reflexivity|]. split; [reflexivity|].
  split; [reflexivity|]. split; [reflexivity|].
  split.
  - intros Hnone.
    cbn [Professionals.mapProfessional DailyMap.mapDoctor Doctor.sector].
    unfold split, at_index. rewrite split_go_whole by done. done.
  - intros Hrow.
    cbn [Professionals.mapProfessional DailyMap.mapDoctor Doctor.sector
         Doctor.specialty].
    rewrite Hrow. vm_compute. done.
Qed.

Lemma specialty_sector_split_witness :
  segments (js " | ") (or_else (ProfileRow.specialty cardiologia_row) [])
    [js "Cardiologia"; js "8º Andar ( CLÍNICA MÉDICA / CARDIOLOGIA )"]
  ∧ Doctor.specialty (Professionals.mapProfessional cardiologia_row)
    = js "Cardiologia"
  ∧ Doctor.sector (Professionals.mapProfessional cardiologia_row)
    = js "8º Andar ( CLÍNICA MÉDICA / CARDIOLOGIA )".
Proof.
  assert (segments (js " | ") (or_else (ProfileRow.specialty cardiologia_row) [])
            [js "Cardiologia"; js "8º Andar ( CLÍNICA MÉDICA / CARDIOLOGIA )"])
    as Hparts.
  { replace (or_else (ProfileRow.specialty cardiologia_row) [])
      with (js "Cardiologia" ++ js " | "
            ++ js "8º Andar ( CLÍNICA MÉDICA / CARDIOLOGIA )")
      by (vm_compute; reflexivity).
    apply segments_cut.
    - intros i Hi.
      do 11 (destruct i as [|i]; [vm_compute; reflexivity|]).
      simpl in Hi. lia.
    - apply segments_whole. vm_compute. reflexivity. }
  split; [exact Hparts|].
  destruct (specialty_sector_split cardiologia_row _ Hparts)
    as (_ & _ & _ & _ & _ & Hex).
  destruct (Hex eq_refl) as (Hspec & Hsec & _).
  split; [exact Hspec | exact Hsec].
Defined.

(** The row [handleSave] of the professionals page stores for a form whose
    specialty is left empty: the first segment is empty and the mapped
    specialty is the default label, so the mapped specialty is not the
    first segment (C3 as stated fails). *)
Lemma specialty_not_first_segment :
  let f := Professionals.mkForm (js "Ana") [] [] (js "female")
             (js "CDU - CENTRO DE DIAGNÓSTICO UNIMED") (js "active") in
  let p := Professionals.new_professional (js "d2") f in
  ∃ parts,
    segments (js " | ") (or_else (ProfileRow.specialty p) []) parts
    ∧ parts !! 0%nat = Some []
    ∧ Doctor.specialty (Professionals.mapProfessional p) = js "Geral"
    ∧ Doctor.specialty (Professionals.mapProfessional p)
      ≠ default [] (parts !! 0%nat).
Proof.
  intros f p.
  exists (split (js " | ") (or_else (ProfileRow.specialty p) [])).
  split; [apply split_segments, delimiter_nonempty|].
  vm_compute. split; [done|]. split; [done|]. discriminate.
Qed.

(** C7.  A row whose status is missing (null or empty) maps to status
    'active' on the professionals and daily-map mappings and to 'offline'
    on the users mapping; a row with a status keeps it. *)
Theorem status_default (p : ProfileRow.t) :
  (truthy (ProfileRow.status p) = false →
   Doctor.status (Professionals.mapProfessional p) = js "active"
   ∧ Doctor.status (DailyMap.mapDoctor p) = js "active"
   ∧ UnifiedUser.status (Users.mapUser p) = js "offline")
  ∧ (∀ s, ProfileRow.status p = Some s → s ≠ [] →
     Doctor.status (Professionals.mapProfessional p) = s
     ∧ Doctor.status (DailyMap.mapDoctor p) = s
     ∧ UnifiedUser.status (Users.mapUser p) = s).
Proof.
  split.
  - intros Hmissing. simpl.
    destruct (ProfileRow.status p) as [[|c s]|]; done.
  - intros s Hs Hne. simpl. rewrite Hs.
    destruct s; done.
Qed.

Lemma status_default_witness :
  (Doctor.status (Professionals.mapProfessional cardiologia_row) = js "active"
   ∧ Doctor.status (DailyMap.mapDoctor cardiologia_row) = js "active"
   ∧ UnifiedUser.status (Users.mapUser cardiologia_row) = js "offline")
  ∧ (let p := ProfileRow.mk (js "d3") None None None None None None None
                (Some (js "vacation")) None None in
     Doctor.status (Professionals.mapProfessional p) = js "vacation"
     ∧ Doctor.status (DailyMap.mapDoctor p) = js "vacation"
     ∧ UnifiedUser.status (Users.mapUser p) = js "vacation").
Proof.
  split.
  - apply (proj1 (status_default cardiologia_row)). reflexivity.
  - intros p.
    apply (proj2 (status_default p) (js "vacation")); [reflexivity|].
    vm_compute. discriminate.
Defined.

(** ** The allocation conflict guard *)

(** The conflict target of [handleAssignDoctor] is the slot. *)
Lemma conflict_target :
  conflict_columns (js "room_id,date,shift")
  = [col_room_id; col_date; col_shift].
Proof. vm_compute. reflexivity. Qed.

Lemma conflicts_slot (a b : DBAllocation.t) :
  conflicts [col_room_id; col_date; col_shift] a b
  = bool_decide (slot_of a = slot_of b).
Proof.
  unfold conflicts, slot_of. cbn [forallb same_on].
  repeat case_bool_decide; simplify_eq; try done; congruence.
Qed.

Lemma filter_slot_absent (slot : N * jsstring * Shift)
  (rows : list DBAllocation.t) :
  slot ∉ slot_of <$> rows → filter (λ a, slot_of a = slot) rows = [].
Proof.
  induction rows as [|r rows IH]; [done|].
  rewrite fmap_cons, not_elem_of_cons. intros [Hr Hrows].
  rewrite filter_cons_False by done. by apply IH.
Qed.

Lemma unique_slot_rows (slot : N * jsstring * Shift)
  (rows : list DBAllocation.t) :
  NoDup (slot_of <$> rows) →
  (length (filter (λ a, slot_of a = slot) rows) ≤ 1)%nat.
Proof.
  induction rows as [|r rows IH]; [simpl; lia|].
  rewrite fmap_cons. intros [Hr Hnd]%NoDup_cons.
  rewrite filter_cons. case_decide as Hs.
  - subst slot. rewrite filter_slot_absent by done. simpl. lia.
  - by apply IH.
Qed.

Section upsert.

Variable new : DBAllocation.t.

Lemma upsert_row_other_slot (slot : N * jsstring * Shift) rows :
  slot ≠ slot_of new →
  filter (λ a, slot_of a = slot)
    (upsert_row [col_room_id; col_date; col_shift] new rows)
  = filter (λ a, slot_of a = slot) rows.
Proof.
  intros Hne. induction rows as [|r rows IH]; cbn [upsert_row].
  - by rewrite filter_cons_False.
  - rewrite conflicts_slot. case_bool_decide as Hr.
    + rewrite !filter_cons_False; [done|congruence|done].
    + rewrite !filter_cons, IH. done.
Qed.

Lemma upsert_row_slots (slot : N * jsstring * Shift) rows :
  slot ∈ slot_of <$> upsert_row [col_room_id; col_date; col_shift] new rows →
  slot ∈ slot_of <$> rows ∨ slot = slot_of new.
Proof.
  induction rows as [|r rows IH]; cbn [upsert_row].
  - rewrite list_fmap_singleton, list_elem_of_singleton. auto.
  - rewrite conflicts_slot. case_bool_decide as Hr.
    + rewrite !fmap_cons, !elem_of_cons. cbn. intros [->|?]; auto.
    + rewrite !fmap_cons, !elem_of_cons. intros [->|?]; [auto|].
      destruct IH; auto.
Qed.

Lemma upsert_row_unique rows :
  NoDup (slot_of <$> rows) →
  NoDup (slot_of <$> upsert_row [col_room_id; col_date; col_shift] new rows).
Proof.
  induction rows as [|r rows IH]; cbn [upsert_row]; intros Hnd.
  - rewrite list_fmap_singleton. apply NoDup_singleton.
  - rewrite conflicts_slot.
    rewrite fmap_cons in Hnd. apply NoDup_cons in Hnd as [Hr Hnd].
    case_bool_decide as Hc.
    + rewrite fmap_cons. apply NoDup_cons. split; [|done].
      change (slot_of new ∉ slot_of <$> rows). by rewrite <-Hc.
    + rewrite fmap_cons. apply NoDup_cons. split; [|by apply IH].
      intros [?|?]%upsert_row_slots; done.
Qed.

Lemma upsert_row_same_slot rows :
  NoDup (slot_of <$> rows) →
  DBAllocation.doctor_id
    <$> filter (λ a, slot_of a = slot_of new)
          (upsert_row [col_room_id; col_date; col_shift] new rows)
  = [DBAllocation.doctor_id new].
Proof.
  induction rows as [|r rows IH]; cbn [upsert_row]; intros Hnd.
  - by rewrite filter_cons_True.
  - rewrite conflicts_slot.
    rewrite fmap_cons in Hnd. apply NoDup_cons in Hnd as [Hr Hnd].
    case_bool_decide as Hc.
    + rewrite filter_cons_True by done.
      rewrite filter_slot_absent by (by rewrite <-Hc). done.
    + rewrite filter_cons_False by done. by apply IH.
Qed.

End upsert.

(** The fetches leave the store and the alerts as they are. *)
Lemma fetchAllocations_world fault passedRooms st w :
  db (snd (DailyMap.fetchAllocations fault passedRooms st w)) = db w
  ∧ alerts (snd (DailyMap.fetchAllocations fault passedRooms st w)) = alerts w.
Proof.
  unfold DailyMap.fetchAllocations.
  destruct (Room.id <$> default (DailyMap.rooms st) passedRooms); [done|].
  destruct fault; done.
Qed.

(** What an assignment does to the store. *)
Lemma run_assign_db (w : World) (op : Assign) :
  db (run_assign w op)
  = match committed_slot op with
    | Some (roomId, dateKey, shift) =>
      upsert_allocation roomId (assign_doctor op) dateKey shift
        (AuthContext.user_id (assign_ctx op)) (js "room_id,date,shift") (db w)
    | None => db w
    end.
Proof.
  unfold run_assign, committed_slot, DailyMap.handleAssignDoctor.
  destruct (DailyMap.selectedSlot (assign_page op)) as [[roomId shift]|];
    [|done].
  destruct (assign_write_fault op); [done|].
  unfold remote, write.
  by rewrite (proj1 (fetchAllocations_world _ _ _ _)).
Qed.

Lemma run_assign_alerts (w : World) (op : Assign) :
  assign_write_fault op = None → alerts (run_assign w op) = alerts w.
Proof.
  unfold run_assign, DailyMap.handleAssignDoctor. intros ->.
  destruct (DailyMap.selectedSlot (assign_page op)) as [[roomId shift]|];
    [|done].
  unfold remote, write.
  by rewrite (proj2 (fetchAllocations_world _ _ _ _)).
Qed.

Lemma run_assign_unique (w : World) (op : Assign) :
  unique_slots (db w) → unique_slots (db (run_assign w op)).
Proof.
  rewrite run_assign_db. destruct (committed_slot op) as [[[r d] s]|]; [|done].
  unfold unique_slots, upsert_allocation. cbn [room_allocations].
  rewrite conflict_target. apply upsert_row_unique.
Qed.

Lemma run_assign_rows (w : World) (op : Assign) slot :
  unique_slots (db w) →
  if bool_decide (committed_slot op = Some slot)
  then DBAllocation.doctor_id <$> rows_of_slot slot (db (run_assign w op))
       = [assign_doctor op]
  else rows_of_slot slot (db (run_assign w op)) = rows_of_slot slot (db w).
Proof.
  intros Hu. rewrite run_assign_db. unfold rows_of_slot.
  destruct (committed_slot op) as [[[r d] s]|]; [|by case_bool_decide].
  unfold upsert_allocation. cbn [room_allocations]. rewrite conflict_target.
  case_bool_decide as Hs.
  - injection Hs as <-.
    by apply (upsert_row_same_slot
                (DBAllocation.mk (serial (db w)) r (assign_doctor op) d s
                   (AuthContext.user_id (assign_ctx op)))).
  - apply upsert_row_other_slot. intros Heq. apply Hs. by rewrite Heq.
Qed.

Lemma run_assigns_rows (ops : list Assign) (w : World) slot :
  unique_slots (db w) →
  unique_slots (db (run_assigns ops w))
  ∧ match last_assigned slot ops with
    | Some d =>
      DBAllocation.doctor_id <$> rows_of_slot slot (db (run_assigns ops w))
      = [d]
    | None =>
      rows_of_slot slot (db (run_assigns ops w)) = rows_of_slot slot (db w)
    end.
Proof.
  revert w. induction ops as [|op ops IH]; intros w Hu; [done|].
  cbn [run_assigns foldl last_assigned].
  destruct (IH (run_assign w op) (run_assign_unique _ _ Hu)) as [Hu' Hrows].
  split; [done|].
  unfold run_assigns in Hrows.
  destruct (last_assigned slot ops) as [d|]; [done|].
  pose proof (run_assign_rows w op slot Hu) as Hop.
  destruct (bool_decide (committed_slot op = Some slot)); congruence.
Qed.

(** C1.  Start from a store that meets the uniqueness constraint of
    [room_allocations].  After any sequence of assignments, made by any
    pages, the store holds at most one row for every (room, date, shift),
    and the doctor of that row is the doctor of the most recent assignment
    committed to the slot: the conflict target of the upsert is exactly
    (room_id, date, shift), so an assignment to an occupied slot takes the
    place of the row, and no error is raised as long as the store answers
    the writes. *)
Theorem allocation_uniqueness (ops : list Assign) (w : World)
  (slot : N * jsstring * Shift) :
  unique_slots (db w) →
  conflict_columns (js "room_id,date,shift")
  = [col_room_id; col_date; col_shift]
  ∧ (length (rows_of_slot slot (db (run_assigns ops w))) ≤ 1)%nat
  ∧ (∀ d, last_assigned slot ops = Some d →
     DBAllocation.doctor_id <$> rows_of_slot slot (db (run_assigns ops w))
     = [d])
  ∧ ((∀ op, op ∈ ops → assign_write_fault op = None) →
     alerts (run_assigns ops w) = alerts w).
Proof.
  intros Hu. split; [apply conflict_target|].
  destruct (run_assigns_rows ops w slot Hu) as [Hu' Hrows].
  split; [by apply unique_slot_rows|]. split.
  - intros d Hd. by rewrite Hd in Hrows.
  - clear. revert w. induction ops as [|op ops IH]; intros w Hok; [done|].
    cbn [run_assigns foldl]. unfold run_assigns in IH. rewrite IH.
    + apply run_assign_alerts, Hok. left.
    + intros op' Hop'. apply Hok. by right.
Qed.

Lemma allocation_uniqueness_witness :
  let slot := (7, js "2024-01-10", morning) in
  let ops := [mkAssign reception_ctx (page_with_slot 7) (js "D1") None None;
              mkAssign reception_ctx (page_with_slot 7) (js "D2") None None] in
  unique_slots (db empty_world)
  ∧ last_assigned slot ops = Some (js "D2")
  ∧ DBAllocation.doctor_id <$> rows_of_slot slot (db (run_assigns ops empty_world))
    = [js "D2"].
Proof.
  intros slot ops.
  assert (unique_slots (db empty_world)) as Hu by apply NoDup_nil_2.
  assert (last_assigned slot ops = Some (js "D2")) as Hlast
    by (vm_compute; reflexivity).
  split; [exact Hu|]. split; [exact Hlast|].
  destruct (allocation_uniqueness ops empty_world slot Hu) as (_ & _ & Hd & _).
  exact (Hd _ Hlast).
Defined.

(** ** Clearing a slot *)

Lemma filter_slot_complement (slot : N * jsstring * Shift)
  (rows : list DBAllocation.t) :
  filter (λ a, slot_of a = slot) rows = [] →
  filter (λ a, slot_of a ≠ slot) rows = rows.
Proof.
  induction rows as [|r rows IH]; [done|].
  rewrite !filter_cons. destruct (decide (slot_of r = slot)); [done|].
  intros Hrows. rewrite decide_True by done. f_equal. by apply IH.
Qed.

Lemma filter_slot_length (slot : N * jsstring * Shift)
  (rows : list DBAllocation.t) :
  (length (filter (λ a, slot_of a = slot) rows)
   + length (filter (λ a, slot_of a ≠ slot) rows))%nat = length rows.
Proof.
  induction rows as [|r rows IH]; [done|].
  rewrite !filter_cons. destruct (decide (slot_of r = slot)).
  - rewrite decide_False by auto. simpl. lia.
  - rewrite decide_True by done. simpl. lia.
Qed.

Lemma unique_slot_row (rows : list DBAllocation.t) (a b : DBAllocation.t) :
  NoDup (slot_of <$> rows) → a ∈ rows → b ∈ rows → slot_of a = slot_of b →
  a = b.
Proof.
  induction rows as [|r rows IH]; [by intros _ ?%elem_of_nil|].
  rewrite fmap_cons. intros [Hr Hnd]%NoDup_cons.
  rewrite !elem_of_cons. intros [->|Ha] [->|Hb] Hslot; [done|..].
  - destruct Hr. rewrite Hslot. by apply list_elem_of_fmap_2.
  - destruct Hr. rewrite <-Hslot. by apply list_elem_of_fmap_2.
  - by apply IH.
Qed.

(** What clearing does to the world when the store answers the delete. *)
Lemma handleClearSlot_answered fetch_fault st w roomId shift :
  DailyMap.selectedSlot st = Some (roomId, shift) →
  let w' := snd (DailyMap.handleClearSlot None fetch_fault st w) in
  db w'
  = delete_allocation roomId
      (DailyMap.formatDateKey (DailyMap.currentDate st)) shift (db w)
  ∧ alerts w' = alerts w.
Proof.
  intros Hsel. unfold DailyMap.handleClearSlot. rewrite Hsel.
  unfold remote, write.
  destruct (DailyMap.fetchAllocations fetch_fault None st _) as [st2 w2] eqn:Hf.
  pose proof (fetchAllocations_world fetch_fault None st
    (mkWorld
       (delete_allocation roomId
          (DailyMap.formatDateKey (DailyMap.currentDate st)) shift (db w))
       (requests w ++ [mkRequest (js "room_allocations") DELETE])
       (console w) (alerts w))) as [Hdb Hal].
  rewrite Hf in Hdb, Hal. done.
Qed.

(** C5.  Clearing the selected slot when the store holds no row for it
    leaves the store as it is and raises no error; when the store answers,
    clearing removes the rows of that slot and no other, which in a store
    that meets the uniqueness constraint is exactly the one row of the
    slot. *)
Theorem clear_slot (write_fault fetch_fault : option jsstring)
  (st : DailyMap.State) (w : World) (roomId : N) (shift : Shift) :
  DailyMap.selectedSlot st = Some (roomId, shift) →
  let slot :=
    (roomId, DailyMap.formatDateKey (DailyMap.currentDate st), shift) in
  let w' := snd (DailyMap.handleClearSlot write_fault fetch_fault st w) in
  (rows_of_slot slot (db w) = [] →
   db w' = db w ∧ (write_fault = None → alerts w' = alerts w))
  ∧ (write_fault = None →
     room_allocations (db w')
     = filter (λ a, slot_of a ≠ slot) (room_allocations (db w))
     ∧ alerts w' = alerts w)
  ∧ (write_fault = None → unique_slots (db w) →
     ∀ a, a ∈ room_allocations (db w) → slot_of a = slot →
     rows_of_slot slot (db w') = []
     ∧ length (room_allocations (db w))
       = S (length (room_allocations (db w')))
     ∧ ∀ b, b ∈ room_allocations (db w) → b ≠ a →
            b ∈ room_allocations (db w')).
Proof.
  intros Hsel slot w'.
  assert (write_fault = None →
          room_allocations (db w')
          = filter (λ a, slot_of a ≠ slot) (room_allocations (db w))
          ∧ alerts w' = alerts w) as Hanswered.
  { intros ->. subst w'.
    destruct (handleClearSlot_answered fetch_fault st w roomId shift Hsel)
      as [-> ->]. done. }
  split; [|split; [exact Hanswered|]].
  - intros Habsent. split.
    + subst w'. destruct write_fault as [message|].
      * unfold DailyMap.handleClearSlot. rewrite Hsel. done.
      * destruct (handleClearSlot_answered fetch_fault st w roomId shift Hsel)
          as [-> _].
        unfold delete_allocation. fold slot.
        rewrite (filter_slot_complement slot _ Habsent).
        by destruct (db w).
    + intros Hw. by destruct (Hanswered Hw).
  - intros Hw Hu a Ha Hslot. destruct (Hanswered Hw) as [Hrows _].
    unfold rows_of_slot. rewrite Hrows. split; [|split].
    + apply filter_slot_absent.
      intros (b & Hb & [? _]%list_elem_of_filter)%list_elem_of_fmap. done.
    + pose proof (filter_slot_length slot (room_allocations (db w))) as Hlen.
      pose proof (unique_slot_rows slot _ Hu) as Hle.
      assert (a ∈ filter (λ a, slot_of a = slot) (room_allocations (db w)))
        as Hin by by apply list_elem_of_filter.
      destruct (filter (λ a, slot_of a = slot) (room_allocations (db w)));
        [by apply elem_of_nil in Hin|].
      simpl in *. lia.
    + intros b Hb Hne. apply list_elem_of_filter. split; [|done].
      intros Hbslot. apply Hne. symmetry.
      apply (unique_slot_row _ _ _ Hu Ha Hb). congruence.
Qed.

Lemma clear_slot_witness :
  let occupied :=
    run_assigns [mkAssign reception_ctx (page_with_slot 7) (js "D1") None None]
      empty_world in
  let slot := (7, DailyMap.formatDateKey (LocalDate 2024 0 10), morning) in
  db (snd (DailyMap.handleClearSlot None None (page_with_slot 7) empty_world))
  = db empty_world
  ∧ rows_of_slot slot
      (db (snd (DailyMap.handleClearSlot None None (page_with_slot 7) occupied)))
    = [].
Proof.
  intros occupied slot. split.
  - apply (clear_slot None None (page_with_slot 7) empty_world 7 morning
             eq_refl).
    reflexivity.
  - eapply (clear_slot None None (page_with_slot 7) occupied 7 morning
              eq_refl).
    + reflexivity.
    + unfold occupied. apply (run_assign_unique empty_world). apply NoDup_nil_2.
    + apply list_elem_of_here.
    + vm_compute. reflexivity.
Defined.

(** ** Rooms and sectors *)

Lemma fetchRooms_db ctx fault st w :
  db (snd (DailyMap.fetchRooms ctx fault st w)) = db w.
Proof. unfold DailyMap.fetchRooms. by destruct fault. Qed.

(** The fetch of the rooms returns rooms of the selected sector only. *)
Lemma select_rooms_sector (floor : jsstring) (s : Store) (r : Room.t) :
  r ∈ select_rooms floor s ↔ r ∈ rooms s ∧ Room.sector r = floor.
Proof.
  unfold select_rooms. rewrite merge_sort_Permutation, list_elem_of_filter.
  tauto.
Qed.

Lemma fetchRooms_data ctx fault st w (r : Room.t) :
  r ∈ (DailyMap.fetchRooms ctx fault st w).1.1 →
  r ∈ rooms (db w) ∧ Room.sector r = AuthContext.selectedFloor ctx.
Proof.
  unfold DailyMap.fetchRooms. destruct fault; cbn.
  - by intros ?%elem_of_nil.
  - by intros ?%select_rooms_sector.
Qed.

Lemma insert_room_stamped created sector name extension floor order s :
  stamped created sector s →
  stamped created sector (insert_room name extension floor order s).
Proof.
  intros (Hlt & Hfresh & Hsec). unfold stamped, serial_fresh, insert_room.
  cbn [rooms serial]. split; [lia|]. split.
  - intros r [Hr| ->%list_elem_of_singleton]%elem_of_app.
    + specialize (Hfresh r Hr). lia.
    + cbn. lia.
  - intros r [Hr| ->%list_elem_of_singleton]%elem_of_app; [by apply Hsec|].
    cbn. lia.
Qed.

Lemma update_room_stamped created sector id name extension s :
  stamped created sector s →
  stamped created sector (update_room id name extension s).
Proof.
  intros (Hlt & Hfresh & Hsec). unfold stamped, serial_fresh, update_room.
  cbn [rooms serial]. split; [done|]. split.
  - intros r (r0 & -> & Hr0)%list_elem_of_fmap.
    specialize (Hfresh r0 Hr0). by case_bool_decide.
  - intros r (r0 & -> & Hr0)%list_elem_of_fmap.
    specialize (Hsec r0 Hr0). by case_bool_decide.
Qed.

Lemma delete_room_stamped created sector id s :
  stamped created sector s → stamped created sector (delete_room id s).
Proof.
  intros (Hlt & Hfresh & Hsec). unfold stamped, serial_fresh, delete_room.
  cbn [rooms serial]. split; [done|]. split.
  - intros r [_ Hr]%list_elem_of_filter. by apply Hfresh.
  - intros r [_ Hr]%list_elem_of_filter. by apply Hsec.
Qed.

Lemma upsert_allocation_stamped created sector room doctor date shift by_
  onConflict s :
  stamped created sector s →
  stamped created sector
    (upsert_allocation room doctor date shift by_ onConflict s).
Proof.
  intros (Hlt & Hfresh & Hsec). unfold stamped, serial_fresh.
  cbn [upsert_allocation rooms serial]. split; [lia|]. split; [|done].
  intros r Hr. specialize (Hfresh r Hr). lia.
Qed.

Lemma handleSaveRoom_db ctx write_fault fetch_fault st w :
  db (snd (DailyMap.handleSaveRoom ctx write_fault fetch_fault st w))
  = match trim (fst (DailyMap.roomForm st)), write_fault with
    | _ :: _, None =>
      match DailyMap.editingRoomId st with
      | Some id =>
        update_room id (fst (DailyMap.roomForm st))
          (snd (DailyMap.roomForm st)) (db w)
      | None =>
        insert_room (fst (DailyMap.roomForm st)) (snd (DailyMap.roomForm st))
          (AuthContext.selectedFloor ctx)
          (Z.of_nat (length (DailyMap.rooms st))) (db w)
      end
    | _, _ => db w
    end.
Proof.
  unfold DailyMap.handleSaveRoom.
  destruct (trim (fst (DailyMap.roomForm st))); [done|].
  destruct write_fault.
  - by destruct (DailyMap.editingRoomId st).
  - destruct (DailyMap.editingRoomId st); unfold remote, write;
      match goal with
      | |- context [DailyMap.fetchRooms ?c ?f ?s ?w] =>
        pose proof (fetchRooms_db c f s w) as Hdb;
        destruct (DailyMap.fetchRooms c f s w) as [[? ?] ?]
      end; exact Hdb.
Qed.

Lemma run_event_stamped created sector (w : World) (ev : Event) :
  stamped created sector (db w) → stamped created sector (db (run_event w ev)).
Proof.
  intros Hst. destruct ev as [ctx wf ff page|ctx confirmed wf ff id page
                             |ctx wf ff doctorId page|wf ff page];
    cbn [run_event].
  - rewrite handleSaveRoom_db.
    destruct (trim _); [done|]. destruct wf; [done|].
    destruct (DailyMap.editingRoomId page);
      auto using update_room_stamped, insert_room_stamped.
  - unfold DailyMap.handleDeleteRoom. destruct confirmed; [|done].
    destruct wf; unfold remote, write;
      match goal with
      | |- context [DailyMap.fetchRooms ?c ?f ?s ?w] =>
        pose proof (fetchRooms_db c f s w) as Hdb;
        destruct (DailyMap.fetchRooms c f s w) as [[? ?] ?]
      end; cbn [snd] in *; rewrite Hdb; [done|].
    by apply delete_room_stamped.
  - change (stamped created sector
              (db (run_assign w (mkAssign ctx page doctorId wf ff)))).
    rewrite run_assign_db.
    destruct (committed_slot _) as [[[? ?] ?]|]; [|done].
    by apply upsert_allocation_stamped.
  - unfold DailyMap.handleClearSlot.
    destruct (DailyMap.selectedSlot page) as [[roomId shift]|]; [|done].
    destruct wf; [done|]. unfold remote, write.
    match goal with
    | |- context [DailyMap.fetchAllocations ?f ?p ?s ?w] =>
      pose proof (proj1 (fetchAllocations_world f p s w)) as Hdb;
      destruct (DailyMap.fetchAllocations f p s w) as [? ?]
    end. cbn [snd] in *. rewrite Hdb. exact Hst.
Qed.

Lemma run_events_stamped created sector (evs : list Event) (w : World) :
  stamped created sector (db w) →
  stamped created sector (db (run_events evs w)).
Proof.
  revert w. induction evs as [|ev evs IH]; intros w Hst; [done|].
  apply IH. by apply run_event_stamped.
Qed.

(** C6.  A room created while sector S1 is selected is stamped with S1,
    and whatever the pages do afterwards it is not among the rooms a fetch
    returns while another sector S2 is selected: the fetch returns rooms
    whose sector equals the selected one only. *)
Theorem room_scoping (ctx1 ctx2 : AuthContext.t) (st1 st2 : DailyMap.State)
  (w0 : World) (fetch_fault1 fault2 : option jsstring) (evs : list Event) :
  AuthContext.selectedFloor ctx1 ≠ AuthContext.selectedFloor ctx2 →
  serial_fresh (db w0) →
  DailyMap.editingRoomId st1 = None →
  trim (fst (DailyMap.roomForm st1)) ≠ [] →
  let created := serial (db w0) in
  let w1 := snd (DailyMap.handleSaveRoom ctx1 None fetch_fault1 st1 w0) in
  let w2 := run_events evs w1 in
  let fetched := DailyMap.fetchRooms ctx2 fault2 st2 w2 in
  rooms (db w1)
  = rooms (db w0)
    ++ [Room.mk created (fst (DailyMap.roomForm st1))
          (snd (DailyMap.roomForm st1)) (AuthContext.selectedFloor ctx1)
          (Z.of_nat (length (DailyMap.rooms st1)))]
  ∧ (∀ r, r ∈ fetched.1.1 → Room.sector r = AuthContext.selectedFloor ctx2)
  ∧ (created ∉ (Room.id <$> fetched.1.1))
  ∧ (fault2 = None → created ∉ (Room.id <$> DailyMap.rooms (fetched.1.2))).
Proof.
  intros Hne Hfresh Hcreate Hname created w1 w2 fetched.
  assert (db w1
          = insert_room (fst (DailyMap.roomForm st1))
              (snd (DailyMap.roomForm st1)) (AuthContext.selectedFloor ctx1)
              (Z.of_nat (length (DailyMap.rooms st1))) (db w0)) as Hw1.
  { subst w1. rewrite handleSaveRoom_db, Hcreate.
    by destruct (trim (fst (DailyMap.roomForm st1))). }
  assert (stamped created (AuthContext.selectedFloor ctx1) (db w2)) as Hst.
  { apply run_events_stamped. rewrite Hw1. unfold stamped, serial_fresh.
    cbn [insert_room rooms serial]. fold created. split; [lia|]. split.
    - intros r [Hr| ->%list_elem_of_singleton]%elem_of_app.
      + specialize (Hfresh r Hr). fold created in Hfresh. lia.
      + cbn. lia.
    - intros r [Hr| ->%list_elem_of_singleton]%elem_of_app; [|done].
      specialize (Hfresh r Hr). fold created in Hfresh. lia. }
  assert (created ∉ (Room.id <$> fetched.1.1)) as Hnot.
  { intros (r & Hid & Hr)%list_elem_of_fmap.
    apply fetchRooms_data in Hr as [Hr Hsec].
    destruct Hst as (_ & _ & Hstamp).
    apply Hne. rewrite <-Hsec. symmetry. by apply Hstamp. }
  split; [by rewrite Hw1|]. split; [|split; [exact Hnot|]].
  - by intros r [_ ?]%fetchRooms_data.
  - intros ->. revert Hnot. subst fetched. unfold DailyMap.fetchRooms.
    done.
Qed.

Lemma room_scoping_witness :
  let evs := [SaveRoom floor9_ctx None None sala1_page;
              AssignDoctor reception_ctx None None (js "D1") (page_with_slot 0)] in
  let created := serial (db empty_world) in
  let w1 := snd (DailyMap.handleSaveRoom reception_ctx None None sala1_page
                   empty_world) in
  let w2 := run_events evs w1 in
  let fetched := DailyMap.fetchRooms floor9_ctx None sala1_page w2 in
  (AuthContext.selectedFloor reception_ctx
   ≠ AuthContext.selectedFloor floor9_ctx
   ∧ serial_fresh (db empty_world)
   ∧ trim (fst (DailyMap.roomForm sala1_page)) ≠ [])
  ∧ created ∉ (Room.id <$> fetched.1.1).
Proof.
  intros evs created w1 w2 fetched.
  assert (AuthContext.selectedFloor reception_ctx
          ≠ AuthContext.selectedFloor floor9_ctx) as Hne
    by (vm_compute; discriminate).
  assert (serial_fresh (db empty_world)) as Hfresh
    by (intros r Hr; by apply elem_of_nil in Hr).
  assert (trim (fst (DailyMap.roomForm sala1_page)) ≠ []) as Hname
    by (vm_compute; discriminate).
  split; [by repeat split|].
  exact (proj1 (proj2 (proj2
    (room_scoping reception_ctx floor9_ctx sala1_page sala1_page empty_world
       None None evs Hne Hfresh eq_refl Hname)))).
Defined.

(** ** The allocation modal *)

Lemma upsert_row_elem target (new a : DBAllocation.t) rows :
  a ∈ upsert_row target new rows →
  a ∈ rows ∨ DBAllocation.doctor_id a = DBAllocation.doctor_id new.
Proof.
  induction rows as [|r rows IH]; cbn [upsert_row].
  - intros ->%list_elem_of_singleton. by right.
  - destruct (conflicts target r new).
    + intros [->|?]%elem_of_cons; [by right|]. left. by right.
    + intros [->|?]%elem_of_cons; [left; by left|].
      destruct IH as [?|?]; [done|left; by right|by right].
Qed.

Lemma handleAssignDoctor_rows ctx write_fault fetch_fault doctorId st w
  (a : DBAllocation.t) :
  a ∈ room_allocations
        (db (snd (DailyMap.handleAssignDoctor ctx write_fault fetch_fault
                    doctorId st w))) →
  a ∈ room_allocations (db w) ∨ DBAllocation.doctor_id a = doctorId.
Proof.
  change (DailyMap.handleAssignDoctor ctx write_fault fetch_fault doctorId st w).2
    with (run_assign w (mkAssign ctx st doctorId write_fault fetch_fault)).
  rewrite run_assign_db.
  destruct (committed_slot _) as [[[r d] s]|]; [|by left].
  unfold upsert_allocation. cbn [room_allocations].
  intros Ha. apply upsert_row_elem in Ha. exact Ha.
Qed.

Section Modal.

Variable toLowerCase : jsstring → jsstring.
Variable localeCompare : jsstring → jsstring → Z.

(** The modal lists doctors of the cache whose sector is the selected one. *)
Lemma candidates_sector ctx st (d : Doctor.t) :
  d ∈ DailyMap.candidates toLowerCase localeCompare ctx st →
  d ∈ DailyMap.doctors st ∧ Doctor.sector d = AuthContext.selectedFloor ctx.
Proof.
  unfold DailyMap.candidates.
  rewrite merge_sort_Permutation, list_elem_of_filter. tauto.
Qed.

(** C8.  Every allocation row that a click on a doctor of the allocation
    modal puts in the store references a doctor of the cache whose sector
    equals the selected sector; when the cache holds the doctors mapped
    from profile rows, the row references a profile whose parsed sector
    is the selected sector. *)
Theorem assigned_doctor_sector (ctx : AuthContext.t)
  (write_fault fetch_fault : option jsstring) (i : nat)
  (st : DailyMap.State) (w : World) (a : DBAllocation.t) :
  a ∈ room_allocations
        (db (snd (DailyMap.clickCandidate toLowerCase localeCompare ctx
                    write_fault fetch_fault i st w))) →
  a ∈ room_allocations (db w)
  ∨ (∃ d, d ∈ DailyMap.doctors st
          ∧ Doctor.sector d = AuthContext.selectedFloor ctx
          ∧ DBAllocation.doctor_id a = Doctor.id d)
    ∧ (∀ profiles, DailyMap.doctors st = DailyMap.mapDoctor <$> profiles →
       ∃ p, p ∈ profiles
            ∧ Doctor.sector (DailyMap.mapDoctor p)
              = AuthContext.selectedFloor ctx
            ∧ DBAllocation.doctor_id a = ProfileRow.id p).
Proof.
  unfold DailyMap.clickCandidate.
  destruct (DailyMap.showAllocationModal st); [|by left].
  destruct (DailyMap.candidates toLowerCase localeCompare ctx st !! i)
    as [doctor|] eqn:Hi; [|by left].
  apply list_elem_of_lookup_2, candidates_sector in Hi as [Hd Hsec].
  intros [Ha|Ha]%handleAssignDoctor_rows; [by left|]. right. split.
  - by exists doctor.
  - intros profiles Hcache. rewrite Hcache in Hd.
    apply list_elem_of_fmap in Hd as (p & -> & Hp).
    exists p. by repeat split.
Qed.

End Modal.

Lemma assigned_doctor_sector_witness :
  let a := DBAllocation.mk 0 7 (js "D1") (js "2024-01-10") morning
             (Some (js "u1")) in
  let w' := snd (DailyMap.clickCandidate (λ s, s) (λ _ _, 0%Z) reception_ctx
                   None None 0 (doctors_page 7) empty_world) in
  a ∈ room_allocations (db w')
  ∧ ∃ d, d ∈ DailyMap.doctors (doctors_page 7)
         ∧ Doctor.sector d = AuthContext.selectedFloor reception_ctx
         ∧ DBAllocation.doctor_id a = Doctor.id d.
Proof.
  intros a w'.
  assert (a ∈ room_allocations (db w')) as Ha
    by (vm_compute; constructor).
  split; [exact Ha|].
  destruct (assigned_doctor_sector (λ s, s) (λ _ _, 0%Z) reception_ctx None
              None 0 (doctors_page 7) empty_world a Ha) as [Hold|[Hd _]].
  - by apply elem_of_nil in Hold.
  - exact Hd.
Defined.

(** ** The selected sector *)

(** The sector labels are not empty, and the default sector is one of them. *)
Lemma FLOOR_OPTIONS_nonempty (L : jsstring) :
  L ∈ AuthContext.FLOOR_OPTIONS → L ≠ [].
Proof.
  intros HL ->. unfold AuthContext.FLOOR_OPTIONS in HL.
  repeat (apply elem_of_cons in HL as [HL|HL];
          [vm_compute in HL; discriminate|]).
  by apply elem_of_nil in HL.
Qed.

Lemma default_sector_option :
  js "9º Andar ( OFTALMOLOGIA )" ∈ AuthContext.FLOOR_OPTIONS.
Proof. unfold AuthContext.FLOOR_OPTIONS. right. left. Qed.

(** C9.  When nothing is stored under 'mediportal_selected_floor' the
    current sector is the default "9º Andar ( OFTALMOLOGIA )", which is
    not empty; once the sector is set to a label L (a non-empty string, as
    every sector label is), the current sector is L, and it is L again
    after a reload, when the provider mounts on the same storage. *)
Theorem current_sector_persisted (ctx : AuthContext.t)
  (localStorage : AuthContext.Storage) (L : jsstring) :
  L ≠ [] →
  (AuthContext.getItem (js "mediportal_selected_floor") localStorage = None →
   AuthContext.get_current_sector (AuthContext.mount localStorage)
   = js "9º Andar ( OFTALMOLOGIA )"
   ∧ AuthContext.get_current_sector (AuthContext.mount localStorage) ≠ [])
  ∧ AuthContext.get_current_sector
      (AuthContext.setSelectedFloor L ctx localStorage).1 = L
  ∧ AuthContext.getItem (js "mediportal_selected_floor")
      (AuthContext.setSelectedFloor L ctx localStorage).2 = Some L
  ∧ AuthContext.get_current_sector
      (AuthContext.mount (AuthContext.setSelectedFloor L ctx localStorage).2)
    = L.
Proof.
  intros HL. split; [|split; [done|]].
  - intros Hnone.
    unfold AuthContext.get_current_sector, AuthContext.mount,
      AuthContext.initialSelectedFloor.
    cbn [AuthContext.selectedFloor]. rewrite Hnone. cbn [or_else].
    split; [done|]. vm_compute. discriminate.
  - unfold AuthContext.get_current_sector, AuthContext.mount,
      AuthContext.initialSelectedFloor, AuthContext.setSelectedFloor,
      AuthContext.getItem, AuthContext.setItem.
    cbn [snd AuthContext.selectedFloor]. rewrite lookup_insert_eq.
    split; [done|]. by destruct L.
Qed.

Lemma current_sector_persisted_witness :
  let L := js "CDU - CENTRO DE DIAGNÓSTICO UNIMED" in
  L ≠ []
  ∧ AuthContext.get_current_sector (AuthContext.mount ∅)
    = js "9º Andar ( OFTALMOLOGIA )"
  ∧ AuthContext.get_current_sector
      (AuthContext.mount (AuthContext.setSelectedFloor L floor9_ctx ∅).2)
    = L.
Proof.
  intros L.
  assert (L ≠ []) as HL by (vm_compute; discriminate).
  destruct (current_sector_persisted floor9_ctx ∅ L HL)
    as (Hdefault & _ & _ & Hreload).
  split; [exact HL|]. split; [|exact Hreload].
  apply Hdefault. apply lookup_empty.
Defined.

(** ** Date keys *)

(** [String(n).padStart(2, '0')] writes a number below 100 with two
    digits. *)
Lemma padStart_two_digits (n : Z) :
  (0 ≤ n ≤ 99)%Z →
  padStart 2 (js "0") (String_of_number (Int n)) = two_digits n.
Proof.
  intros Hn.
  assert (Forall (λ n, padStart 2 (js "0") (String_of_number (Int n))
                       = two_digits n) (seqZ 0 100)) as Hall.
  { eapply bool_decide_unpack. vm_compute. exact I. }
  rewrite Forall_forall in Hall. apply Hall, elem_of_seqZ. lia.
Qed.

Lemma N_of_ascii_digit (k : N) :
  k < 10 → N_of_ascii (pretty_N_char k) = 48 + k.
Proof.
  intros Hk.
  assert (k = 0 ∨ k = 1 ∨ k = 2 ∨ k = 3 ∨ k = 4 ∨ k = 5 ∨ k = 6 ∨ k = 7
          ∨ k = 8 ∨ k = 9) as Hcases by lia.
  repeat (destruct Hcases as [->|Hcases]; [reflexivity|]).
  by subst k.
Qed.

Lemma utf8_units_ascii (l : list N) :
  Forall (λ c, c < 128) l → utf8_units l = l.
Proof.
  induction 1 as [|c l Hc _ IH]; [done|].
  cbn [utf8_units]. apply N.ltb_lt in Hc as ->. by rewrite IH.
Qed.

(** [String(year)] writes a year from 1000 to 9999 with four digits. *)
Lemma String_four_digits (year : Z) :
  (1000 ≤ year ≤ 9999)%Z → String_of_number (Int year) = four_digits year.
Proof.
  intros Hy. destruct year as [|p|p]; [lia| |lia].
  unfold String_of_number, pretty, pretty_Z, pretty, pretty_positive, pretty,
    pretty_N.
  rewrite decide_False by done.
  set (x := N.pos p). assert (1000 ≤ x ≤ 9999) as Hx by (subst x; lia).
  assert (0 < x / 10 ∧ 0 < x / 10 / 10 ∧ 0 < x / 10 / 10 / 10
          ∧ x / 10 / 10 / 10 / 10 = 0) as (H1 & H2 & H3 & H4).
  { rewrite !N.Div0.div_div. change (10 * 10) with 100.
    change (100 * 10) with 1000. change (1000 * 10) with 10000.
    repeat split; try (apply N.div_str_pos; lia).
    apply N.div_small. lia. }
  rewrite (pretty_N_go_step x) by lia.
  rewrite (pretty_N_go_step (x / 10)) by done.
  rewrite (pretty_N_go_step (x / 10 / 10)) by done.
  rewrite (pretty_N_go_step (x / 10 / 10 / 10)) by done.
  rewrite H4, pretty_N_go_0.
  unfold js. cbn [list_ascii_of_string fmap list_fmap].
  rewrite !N_of_ascii_digit by (apply N.mod_lt; done).
  rewrite utf8_units_ascii
    by (repeat apply Forall_cons_2; try apply Forall_nil_2;
        match goal with |- 48 + ?k `mod` 10 < 128 =>
          pose proof (N.mod_lt k 10 ltac:(done)); lia end).
  unfold four_digits, digit, x.
  repeat f_equal.
  - rewrite !N.Div0.div_div, N.mod_small by (apply N.Div0.div_lt_upper_bound; lia).
    rewrite Z2N.inj_div by lia. done.
  - rewrite !N.Div0.div_div, Z2N.inj_mod, Z2N.inj_div by (try apply Z.div_pos; lia). done.
  - rewrite Z2N.inj_mod, Z2N.inj_div by (try apply Z.div_pos; lia). done.
  - rewrite Z2N.inj_mod by lia. done.
Qed.


(** C10 (as amended).  [formatDateKey] of the daily map and
    [getLocalDateKey] of the dashboard produce the same string for every
    [Date] value.  For a
    calendar date the string is the year, the month of the year and the
    day of the month, the last two zero-padded to two digits, joined by
    '-'; for the years written with four digits it is the zero-padded
    'YYYY-MM-DD' key. *)
Theorem date_keys_agree (d : Date) :
  DailyMap.formatDateKey d = Dashboard.getLocalDateKey d
  ∧ (∀ year month day, d = LocalDate year month day → calendar_date d →
     Dashboard.getLocalDateKey d
     = String_of_number (Int year) ++ js "-" ++ two_digits (month + 1)
       ++ js "-" ++ two_digits day
     ∧ ((1000 ≤ year ≤ 9999)%Z →
        DailyMap.formatDateKey d = YYYY_MM_DD year (month + 1) day
        ∧ Dashboard.getLocalDateKey d = YYYY_MM_DD year (month + 1) day)).
Proof.
  split; [reflexivity|].
  intros year month day -> [Hmonth Hday].
  assert (Dashboard.getLocalDateKey (LocalDate year month day)
          = String_of_number (Int year) ++ js "-" ++ two_digits (month + 1)
            ++ js "-" ++ two_digits day) as Hkey.
  { unfold Dashboard.getLocalDateKey.
    cbn [getFullYear getMonth getDate succ_number].
    by rewrite !padStart_two_digits by lia. }
  split; [exact Hkey|].
  intros Hyear. unfold YYYY_MM_DD. rewrite <-String_four_digits by done.
  split; exact Hkey.
Qed.

Lemma date_keys_agree_witness :
  calendar_date (LocalDate 2024 0 10)
  ∧ DailyMap.formatDateKey (LocalDate 2024 0 10) = js "2024-01-10"
  ∧ Dashboard.getLocalDateKey (LocalDate 2024 0 10) = js "2024-01-10".
Proof.
  assert (calendar_date (LocalDate 2024 0 10)) as Hcal by (simpl; lia).
  split; [exact Hcal|].
  destruct (date_keys_agree (LocalDate 2024 0 10)) as [_ Hshape].
  destruct (Hshape 2024%Z 0%Z 10%Z eq_refl Hcal) as [_ Hfour].
  destruct (Hfour ltac:(lia)) as [-> ->].
  split; vm_compute; reflexivity.
Defined.

(** C10 (as stated, fails).  Not every [Date] value gets a zero-padded
    'YYYY-MM-DD' key: for 5 December of the year 999, a calendar date,
    both functions produce '999-12-05', which is not the padded key
    '0999-12-05'; for the invalid date both produce 'NaN-NaN-NaN'. *)
Theorem date_key_year_not_padded :
  calendar_date (LocalDate 999 11 5)
  ∧ DailyMap.formatDateKey (LocalDate 999 11 5) = js "999-12-05"
  ∧ Dashboard.getLocalDateKey (LocalDate 999 11 5) = js "999-12-05"
  ∧ YYYY_MM_DD 999 12 5 = js "0999-12-05"
  ∧ DailyMap.formatDateKey (LocalDate 999 11 5) ≠ YYYY_MM_DD 999 12 5
  ∧ DailyMap.formatDateKey InvalidDate = js "NaN-NaN-NaN"
  ∧ Dashboard.getLocalDateKey InvalidDate = js "NaN-NaN-NaN".
Proof.
  split; [simpl; lia|].
  split; [vm_compute; reflexivity|].
  split; [vm_compute; reflexivity|].
  split; [vm_compute; reflexivity|].
  split; [vm_compute; discriminate|].
  split; vm_compute; reflexivity.
Qed.

(** ** Failures of the fetches *)

(** C4 (as amended).  When the remote call of a fetch fails, the cached
    collection is kept as it was and the failure is logged on the console.
    The fetches of the users and professionals pages also show a toast;
    the fetches of the daily map (rooms, doctors, allocations) leave the
    page state untouched and raise no alert. *)
Theorem fetch_failure_keeps_cache (message : jsstring) (order : RowOrder)
  (ctx : AuthContext.t) (users : Users.State) (professionals : Professionals.State)
  (map : DailyMap.State) (passedRooms : option (list Room.t)) (w : World) :
  (let '(st', w') := Users.fetchUsers (Some message) order users w in
   Users.users st' = Users.users users
   ∧ Users.toastMessage st' = Some (js "Erro ao carregar usuários.")
   ∧ console w' = console w ++ [js "Error loading users:"]
   ∧ db w' = db w)
  ∧ (let '(st', w') :=
       Professionals.fetchProfessionals (Some message) order professionals w
     in
     Professionals.professionals st'
     = Professionals.professionals professionals
     ∧ Professionals.toastMessage st'
       = Some (js "Erro ao carregar profissionais: "
               ++ or_else (Some message) (js "Erro desconhecido"))
     ∧ console w'
       = console w ++ [js "Supabase error fetching professionals:";
                       js "Catch error fetching professionals:"]
     ∧ db w' = db w)
  ∧ (let '(data, st', w') := DailyMap.fetchRooms ctx (Some message) map w in
     data = [] ∧ st' = map ∧ alerts w' = alerts w
     ∧ console w' = console w ++ [js "Error fetching rooms:"]
     ∧ db w' = db w)
  ∧ (let '(st', w') := DailyMap.fetchDoctors (Some message) order map w in
     st' = map ∧ alerts w' = alerts w
     ∧ console w' = console w ++ [js "Error fetching doctors:"]
     ∧ db w' = db w)
  ∧ (Room.id <$> default (DailyMap.rooms map) passedRooms ≠ [] →
     let '(st', w') :=
       DailyMap.fetchAllocations (Some message) passedRooms map w in
     st' = map ∧ alerts w' = alerts w
     ∧ console w' = console w ++ [js "Error fetching allocations:"]
     ∧ db w' = db w).
Proof.
  split; [|split; [|split; [|split]]].
  - unfold Users.fetchUsers, remote. cbn. done.
  - unfold Professionals.fetchProfessionals, remote. cbn.
    by rewrite <-app_assoc.
  - unfold DailyMap.fetchRooms, remote. done.
  - unfold DailyMap.fetchDoctors, remote. done.
  - intros Hrooms. unfold DailyMap.fetchAllocations, remote.
    destruct (Room.id <$> default (DailyMap.rooms map) passedRooms); done.
Qed.

Lemma fetch_failure_keeps_cache_witness :
  let rooms := [Room.mk 0 (js "Sala 1") (js "201")
                  (js "CDU - CENTRO DE DIAGNÓSTICO UNIMED") 0] in
  Room.id <$> default (DailyMap.rooms sala1_page) (Some rooms) ≠ []
  ∧ let '(st', w') :=
      DailyMap.fetchAllocations (Some (js "Failed to fetch")) (Some rooms)
        sala1_page empty_world in
    st' = sala1_page ∧ alerts w' = alerts empty_world
    ∧ console w' = console empty_world ++ [js "Error fetching allocations:"]
    ∧ db w' = db empty_world.
Proof.
  intros rooms.
  assert (Room.id <$> default (DailyMap.rooms sala1_page) (Some rooms) ≠ [])
    as Hrooms by done.
  split; [exact Hrooms|].
  exact (proj2 (proj2 (proj2 (proj2
    (fetch_failure_keeps_cache (js "Failed to fetch") insertion_order
       reception_ctx users_page
       (Professionals.mkState [] false [] None false None
          (Professionals.mkForm [] [] [] [] [] []))
       sala1_page (Some rooms) empty_world)))) Hrooms).
Defined.

(** A failed fetch of the rooms on the daily map changes nothing the user
    sees: the page state and the alerts are as before, and the failure is
    on the console only (C4 as stated fails). *)
Lemma fetch_failure_not_surfaced :
  let '(data, st', w') :=
    DailyMap.fetchRooms reception_ctx (Some (js "Failed to fetch")) sala1_page
      empty_world in
  ¬ (st' ≠ sala1_page ∨ alerts w' ≠ alerts empty_world)
  ∧ console w' = [js "Error fetching rooms:"].
Proof.
  unfold DailyMap.fetchRooms, remote. split; [|done]. by intros [?|?].
Qed.

(** ** Self-protection on the users page *)

(** [toggleAdmin] and [handleDeleteUser] refuse the profile of the actor
    before any request is sent. *)
Lemma toggleAdmin_self ctx fault userId currentStatus st w :
  AuthContext.user_id ctx = Some userId →
  let '(st', w') := Users.toggleAdmin ctx fault userId currentStatus st w in
  st' = st ∧ db w' = db w ∧ requests w' = requests w
  ∧ alerts w' ≠ alerts w.
Proof.
  intros Hself. unfold Users.toggleAdmin. rewrite Hself, bool_decide_true by done.
  repeat split. cbn. intros Heq.
  apply (f_equal length) in Heq. rewrite length_app in Heq. simpl in Heq. lia.
Qed.

Lemma handleDeleteUser_self ctx confirmed write_fault fetch_fault order userId
  st w :
  AuthContext.user_id ctx = Some userId →
  let '(st', w') :=
    Users.handleDeleteUser ctx confirmed write_fault fetch_fault order userId
      st w in
  st' = st ∧ db w' = db w ∧ requests w' = requests w
  ∧ alerts w' ≠ alerts w.
Proof.
  intros Hself. unfold Users.handleDeleteUser.
  rewrite Hself, bool_decide_true by done.
  repeat split. cbn. intros Heq.
  apply (f_equal length) in Heq. rewrite length_app in Heq. simpl in Heq. lia.
Qed.

(** C2 (the code at the failing input).  An administrator opens the edit
    modal on the administrator's own profile, unchecks the administrator
    permission and saves: [handleSaveUser] sends the update, no alert is
    raised, and the store holds the profile without the administrator
    flag. *)
Theorem save_demotes_self (encodeURIComponent : jsstring → jsstring)
  (order : RowOrder) :
  let ctx := reception_ctx in
  let own := Users.mapUser admin_row in
  let st := Users.changeIsAdmin false (Users.openEditModal own users_page) in
  let '(st', w') :=
    Users.handleSaveUser encodeURIComponent (js "uuid") None None order st
      admin_world in
  AuthContext.user_id ctx = Some (UnifiedUser.id own)
  ∧ ProfileRow.is_admin <$> profiles (db admin_world) = [Some true]
  ∧ (ProfileRow.id <$> profiles (db w'), ProfileRow.is_admin <$> profiles (db w'))
    = ([js "u1"], [Some false])
  ∧ filter (λ r, is_write r = true) (requests w')
    = [mkRequest (js "profiles") UPDATE]
  ∧ alerts w' = [].
Proof. vm_compute. repeat split. Qed.

(** [handleDelete] of the professionals page has no such guard either:
    it deletes whatever profile it is given. *)
Lemma professionals_delete_unguarded fetch_fault order (id : jsstring)
  (st : Professionals.State) (w : World) :
  profiles
    (db (snd (Professionals.handleDelete true None fetch_fault order id st
                w)))
  = filter (λ p, ProfileRow.id p ≠ id) (profiles (db w)).
Proof.
  unfold Professionals.handleDelete, Professionals.fetchProfessionals, remote,
    write, query.
  by destruct fetch_fault.
Qed.

(** * Further properties of the pages *)

(** ** The daily map: fetches and lookups *)

(** X1.  A fetch of the rooms that the store answers returns, and caches,
    the rooms of the selected sector, each once, in ascending [order]. *)
Theorem fetched_rooms_sorted (ctx : AuthContext.t) (st : DailyMap.State)
  (w : World) :
  let '(data, st', w') := DailyMap.fetchRooms ctx None st w in
  StronglySorted order_le data
  ∧ data ≡ₚ filter (λ r, Room.sector r = AuthContext.selectedFloor ctx)
               (rooms (db w))
  ∧ DailyMap.rooms st' = data
  ∧ db w' = db w.
Proof.
  unfold DailyMap.fetchRooms, remote, query, select_rooms.
  split; [apply StronglySorted_merge_sort; apply _|].
  split; [apply merge_sort_Permutation|done].
Qed.

(** X4.  After a fetch of the allocations that the store answers, the
    cache holds the rows of the store for the date in view and the rooms
    used, and no other; with no rooms the cache is emptied and no request
    is sent. *)
Theorem fetched_allocations_scope (passedRooms : option (list Room.t))
  (st : DailyMap.State) (w : World) :
  let '(st', w') := DailyMap.fetchAllocations None passedRooms st w in
  (∀ a, a ∈ DailyMap.allocations st'
        ↔ a ∈ room_allocations (db w)
          ∧ DBAllocation.date a
            = DailyMap.formatDateKey (DailyMap.currentDate st)
          ∧ DBAllocation.room_id a
            ∈ Room.id <$> default (DailyMap.rooms st) passedRooms)
  ∧ (default (DailyMap.rooms st) passedRooms = [] →
     DailyMap.allocations st' = [] ∧ requests w' = requests w).
Proof.
  unfold DailyMap.fetchAllocations.
  destruct (default (DailyMap.rooms st) passedRooms) as [|r rs] eqn:Hrooms.
  - cbn [fmap list_fmap]. split; [|done].
    intros a. cbn [DailyMap.setAllocations DailyMap.allocations].
    rewrite !elem_of_nil. tauto.
  - rewrite fmap_cons. unfold remote, query, select_allocations.
    cbn [DailyMap.setAllocations DailyMap.allocations db].
    split; [|done]. intros a. rewrite list_elem_of_filter. tauto.
Qed.

Lemma fetched_allocations_scope_witness :
  let '(st', w') :=
    DailyMap.fetchAllocations None (Some []) sala1_slot_page sala1_world in
  DailyMap.allocations st' = [] ∧ requests w' = requests sala1_world.
Proof.
  pose proof (fetched_allocations_scope (Some []) sala1_slot_page sala1_world)
    as H.
  destruct (DailyMap.fetchAllocations _ _ _ _) as [st' w'].
  exact (proj2 H eq_refl).
Defined.

Lemma filter_nothing {A} (P : A → Prop) `{∀ x, Decision (P x)} (l : list A) :
  (∀ x, x ∈ l → ¬ P x) → filter P l = [].
Proof.
  induction l as [|x l IH]; [done|]. intros Hl.
  rewrite filter_cons_False by (apply Hl; left).
  apply IH. intros y Hy. apply Hl. by right.
Qed.

Lemma fetchAllocations_answered passedRooms st w :
  (DailyMap.fetchAllocations None passedRooms st w).1
  = DailyMap.setAllocations
      (select_allocations (DailyMap.formatDateKey (DailyMap.currentDate st))
         (Room.id <$> default (DailyMap.rooms st) passedRooms) (db w))
      st.
Proof.
  unfold DailyMap.fetchAllocations.
  destruct (Room.id <$> default (DailyMap.rooms st) passedRooms) eqn:Hids;
    [|done].
  unfold select_allocations. rewrite filter_nothing; [done|].
  intros a _ [_ Hin]. by apply elem_of_nil in Hin.
Qed.

Lemma handleAssignDoctor_answered ctx doctorId st w roomId shift :
  DailyMap.selectedSlot st = Some (roomId, shift) →
  DailyMap.handleAssignDoctor ctx None None doctorId st w
  = DailyMap.fetchAllocations None None
      (DailyMap.setShowAllocationModal false st)
      (mkWorld
         (upsert_allocation roomId doctorId
            (DailyMap.formatDateKey (DailyMap.currentDate st)) shift
            (AuthContext.user_id ctx) (js "room_id,date,shift") (db w))
         (requests w ++ [mkRequest (js "room_allocations") UPSERT])
         (console w) (alerts w)).
Proof. intros Hsel. unfold DailyMap.handleAssignDoctor. by rewrite Hsel. Qed.

Lemma getAllocation_slot (st : DailyMap.State) roomId shift dateKey a :
  (∀ b, b ∈ DailyMap.allocations st → DBAllocation.date b = dateKey) →
  DailyMap.getAllocation st roomId shift = Some a →
  a ∈ DailyMap.allocations st ∧ slot_of a = (roomId, dateKey, shift).
Proof.
  intros Hdate. unfold DailyMap.getAllocation.
  destruct (list_find _ _) as [[i b]|] eqn:Hfind; [|done].
  intros [= <-]. apply list_find_Some in Hfind as (Hi & [Hroom Hshift] & _).
  apply list_elem_of_lookup_2 in Hi. split; [done|].
  unfold slot_of. by rewrite Hroom, Hshift, (Hdate _ Hi).
Qed.

Lemma upsert_row_same_slot_row (new : DBAllocation.t) rows :
  NoDup (slot_of <$> rows) →
  ∃ id, filter (λ a, slot_of a = slot_of new)
          (upsert_row [col_room_id; col_date; col_shift] new rows)
        = [DBAllocation.mk id (DBAllocation.room_id new)
             (DBAllocation.doctor_id new) (DBAllocation.date new)
             (DBAllocation.shift new) (DBAllocation.created_by new)].
Proof.
  induction rows as [|r rows IH]; cbn [upsert_row]; intros Hnd.
  - exists (DBAllocation.id new). rewrite filter_cons_True by done.
    by destruct new.
  - rewrite conflicts_slot.
    rewrite fmap_cons in Hnd. apply NoDup_cons in Hnd as [Hr Hnd].
    case_bool_decide as Hc.
    + exists (DBAllocation.id r). rewrite filter_cons_True by done.
      rewrite filter_slot_absent by (by rewrite <-Hc). done.
    + rewrite filter_cons_False by done. by apply IH.
Qed.

(** X2.  When the store answers, an assignment to the selected slot of a
    room of the cache is what the grid then looks up for that slot: the
    row found carries the doctor just assigned, the date in view and the
    user who assigned, and the modal is closed. *)
Theorem assign_then_lookup (ctx : AuthContext.t) (doctorId : jsstring)
  (st : DailyMap.State) (w : World) (roomId : N) (shift : Shift) :
  DailyMap.selectedSlot st = Some (roomId, shift) →
  roomId ∈ Room.id <$> DailyMap.rooms st →
  unique_slots (db w) →
  let '(st', w') := DailyMap.handleAssignDoctor ctx None None doctorId st w in
  DailyMap.showAllocationModal st' = false
  ∧ ∃ a, DailyMap.getAllocation st' roomId shift = Some a
         ∧ a ∈ room_allocations (db w')
         ∧ DBAllocation.doctor_id a = doctorId
         ∧ DBAllocation.date a
           = DailyMap.formatDateKey (DailyMap.currentDate st)
         ∧ DBAllocation.created_by a = AuthContext.user_id ctx.
Proof.
  intros Hsel Hroom Hu.
  rewrite (handleAssignDoctor_answered _ _ _ _ _ _ Hsel).
  set (dateKey := DailyMap.formatDateKey (DailyMap.currentDate st)).
  set (w1 := mkWorld _ _ _ _).
  destruct (DailyMap.fetchAllocations None None _ w1) as [st' w'] eqn:Hfetch.
  pose proof (fetchAllocations_answered None
                (DailyMap.setShowAllocationModal false st) w1) as Hst.
  pose proof (proj1 (fetchAllocations_world None None
                (DailyMap.setShowAllocationModal false st) w1)) as Hdb.
  rewrite Hfetch in Hst, Hdb. cbn [fst snd] in Hst, Hdb.
  cbn [DailyMap.setShowAllocationModal DailyMap.rooms DailyMap.currentDate
       default] in Hst. fold dateKey in Hst.
  split; [by rewrite Hst|].
  set (new := DBAllocation.mk (serial (db w)) roomId doctorId dateKey shift
                (AuthContext.user_id ctx)).
  assert (room_allocations (db w')
          = upsert_row [col_room_id; col_date; col_shift] new
              (room_allocations (db w))) as Hrows.
  { rewrite Hdb. subst w1. cbn [db]. unfold upsert_allocation.
    cbn [room_allocations]. by rewrite conflict_target. }
  destruct (upsert_row_same_slot_row new _ Hu) as [id Hsame].
  rewrite <-Hrows in Hsame. cbn in Hsame.
  set (a := DBAllocation.mk id roomId doctorId dateKey shift
              (AuthContext.user_id ctx)) in Hsame.
  assert (a ∈ room_allocations (db w')) as Ha.
  { eapply (proj1 (list_elem_of_filter _ _ _)). rewrite Hsame. left. }
  assert (a ∈ DailyMap.allocations st') as Hcached.
  { rewrite Hst. cbn [DailyMap.setAllocations DailyMap.allocations].
    unfold select_allocations. apply list_elem_of_filter.
    rewrite Hdb in Ha. done. }
  assert (is_Some (DailyMap.getAllocation st' roomId shift)) as [b Hb].
  { unfold DailyMap.getAllocation. apply fmap_is_Some.
    by apply (list_find_elem_of _ _ a). }
  exists b. split; [done|].
  apply (getAllocation_slot st' roomId shift dateKey) in Hb as [Hbin Hslot].
  - assert (b ∈ [a]) as ->%list_elem_of_singleton; [|done].
    rewrite <-Hsame. apply list_elem_of_filter. split; [done|].
    revert Hbin. rewrite Hst, <-Hdb.
    cbn [DailyMap.setAllocations DailyMap.allocations].
    unfold select_allocations. by intros [_ ?]%list_elem_of_filter.
  - intros c. rewrite Hst.
    cbn [DailyMap.setAllocations DailyMap.allocations].
    unfold select_allocations. by intros [[? _] _]%list_elem_of_filter.
Qed.

Lemma assign_then_lookup_witness :
  (DailyMap.selectedSlot sala1_slot_page = Some (0, morning)
   ∧ 0 ∈ Room.id <$> DailyMap.rooms sala1_slot_page
   ∧ unique_slots (db empty_world))
  ∧ let '(st', w') :=
      DailyMap.handleAssignDoctor reception_ctx None None (js "D1")
        sala1_slot_page empty_world in
    ∃ a, DailyMap.getAllocation st' 0 morning = Some a
         ∧ DBAllocation.doctor_id a = js "D1".
Proof.
  assert (0 ∈ Room.id <$> DailyMap.rooms sala1_slot_page) as Hroom by left.
  assert (unique_slots (db empty_world)) as Hu by apply NoDup_nil_2.
  split; [by repeat split|].
  pose proof (assign_then_lookup reception_ctx (js "D1") sala1_slot_page
                empty_world 0 morning eq_refl Hroom Hu) as H.
  destruct (DailyMap.handleAssignDoctor _ _ _ _ _ _) as [st' w'].
  destruct H as (_ & a & Hfind & _ & Hdoctor & _).
  exists a. by split.
Defined.

Lemma handleClearSlot_state fetch_fault st w roomId shift :
  DailyMap.selectedSlot st = Some (roomId, shift) →
  DailyMap.handleClearSlot None fetch_fault st w
  = let '(st2, w2) :=
      DailyMap.fetchAllocations fetch_fault None st
        (mkWorld
           (delete_allocation roomId
              (DailyMap.formatDateKey (DailyMap.currentDate st)) shift (db w))
           (requests w ++ [mkRequest (js "room_allocations") DELETE])
           (console w) (alerts w)) in
    (DailyMap.setShowAllocationModal false st2, w2).
Proof. intros Hsel. unfold DailyMap.handleClearSlot. by rewrite Hsel. Qed.

(** X3.  When the store answers, clearing the selected slot leaves nothing
    for the grid to look up at that slot, and closes the modal. *)
Theorem clear_then_lookup (st : DailyMap.State) (w : World) (roomId : N)
  (shift : Shift) :
  DailyMap.selectedSlot st = Some (roomId, shift) →
  let '(st', w') := DailyMap.handleClearSlot None None st w in
  DailyMap.getAllocation st' roomId shift = None
  ∧ DailyMap.showAllocationModal st' = false
  ∧ rows_of_slot
      (roomId, DailyMap.formatDateKey (DailyMap.currentDate st), shift)
      (db w') = [].
Proof.
  intros Hsel. rewrite (handleClearSlot_state _ _ _ _ _ Hsel).
  set (dateKey := DailyMap.formatDateKey (DailyMap.currentDate st)).
  set (w1 := mkWorld _ _ _ _).
  destruct (DailyMap.fetchAllocations None None st w1) as [st2 w2] eqn:Hfetch.
  pose proof (fetchAllocations_answered None st w1) as Hst.
  pose proof (proj1 (fetchAllocations_world None None st w1)) as Hdb.
  rewrite Hfetch in Hst, Hdb. cbn [fst snd default] in Hst, Hdb.
  fold dateKey in Hst.
  assert (rows_of_slot (roomId, dateKey, shift) (db w2) = []) as Hgone.
  { rewrite Hdb. subst w1. cbn [db]. unfold rows_of_slot, delete_allocation.
    cbn [room_allocations]. apply filter_nothing.
    by intros a [? _]%list_elem_of_filter. }
  split; [|by split].
  unfold DailyMap.getAllocation.
  cbn [DailyMap.setShowAllocationModal DailyMap.allocations].
  rewrite Hst. cbn [DailyMap.setAllocations DailyMap.allocations].
  apply fmap_None, list_find_None, Forall_forall.
  intros a [[Hdate _] Ha]%list_elem_of_filter [Hroom Hshift].
  assert (a ∈ rows_of_slot (roomId, dateKey, shift) (db w2)) as Hin.
  { apply list_elem_of_filter. rewrite Hdb. split; [|done].
    unfold slot_of. by rewrite Hroom, Hdate, Hshift. }
  rewrite Hgone in Hin. by apply elem_of_nil in Hin.
Qed.

Lemma clear_then_lookup_witness :
  DailyMap.selectedSlot sala1_slot_page = Some (0, morning)
  ∧ let '(st', w') :=
      DailyMap.handleClearSlot None None sala1_slot_page empty_world in
    DailyMap.getAllocation st' 0 morning = None.
Proof.
  split; [done|].
  pose proof (clear_then_lookup sala1_slot_page empty_world 0 morning eq_refl)
    as H.
  destruct (DailyMap.handleClearSlot _ _ _ _) as [st' w'].
  by destruct H.
Defined.

Lemma upsert_row_absent (new : DBAllocation.t) rows :
  filter (λ a, slot_of a = slot_of new) rows = [] →
  upsert_row [col_room_id; col_date; col_shift] new rows = rows ++ [new].
Proof.
  induction rows as [|r rows IH]; [done|]. cbn [upsert_row].
  rewrite conflicts_slot, filter_cons. case_decide as Hr; [done|].
  intros Hrows. rewrite bool_decide_false by done. by rewrite IH.
Qed.

(** X5.  Assigning a doctor to a slot the store holds no row for and then
    clearing the slot leaves the allocations of the store exactly as they
    were, when the store answers both writes. *)
Theorem assign_clear_round_trip (ctx : AuthContext.t) (doctorId : jsstring)
  (fetch_fault1 fetch_fault2 : option jsstring) (st : DailyMap.State)
  (w : World) (roomId : N) (shift : Shift) :
  DailyMap.selectedSlot st = Some (roomId, shift) →
  rows_of_slot
    (roomId, DailyMap.formatDateKey (DailyMap.currentDate st), shift) (db w)
  = [] →
  let '(st1, w1) :=
    DailyMap.handleAssignDoctor ctx None fetch_fault1 doctorId st w in
  let '(st2, w2) := DailyMap.handleClearSlot None fetch_fault2 st1 w1 in
  room_allocations (db w2) = room_allocations (db w).
Proof.
  intros Hsel Habsent.
  set (dateKey := DailyMap.formatDateKey (DailyMap.currentDate st)) in *.
  pose proof (run_assign_db w (mkAssign ctx st doctorId None fetch_fault1))
    as Hdb1.
  unfold run_assign, committed_slot in Hdb1.
  cbn [assign_ctx assign_page assign_doctor assign_write_fault
       assign_fetch_fault] in Hdb1.
  rewrite Hsel in Hdb1. fold dateKey in Hdb1.
  assert (DailyMap.selectedSlot
            (DailyMap.handleAssignDoctor ctx None fetch_fault1 doctorId st w).1
          = Some (roomId, shift)
          ∧ DailyMap.currentDate
              (DailyMap.handleAssignDoctor ctx None fetch_fault1 doctorId st w).1
            = DailyMap.currentDate st) as [Hsel1 Hdate1].
  { unfold DailyMap.handleAssignDoctor. rewrite Hsel.
    unfold remote, write, DailyMap.fetchAllocations.
    destruct (Room.id <$> _); [done|]. by destruct fetch_fault1. }
  destruct (DailyMap.handleAssignDoctor ctx None fetch_fault1 doctorId st w)
    as [st1 w1].
  cbn [fst snd] in Hdb1, Hsel1, Hdate1.
  pose proof (handleClearSlot_answered fetch_fault2 st1 w1 roomId shift Hsel1)
    as [Hdb2 _].
  destruct (DailyMap.handleClearSlot None fetch_fault2 st1 w1) as [st2 w2].
  cbn [snd] in Hdb2. rewrite Hdb2, Hdate1, Hdb1. fold dateKey.
  unfold delete_allocation, upsert_allocation. cbn [room_allocations].
  rewrite conflict_target.
  rewrite upsert_row_absent by exact Habsent.
  rewrite filter_app, filter_cons_False, filter_nil, app_nil_r
    by (intros Hne; by apply Hne).
  by apply filter_slot_complement.
Qed.

Lemma assign_clear_round_trip_witness :
  (DailyMap.selectedSlot sala1_slot_page = Some (0, morning)
   ∧ rows_of_slot
       (0, DailyMap.formatDateKey (DailyMap.currentDate sala1_slot_page),
        morning) (db empty_world) = [])
  ∧ let '(st1, w1) :=
      DailyMap.handleAssignDoctor reception_ctx None None (js "D1")
        sala1_slot_page empty_world in
    let '(st2, w2) := DailyMap.handleClearSlot None None st1 w1 in
    room_allocations (db w2) = room_allocations (db empty_world).
Proof.
  split; [done|].
  exact (assign_clear_round_trip reception_ctx (js "D1") None None
           sala1_slot_page empty_world 0 morning eq_refl eq_refl).
Defined.

(** ** The daily map: what the handlers keep *)

Lemma handleDeleteRoom_db ctx confirmed write_fault fetch_fault id st w :
  db (DailyMap.handleDeleteRoom ctx confirmed write_fault fetch_fault id st w).2
  = if confirmed then
      match write_fault with
      | None => delete_room id (db w)
      | Some _ => db w
      end
    else db w.
Proof.
  unfold DailyMap.handleDeleteRoom. destruct confirmed; [|done].
  destruct write_fault; unfold remote, write;
    match goal with
    | |- context [DailyMap.fetchRooms ?c ?f ?s ?w] =>
      pose proof (fetchRooms_db c f s w) as Hdb;
      destruct (DailyMap.fetchRooms c f s w) as [[? ?] ?]
    end; exact Hdb.
Qed.

Lemma handleClearSlot_db write_fault fetch_fault st w :
  db (DailyMap.handleClearSlot write_fault fetch_fault st w).2
  = match DailyMap.selectedSlot st, write_fault with
    | Some (roomId, shift), None =>
      delete_allocation roomId
        (DailyMap.formatDateKey (DailyMap.currentDate st)) shift (db w)
    | _, _ => db w
    end.
Proof.
  destruct (DailyMap.selectedSlot st) as [[roomId shift]|] eqn:Hsel.
  - destruct write_fault.
    + unfold DailyMap.handleClearSlot. by rewrite Hsel.
    + by destruct (handleClearSlot_answered fetch_fault st w roomId shift Hsel).
  - unfold DailyMap.handleClearSlot. by rewrite Hsel.
Qed.

Lemma insert_room_constraints name extension floor order s :
  store_constraints s →
  store_constraints (insert_room name extension floor order s).
Proof.
  intros (Hu & Hnd & Hfresh). unfold store_constraints, insert_room.
  split; [done|]. cbn [rooms serial]. split.
  - rewrite fmap_app. apply NoDup_app. split; [done|]. split.
    + intros x (r & -> & Hr)%list_elem_of_fmap Hin.
      apply list_elem_of_singleton in Hin. cbn in Hin.
      specialize (Hfresh r Hr). lia.
    + apply NoDup_singleton.
  - intros r [Hr| ->%list_elem_of_singleton]%elem_of_app; cbn [rooms serial].
    + specialize (Hfresh r Hr). lia.
    + cbn. lia.
Qed.

Lemma update_room_ids id name extension s :
  Room.id <$> rooms (update_room id name extension s) = Room.id <$> rooms s.
Proof.
  unfold update_room. cbn [rooms]. rewrite <-list_fmap_compose.
  apply list_fmap_ext. intros i r _. cbn. by case_bool_decide.
Qed.

Lemma update_room_constraints id name extension s :
  store_constraints s → store_constraints (update_room id name extension s).
Proof.
  intros (Hu & Hnd & Hfresh). unfold store_constraints.
  rewrite update_room_ids. split; [done|]. split; [done|].
  intros r (r0 & -> & Hr0)%list_elem_of_fmap.
  specialize (Hfresh r0 Hr0). by case_bool_decide.
Qed.

Lemma delete_room_constraints id s :
  store_constraints s → store_constraints (delete_room id s).
Proof.
  intros (Hu & Hnd & Hfresh). unfold store_constraints, delete_room,
    unique_slots, serial_fresh. cbn [rooms room_allocations serial].
  split; [|split].
  - eapply sublist_NoDup; [exact Hu|]. apply fmap_sublist, sublist_filter.
  - eapply sublist_NoDup; [exact Hnd|]. apply fmap_sublist, sublist_filter.
  - intros r [_ Hr]%list_elem_of_filter. by apply Hfresh.
Qed.

Lemma upsert_allocation_constraints room doctor date shift by_ s :
  store_constraints s →
  store_constraints
    (upsert_allocation room doctor date shift by_ (js "room_id,date,shift") s).
Proof.
  intros (Hu & Hnd & Hfresh). unfold store_constraints, upsert_allocation,
    unique_slots, serial_fresh. cbn [rooms room_allocations serial].
  rewrite conflict_target. split; [by apply upsert_row_unique|].
  split; [done|]. intros r Hr. specialize (Hfresh r Hr). lia.
Qed.

Lemma delete_allocation_constraints room date shift s :
  store_constraints s → store_constraints (delete_allocation room date shift s).
Proof.
  intros (Hu & Hnd & Hfresh). unfold store_constraints, delete_allocation,
    unique_slots, serial_fresh. cbn [rooms room_allocations serial].
  split; [|done].
  eapply sublist_NoDup; [exact Hu|]. apply fmap_sublist, sublist_filter.
Qed.

Lemma run_event_constraints (w : World) (ev : Event) :
  store_constraints (db w) → store_constraints (db (run_event w ev)).
Proof.
  intros Hs. destruct ev as [ctx wf ff page|ctx confirmed wf ff id page
                            |ctx wf ff doctorId page|wf ff page];
    cbn [run_event].
  - rewrite handleSaveRoom_db.
    destruct (trim _); [done|]. destruct wf; [done|].
    destruct (DailyMap.editingRoomId page);
      auto using update_room_constraints, insert_room_constraints.
  - rewrite handleDeleteRoom_db. destruct confirmed; [|done].
    destruct wf; [done|]. by apply delete_room_constraints.
  - change (store_constraints
              (db (run_assign w (mkAssign ctx page doctorId wf ff)))).
    rewrite run_assign_db.
    destruct (committed_slot _) as [[[? ?] ?]|]; [|done].
    by apply upsert_allocation_constraints.
  - rewrite handleClearSlot_db.
    destruct (DailyMap.selectedSlot page) as [[? ?]|]; [|done].
    destruct wf; [done|]. by apply delete_allocation_constraints.
Qed.

(** X6.  Whatever the pages do on the daily map, in any order and with
    any failures, the store keeps its constraints: at most one allocation
    per (room, date, shift), distinct room keys, and room keys below the
    serial number. *)
Theorem daily_map_keeps_constraints (evs : list Event) (w : World) :
  store_constraints (db w) → store_constraints (db (run_events evs w)).
Proof.
  revert w. induction evs as [|ev evs IH]; intros w Hs; [done|].
  apply IH. by apply run_event_constraints.
Qed.

Lemma daily_map_keeps_constraints_witness :
  store_constraints (db empty_world)
  ∧ store_constraints
      (db (run_events
             [SaveRoom reception_ctx None None sala1_page;
              AssignDoctor reception_ctx None None (js "D1") sala1_slot_page;
              AssignDoctor reception_ctx None None (js "D2") sala1_slot_page;
              DeleteRoom reception_ctx true None None 0 sala1_slot_page]
             empty_world)).
Proof.
  assert (store_constraints (db empty_world)) as Hs.
  { split; [apply NoDup_nil_2|]. split; [apply NoDup_nil_2|].
    intros r Hr. by apply elem_of_nil in Hr. }
  split; [exact Hs|]. by apply daily_map_keeps_constraints.
Defined.

(** X7.  Saving the room form in edit mode, when the store answers,
    changes the name and extension of the room being edited and nothing
    else: the keys, sectors and orders of the rooms of the store are as
    before and the other rooms are untouched; the form is then reset. *)
Theorem edit_room_keeps (ctx : AuthContext.t) (fetch_fault : option jsstring)
  (st : DailyMap.State) (w : World) (id : N) :
  DailyMap.editingRoomId st = Some id →
  trim (DailyMap.roomForm st).1 ≠ [] →
  let '(st', w') := DailyMap.handleSaveRoom ctx None fetch_fault st w in
  Room.id <$> rooms (db w') = Room.id <$> rooms (db w)
  ∧ Room.sector <$> rooms (db w') = Room.sector <$> rooms (db w)
  ∧ Room.order <$> rooms (db w') = Room.order <$> rooms (db w)
  ∧ (∀ r, r ∈ rooms (db w') → Room.id r = id →
     Room.name r = (DailyMap.roomForm st).1
     ∧ Room.extension r = (DailyMap.roomForm st).2)
  ∧ (∀ r, Room.id r ≠ id → r ∈ rooms (db w') ↔ r ∈ rooms (db w))
  ∧ DailyMap.editingRoomId st' = None
  ∧ DailyMap.roomForm st' = ([], []).
Proof.
  intros Hedit Hname.
  pose proof (handleSaveRoom_db ctx None fetch_fault st w) as Hdb.
  rewrite Hedit in Hdb.
  assert (DailyMap.editingRoomId
            (DailyMap.handleSaveRoom ctx None fetch_fault st w).1 = None
          ∧ DailyMap.roomForm
              (DailyMap.handleSaveRoom ctx None fetch_fault st w).1
            = ([], [])) as Hform.
  { unfold DailyMap.handleSaveRoom. rewrite Hedit.
    destruct (trim (DailyMap.roomForm st).1); [done|].
    unfold remote, write.
    by destruct (DailyMap.fetchRooms ctx fetch_fault st _) as [[? ?] ?]. }
  destruct (DailyMap.handleSaveRoom ctx None fetch_fault st w) as [st' w'].
  cbn [fst snd] in Hdb, Hform.
  destruct (trim (DailyMap.roomForm st).1) eqn:Htrim; [done|].
  rewrite Hdb. split; [apply update_room_ids|].
  unfold update_room. cbn [rooms].
  split; [|split; [|split; [|split; [|exact Hform]]]].
  - rewrite <-list_fmap_compose. apply list_fmap_ext.
    intros i r _. cbn. by case_bool_decide.
  - rewrite <-list_fmap_compose. apply list_fmap_ext.
    intros i r _. cbn. by case_bool_decide.
  - intros r (r0 & -> & Hr0)%list_elem_of_fmap. by case_bool_decide.
  - intros r Hne. rewrite list_elem_of_fmap. split.
    + intros (r0 & -> & Hr0). by case_bool_decide.
    + intros Hr. exists r. by rewrite bool_decide_false.
Qed.

Lemma edit_room_keeps_witness :
  (DailyMap.editingRoomId sala1_edit_page = Some 0
   ∧ trim (DailyMap.roomForm sala1_edit_page).1 ≠ [])
  ∧ let '(st', w') :=
      DailyMap.handleSaveRoom reception_ctx None None sala1_edit_page
        sala1_world in
    Room.id <$> rooms (db w') = Room.id <$> rooms (db sala1_world)
    ∧ Room.sector <$> rooms (db w') = Room.sector <$> rooms (db sala1_world).
Proof.
  assert (trim (DailyMap.roomForm sala1_edit_page).1 ≠ []) as Hname
    by (vm_compute; discriminate).
  split; [by split|].
  pose proof (edit_room_keeps reception_ctx None sala1_edit_page sala1_world 0
                eq_refl Hname) as H.
  destruct (DailyMap.handleSaveRoom _ _ _ _ _) as [st' w'].
  destruct H as (Hid & Hsector & _). by split.
Defined.

(** X8.  Deleting a room never raises an alert nor logs an error for the
    delete, whatever the store answers to it, and nothing is sent when the
    confirmation is refused.  When the store answers the delete and the
    fetch that follows, the room is gone from the store and from the
    cache, and the other rooms are untouched. *)
Theorem delete_room_then_fetch (ctx : AuthContext.t)
  (write_fault : option jsstring) (id : N) (st : DailyMap.State) (w : World) :
  DailyMap.handleDeleteRoom ctx false write_fault None id st w = (st, w)
  ∧ let '(st', w') :=
      DailyMap.handleDeleteRoom ctx true write_fault None id st w in
    alerts w' = alerts w
    ∧ console w' = console w
    ∧ (write_fault = None →
       (id ∉ Room.id <$> rooms (db w'))
       ∧ (id ∉ Room.id <$> DailyMap.rooms st')
       ∧ (∀ r, Room.id r ≠ id → r ∈ rooms (db w') ↔ r ∈ rooms (db w))).
Proof.
  split; [done|].
  unfold DailyMap.handleDeleteRoom, DailyMap.fetchRooms, remote, write, query.
  destruct write_fault as [message|]; cbn [db requests console alerts].
  - by repeat split.
  - split; [done|]. split; [done|]. intros _.
    cbn [DailyMap.setRooms DailyMap.rooms delete_room rooms].
    split; [|split].
    + intros (r & Hid & [Hne _]%list_elem_of_filter)%list_elem_of_fmap.
      by apply Hne.
    + intros (r & Hid & [[Hne _]%list_elem_of_filter _]%select_rooms_sector)
        %list_elem_of_fmap.
      by apply Hne.
    + intros r Hne. rewrite list_elem_of_filter. tauto.
Qed.

Lemma delete_room_then_fetch_witness :
  let '(st', w') :=
    DailyMap.handleDeleteRoom reception_ctx true None None 0 sala1_edit_page
      sala1_world in
  (0 ∉ Room.id <$> rooms (db w')) ∧ (0 ∉ Room.id <$> DailyMap.rooms st').
Proof.
  destruct (delete_room_then_fetch reception_ctx None 0 sala1_edit_page
              sala1_world) as [_ H].
  destruct (DailyMap.handleDeleteRoom _ _ _ _ _ _ _) as [st' w'].
  destruct H as (_ & _ & H). destruct (H eq_refl) as (Hstore & Hcache & _).
  exact (conj Hstore Hcache).
Defined.

(** ** The daily map: date keys *)

Lemma pretty_N_go_ascii (x : N) (s : string) :
  Forall (λ a, N_of_ascii a < 128) (list_ascii_of_string s) →
  Forall (λ a, N_of_ascii a < 128) (list_ascii_of_string (pretty_N_go x s)).
Proof.
  revert s. induction (N.lt_wf_0 x) as [x _ IH]; intros s Hs.
  destruct (decide (0 < x)) as [Hx|Hx].
  - rewrite pretty_N_go_step by done. apply IH; [by apply N.div_lt|].
    cbn [list_ascii_of_string]. apply Forall_cons. split; [|done].
    rewrite N_of_ascii_digit by (by apply N.mod_lt).
    pose proof (N.mod_lt x 10 ltac:(done)). lia.
  - assert (x = 0) as -> by lia. by rewrite pretty_N_go_0.
Qed.

Lemma pretty_Z_ascii (z : Z) :
  Forall (λ a, N_of_ascii a < 128) (list_ascii_of_string (pretty z)).
Proof.
  destruct z as [|p|p]; unfold pretty, pretty_Z.
  - repeat constructor.
  - unfold pretty, pretty_positive, pretty, pretty_N.
    rewrite decide_False by done. by apply pretty_N_go_ascii.
  - unfold pretty, pretty_positive, pretty, pretty_N.
    rewrite decide_False by done. cbn [String.append list_ascii_of_string].
    apply Forall_cons. split; [done|]. by apply pretty_N_go_ascii.
Qed.

Lemma js_ascii (s : string) :
  Forall (λ a, N_of_ascii a < 128) (list_ascii_of_string s) →
  js s = N_of_ascii <$> list_ascii_of_string s.
Proof.
  intros Hs. unfold js. apply utf8_units_ascii. by apply Forall_fmap.
Qed.

(** [String] gives different integers different strings. *)
Lemma String_of_number_inj (a b : Z) :
  String_of_number (Int a) = String_of_number (Int b) → a = b.
Proof.
  unfold String_of_number.
  rewrite !js_ascii by apply pretty_Z_ascii. intros Heq.
  apply (inj pretty).
  rewrite <-(string_of_list_ascii_of_string (pretty a)),
    <-(string_of_list_ascii_of_string (pretty b)). f_equal.
  revert Heq. generalize (list_ascii_of_string (pretty a)).
  generalize (list_ascii_of_string (pretty b)).
  intros l2 l1. revert l2. induction l1 as [|c l1 IH]; intros [|d l2] Heq;
    try done.
  injection Heq as Hc Hl. f_equal; [|by apply IH].
  by rewrite <-(ascii_N_embedding c), <-(ascii_N_embedding d), Hc.
Qed.

Lemma two_digits_inj (a b : Z) :
  (0 ≤ a ≤ 99)%Z → (0 ≤ b ≤ 99)%Z → two_digits a = two_digits b → a = b.
Proof.
  intros Ha Hb. unfold two_digits, digit. intros [= Htens Hones].
  assert (a / 10 = b / 10 ∧ a mod 10 = b mod 10)%Z as [? ?].
  { pose proof (Z.div_pos a 10). pose proof (Z.div_pos b 10).
    pose proof (Z.mod_pos_bound a 10). pose proof (Z.mod_pos_bound b 10).
    lia. }
  rewrite (Z.div_mod a 10), (Z.div_mod b 10) by done. lia.
Qed.

(** X9.  Two calendar dates with the same date key are the same date: the
    allocations of different days are never filed under one key. *)
Theorem formatDateKey_injective (d1 d2 : Date) :
  calendar_date d1 → calendar_date d2 →
  DailyMap.formatDateKey d1 = DailyMap.formatDateKey d2 → d1 = d2.
Proof.
  destruct d1 as [y1 m1 n1|], d2 as [y2 m2 n2|]; try done.
  intros [Hm1 Hn1] [Hm2 Hn2]. unfold DailyMap.formatDateKey.
  cbn [getFullYear getMonth getDate succ_number].
  rewrite !padStart_two_digits by lia.
  assert (js "-" = [45]) as -> by (vm_compute; reflexivity).
  intros [Hyear Hrest]%app_inj_2; [|done].
  apply String_of_number_inj in Hyear as ->.
  injection Hrest as Hm1a Hm1b Hn1a Hn1b.
  assert (m1 + 1 = m2 + 1)%Z
    by (apply two_digits_inj; [lia|lia|unfold two_digits; congruence]).
  assert (n1 = n2)
    by (apply two_digits_inj; [lia|lia|unfold two_digits; congruence]).
  f_equal; lia.
Qed.

Lemma formatDateKey_injective_witness :
  (calendar_date (LocalDate 2024 0 10)
   ∧ DailyMap.formatDateKey (LocalDate 2024 0 10)
     = DailyMap.formatDateKey (LocalDate 2024 0 10))
  ∧ LocalDate 2024 0 10 = LocalDate 2024 0 10
  ∧ DailyMap.formatDateKey (LocalDate 2024 0 10)
    ≠ DailyMap.formatDateKey (LocalDate 2024 9 1).
Proof.
  assert (calendar_date (LocalDate 2024 0 10)) as H1 by (simpl; lia).
  assert (calendar_date (LocalDate 2024 9 1)) as H2 by (simpl; lia).
  split; [by split|]. split.
  - exact (formatDateKey_injective _ _ H1 H1 eq_refl).
  - intros Heq. by pose proof (formatDateKey_injective _ _ H1 H2 Heq).
Defined.

(** ** The users page *)

Lemma map_profile_ids id f s :
  (∀ p, ProfileRow.id (f p) = ProfileRow.id p) →
  ProfileRow.id <$> profiles (map_profile id f s) = ProfileRow.id <$> profiles s.
Proof.
  intros Hf. unfold map_profile. cbn [profiles]. rewrite <-list_fmap_compose.
  apply list_fmap_ext. intros i p _. cbn. case_bool_decide; [apply Hf|done].
Qed.

Lemma map_profile_others id f s (p : ProfileRow.t) :
  (∀ q, ProfileRow.id (f q) = ProfileRow.id q) →
  ProfileRow.id p ≠ id →
  p ∈ profiles (map_profile id f s) ↔ p ∈ profiles s.
Proof.
  intros Hf Hne. unfold map_profile. cbn [profiles].
  rewrite list_elem_of_fmap. split.
  - intros (q & -> & Hq). case_bool_decide as Hid; [|done].
    destruct Hne. by rewrite Hf.
  - intros Hp. exists p. by rewrite bool_decide_false.
Qed.

(** X10.  Toggling the administrator flag of another user, when the store
    answers, sets the flag of the profiles with that key to the opposite
    of the status shown and changes no other profile, no key and no other
    column; no alert is raised. *)
Theorem toggle_admin_other (ctx : AuthContext.t) (userId : jsstring)
  (currentStatus : bool) (st : Users.State) (w : World) :
  AuthContext.user_id ctx ≠ Some userId →
  let '(st', w') := Users.toggleAdmin ctx None userId currentStatus st w in
  ProfileRow.id <$> profiles (db w') = ProfileRow.id <$> profiles (db w)
  ∧ (∀ p, p ∈ profiles (db w) → ProfileRow.id p = userId →
     ProfileRow.mk (ProfileRow.id p) (ProfileRow.name p) (ProfileRow.email p)
       (ProfileRow.role p) (ProfileRow.specialty p) (ProfileRow.phone p)
       (ProfileRow.avatar p) (ProfileRow.color p) (ProfileRow.status p)
       (ProfileRow.gender p) (Some (negb currentStatus))
     ∈ profiles (db w'))
  ∧ (∀ p, p ∈ profiles (db w') → ProfileRow.id p = userId →
     ProfileRow.is_admin p = Some (negb currentStatus))
  ∧ (∀ p, ProfileRow.id p ≠ userId →
     p ∈ profiles (db w') ↔ p ∈ profiles (db w))
  ∧ alerts w' = alerts w.
Proof.
  intros Hother. unfold Users.toggleAdmin.
  rewrite bool_decide_false by congruence.
  unfold remote, write, update_profile_is_admin. cbn [db alerts].
  split; [by apply map_profile_ids|]. split; [|split; [|split; [|done]]].
  - intros p Hp Hid. unfold map_profile. cbn [profiles].
    apply list_elem_of_fmap. exists p. by rewrite bool_decide_true.
  - intros p (q & -> & Hq)%list_elem_of_fmap Hid.
    case_bool_decide as Hq'; [done|]. by destruct Hq'.
  - intros p Hne. by apply map_profile_others.
Qed.

Lemma toggle_admin_other_witness :
  AuthContext.user_id reception_ctx ≠ Some (js "u2")
  ∧ let '(st', w') :=
      Users.toggleAdmin reception_ctx None (js "u2") false staff_page
        staff_world in
    ProfileRow.id <$> profiles (db w') = ProfileRow.id <$> profiles (db staff_world)
    ∧ alerts w' = alerts staff_world.
Proof.
  assert (AuthContext.user_id reception_ctx ≠ Some (js "u2")) as Hother
    by (vm_compute; discriminate).
  split; [exact Hother|].
  pose proof (toggle_admin_other reception_ctx (js "u2") false staff_page
                staff_world Hother) as H.
  destruct (Users.toggleAdmin _ _ _ _ _ _) as [st' w'].
  destruct H as (Hids & _ & _ & _ & Halerts). by split.
Defined.

(** X11.  Toggling the flag of another user and toggling it back restores
    the profiles of the store, provided the status shown for the user was
    the stored one. *)
Theorem toggle_admin_twice (ctx : AuthContext.t) (userId : jsstring)
  (currentStatus : bool) (st : Users.State) (w : World) :
  AuthContext.user_id ctx ≠ Some userId →
  (∀ p, p ∈ profiles (db w) → ProfileRow.id p = userId →
   ProfileRow.is_admin p = Some currentStatus) →
  let '(st1, w1) := Users.toggleAdmin ctx None userId currentStatus st w in
  let '(st2, w2) :=
    Users.toggleAdmin ctx None userId (negb currentStatus) st1 w1 in
  profiles (db w2) = profiles (db w).
Proof.
  intros Hother Hshown. unfold Users.toggleAdmin.
  rewrite !bool_decide_false by congruence.
  unfold remote, write, update_profile_is_admin, map_profile.
  cbn [db profiles]. rewrite <-list_fmap_compose.
  rewrite <-(list_fmap_id (profiles (db w))) at 2.
  apply list_fmap_ext. intros i p Hp%list_elem_of_lookup_2.
  unfold compose, id.
  destruct (decide (ProfileRow.id p = userId)) as [Hid|Hid].
  - rewrite (bool_decide_true (ProfileRow.id p = userId)) by done.
    cbn [ProfileRow.id ProfileRow.name ProfileRow.email ProfileRow.role
         ProfileRow.specialty ProfileRow.phone ProfileRow.avatar
         ProfileRow.color ProfileRow.status ProfileRow.gender].
    rewrite (bool_decide_true (ProfileRow.id p = userId)) by done.
    rewrite negb_involutive, <-(Hshown p Hp Hid). by destruct p.
  - by rewrite !(bool_decide_false (ProfileRow.id p = userId)) by done.
Qed.

Lemma toggle_admin_twice_witness :
  (AuthContext.user_id reception_ctx ≠ Some (js "u2")
   ∧ ∀ p, p ∈ profiles (db staff_world) → ProfileRow.id p = js "u2" →
          ProfileRow.is_admin p = Some false)
  ∧ let '(st1, w1) :=
      Users.toggleAdmin reception_ctx None (js "u2") false staff_page
        staff_world in
    let '(st2, w2) :=
      Users.toggleAdmin reception_ctx None (js "u2") (negb false) st1 w1 in
    profiles (db w2) = profiles (db staff_world).
Proof.
  assert (AuthContext.user_id reception_ctx ≠ Some (js "u2")) as Hother
    by (vm_compute; discriminate).
  assert (∀ p, p ∈ profiles (db staff_world) → ProfileRow.id p = js "u2" →
          ProfileRow.is_admin p = Some false) as Hshown.
  { intros p Hp Hid. apply elem_of_cons in Hp as [->|Hp].
    - vm_compute in Hid. discriminate.
    - by apply list_elem_of_singleton in Hp as ->. }
  split; [by split|].
  exact (toggle_admin_twice reception_ctx (js "u2") false staff_page
           staff_world Hother Hshown).
Defined.

(** X12.  Deleting another user sends nothing when the confirmation is
    refused; when it is given and the store answers the delete and the
    fetch that follows, the profiles with that key are gone from the
    store, the others are kept in their order, and the list shows the
    mapped profiles of the store, in the order the store answers them,
    none of which has the deleted key. *)
Theorem delete_user_then_fetch (ctx : AuthContext.t) (order : RowOrder)
  (userId : jsstring) (st : Users.State) (w : World) :
  AuthContext.user_id ctx ≠ Some userId →
  Users.handleDeleteUser ctx false None None order userId st w = (st, w)
  ∧ let '(st', w') :=
      Users.handleDeleteUser ctx true None None order userId st w in
    profiles (db w')
    = filter (λ p, ProfileRow.id p ≠ userId) (profiles (db w))
    ∧ Users.users st' = Users.mapUser <$> order (profiles (db w'))
    ∧ Users.users st' ≡ₚ Users.mapUser <$> profiles (db w')
    ∧ (userId ∉ UnifiedUser.id <$> Users.users st')
    ∧ Users.toastMessage st' = Some (js "Usuário removido com sucesso.").
Proof.
  intros Hother. unfold Users.handleDeleteUser.
  rewrite !bool_decide_false by congruence. split; [done|].
  unfold Users.fetchUsers, remote, write, query, select_profiles,
    delete_profile.
  cbn [db profiles Users.setLoading Users.setUsers Users.showToast
       Users.users Users.toastMessage].
  split; [done|]. split; [done|].
  split; [by rewrite arrange_rows|]. split; [|done].
  rewrite <-list_fmap_compose.
  intros (p & Hid & Hp)%list_elem_of_fmap.
  rewrite arrange_rows in Hp. apply list_elem_of_filter in Hp as [Hne _].
  by apply Hne.
Qed.

Lemma delete_user_then_fetch_witness :
  AuthContext.user_id reception_ctx ≠ Some (js "u2")
  ∧ let '(st', w') :=
      Users.handleDeleteUser reception_ctx true None None reversed_order
        (js "u2") staff_page staff_world in
    js "u2" ∉ UnifiedUser.id <$> Users.users st'.
Proof.
  assert (AuthContext.user_id reception_ctx ≠ Some (js "u2")) as Hother
    by (vm_compute; discriminate).
  split; [exact Hother|].
  destruct (delete_user_then_fetch reception_ctx reversed_order (js "u2")
              staff_page staff_world Hother) as [_ H].
  destruct (Users.handleDeleteUser _ _ _ _ _ _ _ _) as [st' w'].
  by destruct H as (_ & _ & _ & Hgone & _).
Defined.

Section UsersForm.

Variable encodeURIComponent : jsstring → jsstring.

(** X13.  Saving a valid form in creation mode, when the store answers the
    insert and the fetch that follows, adds one profile to the store and
    closes the modal; the list shows the profiles of the store, in the
    order the store answers them, and the new user is among them: it has
    the key generated, the name, role, sector or specialty, phone and
    administrator flag of the form, and is shown as 'offline'. *)
Theorem create_user_round_trip (randomUUID : jsstring) (order : RowOrder)
  (st : Users.State) (w : World) :
  Users.editingUser st = None →
  Users.name (Users.formData st) ≠ [] →
  Users.roleDisplay (Users.formData st) ≠ [] →
  let '(st', w') :=
    Users.handleSaveUser encodeURIComponent randomUUID None None order st w in
  profiles (db w')
  = profiles (db w)
    ++ [Users.new_profile encodeURIComponent randomUUID (Users.formData st)]
  ∧ Users.isModalOpen st' = false
  ∧ Users.toastMessage st' = Some (js "Novo usuário criado!")
  ∧ Users.users st' ≡ₚ Users.mapUser <$> profiles (db w')
  ∧ ∃ u, u ∈ Users.users st'
         ∧ UnifiedUser.id u = randomUUID
         ∧ UnifiedUser.name u = Users.name (Users.formData st)
         ∧ UnifiedUser.roleType u = Users.role (Users.formData st)
         ∧ UnifiedUser.roleDisplay u = Users.roleDisplay (Users.formData st)
         ∧ UnifiedUser.phone u = Users.phone (Users.formData st)
         ∧ UnifiedUser.isAdmin u = Users.isAdmin (Users.formData st)
         ∧ UnifiedUser.status u = js "offline".
Proof.
  intros Hcreate Hname Hrole. unfold Users.handleSaveUser. rewrite Hcreate.
  destruct (Users.name (Users.formData st)) as [|c1 n] eqn:Hn; [done|].
  destruct (Users.roleDisplay (Users.formData st)) as [|c2 r] eqn:Hr; [done|].
  unfold Users.fetchUsers, remote, write, query, select_profiles,
    insert_profile.
  cbn [db profiles Users.setLoading Users.setUsers Users.showToast
       Users.setIsModalOpen Users.users Users.toastMessage Users.isModalOpen].
  split; [done|]. split; [done|]. split; [done|].
  split; [by rewrite arrange_rows|].
  exists (Users.mapUser
            (Users.new_profile encodeURIComponent randomUUID
               (Users.formData st))).
  split.
  { apply list_elem_of_fmap. eexists. split; [done|].
    rewrite arrange_rows. apply elem_of_app. right. by left. }
  unfold Users.mapUser, Users.new_profile.
  cbn [UnifiedUser.id UnifiedUser.name UnifiedUser.roleType
       UnifiedUser.roleDisplay UnifiedUser.phone UnifiedUser.isAdmin
       UnifiedUser.status ProfileRow.id ProfileRow.name ProfileRow.role
       ProfileRow.specialty ProfileRow.phone ProfileRow.status
       ProfileRow.is_admin to_boolean].
  rewrite Hn, Hr. cbn [or_else].
  repeat split. by destruct (Users.phone (Users.formData st)).
Qed.

(** X14.  Saving a valid form in edit mode, when the store answers,
    rewrites the profiles with the key of the user being edited and no
    other: keys and their order are as before, the stored status of every
    profile is kept, and the edited profiles carry the name, role, sector
    or specialty and administrator flag of the form. *)
Theorem edit_user_keeps (randomUUID : jsstring)
  (fetch_fault : option jsstring) (order : RowOrder) (st : Users.State)
  (w : World) (u : UnifiedUser.t) :
  Users.editingUser st = Some u →
  Users.name (Users.formData st) ≠ [] →
  Users.roleDisplay (Users.formData st) ≠ [] →
  let '(st', w') :=
    Users.handleSaveUser encodeURIComponent randomUUID None fetch_fault order
      st w in
  ProfileRow.id <$> profiles (db w') = ProfileRow.id <$> profiles (db w)
  ∧ ProfileRow.status <$> profiles (db w')
    = ProfileRow.status <$> profiles (db w)
  ∧ (∀ p, ProfileRow.id p ≠ UnifiedUser.id u →
     p ∈ profiles (db w') ↔ p ∈ profiles (db w))
  ∧ (∀ p, p ∈ profiles (db w') → ProfileRow.id p = UnifiedUser.id u →
     ProfileRow.name p = Some (Users.name (Users.formData st))
     ∧ ProfileRow.role p = Users.role (Users.formData st)
     ∧ ProfileRow.specialty p = Some (Users.roleDisplay (Users.formData st))
     ∧ ProfileRow.is_admin p = Some (Users.isAdmin (Users.formData st))).
Proof.
  intros Hedit Hname Hrole.
  assert (db (Users.handleSaveUser encodeURIComponent randomUUID None
                fetch_fault order st w).2
          = Users.update_profile encodeURIComponent (UnifiedUser.id u)
              (Users.formData st) (db w)) as Hdb.
  { unfold Users.handleSaveUser. rewrite Hedit.
    destruct (Users.name (Users.formData st)); [done|].
    destruct (Users.roleDisplay (Users.formData st)); [done|].
    unfold Users.fetchUsers, remote, write. by destruct fetch_fault. }
  destruct (Users.handleSaveUser _ _ _ _ _ _ _) as [st' w'].
  cbn [snd] in Hdb. rewrite Hdb. unfold Users.update_profile.
  split; [by apply map_profile_ids|]. split; [|split].
  - unfold map_profile. cbn [profiles]. rewrite <-list_fmap_compose.
    apply list_fmap_ext. intros i p _. cbn. by case_bool_decide.
  - intros p Hne. by apply map_profile_others.
  - intros p (q & -> & Hq)%list_elem_of_fmap Hid.
    case_bool_decide as Hq'; [done|]. by destruct Hq'.
Qed.

End UsersForm.

Lemma create_user_round_trip_witness :
  (Users.editingUser new_user_page = None
   ∧ Users.name (Users.formData new_user_page) ≠ []
   ∧ Users.roleDisplay (Users.formData new_user_page) ≠ [])
  ∧ let '(st', w') :=
      Users.handleSaveUser (λ s, s) (js "u3") None None reversed_order
        new_user_page admin_world in
    ∃ u, u ∈ Users.users st' ∧ UnifiedUser.id u = js "u3"
         ∧ UnifiedUser.status u = js "offline".
Proof.
  assert (Users.name (Users.formData new_user_page) ≠ []) as Hname
    by (vm_compute; discriminate).
  assert (Users.roleDisplay (Users.formData new_user_page) ≠ []) as Hrole
    by (vm_compute; discriminate).
  split; [by repeat split|].
  pose proof (create_user_round_trip (λ s, s) (js "u3") reversed_order
                new_user_page admin_world eq_refl Hname Hrole) as H.
  destruct (Users.handleSaveUser _ _ _ _ _ _ _) as [st' w'].
  destruct H as (_ & _ & _ & _ & u & Hlast & Hid & _ & _ & _ & _ & _
                 & Hstatus).
  exists u. by repeat split.
Defined.

Lemma edit_user_keeps_witness :
  let st := Users.changeIsAdmin true
              (Users.openEditModal (Users.mapUser doctor_row) staff_page) in
  (Users.editingUser st = Some (Users.mapUser doctor_row)
   ∧ Users.name (Users.formData st) ≠ []
   ∧ Users.roleDisplay (Users.formData st) ≠ [])
  ∧ let '(st', w') :=
      Users.handleSaveUser (λ s, s) (js "u3") None None insertion_order st
        staff_world in
    ProfileRow.id <$> profiles (db w')
    = ProfileRow.id <$> profiles (db staff_world)
    ∧ ProfileRow.status <$> profiles (db w')
      = ProfileRow.status <$> profiles (db staff_world).
Proof.
  intros st.
  assert (Users.name (Users.formData st) ≠ []) as Hname
    by (vm_compute; discriminate).
  assert (Users.roleDisplay (Users.formData st) ≠ []) as Hrole
    by (vm_compute; discriminate).
  split; [by repeat split|].
  pose proof (edit_user_keeps (λ s, s) (js "u3") None insertion_order st
                staff_world (Users.mapUser doctor_row) eq_refl Hname Hrole)
    as H.
  destruct (Users.handleSaveUser _ _ _ _ _ _ _) as [st' w'].
  destruct H as (Hids & Hstatus & _). by split.
Defined.

Lemma or_else_nonempty (v : option jsstring) (d : jsstring) :
  d ≠ [] → or_else v d ≠ [].
Proof. intros Hd. by destruct v as [[|c s]|]. Qed.

(** X30.  The edit form opened on a listed user whose profile has no role
    holds no role, and is valid as it stands: saving it raises no alert
    and sends the update and, when the store answers, the profiles of
    that key still have no role; no role is made up for them. *)
Theorem edit_keeps_missing_role (encodeURIComponent : jsstring → jsstring)
  (randomUUID : jsstring) (write_fault fetch_fault : option jsstring)
  (order : RowOrder) (row : ProfileRow.t) (st : Users.State) (w : World) :
  ProfileRow.role row = None →
  let st1 := Users.openEditModal (Users.mapUser row) st in
  Users.role (Users.formData st1) = None
  ∧ let '(st', w') :=
      Users.handleSaveUser encodeURIComponent randomUUID write_fault
        fetch_fault order st1 w in
    alerts w' = alerts w
    ∧ mkRequest (js "profiles") UPDATE ∈ requests w'
    ∧ (write_fault = None →
       ∀ p, p ∈ profiles (db w') → ProfileRow.id p = ProfileRow.id row →
            ProfileRow.role p = None).
Proof.
  intros Hrole st1. subst st1.
  assert (js "Sem Nome" ≠ []) as Hname by (vm_compute; discriminate).
  assert (js "Médico" ≠ []) as Hdoctor by (vm_compute; discriminate).
  assert (∃ c n, UnifiedUser.name (Users.mapUser row) = c :: n)
    as (c1 & n & Hn).
  { unfold Users.mapUser. cbn [UnifiedUser.name].
    destruct (or_else _ _) as [|c n] eqn:Hn;
      [by apply or_else_nonempty in Hn|by eexists _, _]. }
  assert (∃ c r, UnifiedUser.roleDisplay (Users.mapUser row) = c :: r)
    as (c2 & r & Hr).
  { unfold Users.mapUser. cbn [UnifiedUser.roleDisplay].
    rewrite Hrole, bool_decide_false by done.
    destruct (or_else _ _) as [|c r] eqn:Hr;
      [by apply or_else_nonempty in Hr|by eexists _, _]. }
  assert (UnifiedUser.roleType (Users.mapUser row) = None) as Hnone
    by exact Hrole.
  assert (UnifiedUser.id (Users.mapUser row) = ProfileRow.id row) as Hid
    by reflexivity.
  revert Hn Hr Hnone Hid. generalize (Users.mapUser row). intros user.
  intros Hn Hr Hnone Hid.
  unfold Users.openEditModal, Users.handleSaveUser.
  cbn [Users.setIsModalOpen Users.setFormData Users.setEditingUser
       Users.formData Users.editingUser Users.role Users.name
       Users.roleDisplay].
  split; [exact Hnone|]. rewrite Hn, Hr, Hid.
  destruct write_fault as [message|]; unfold remote at 1.
  - split; [done|]. split; [|done].
    cbn [requests console_error]. apply elem_of_app. right. by left.
  - unfold write, Users.fetchUsers, remote, query, Users.update_profile,
      map_profile.
    cbn [db requests alerts console profiles Users.role].
    assert (∀ f (p : ProfileRow.t),
              p ∈ (λ q, if bool_decide (ProfileRow.id q = ProfileRow.id row)
                        then f q else q) <$> profiles (db w) →
              (∀ q, ProfileRow.role (f q) = None) →
              ProfileRow.id p = ProfileRow.id row →
              (∀ q, ProfileRow.id (f q) = ProfileRow.id q) →
              ProfileRow.role p = None) as Hstored.
    { intros f p (q & -> & Hq)%list_elem_of_fmap Hf Hp Hkeep.
      case_bool_decide as Hq'; [apply Hf|]. by destruct Hq'. }
    destruct fetch_fault as [message|];
      (split; [done|]; split;
       [cbn [requests console_error]; rewrite elem_of_app; left;
        apply elem_of_app; right; by left
       |intros _ p Hp Hkey; eapply Hstored; [exact Hp|done|exact Hkey|done]]).
Qed.

Lemma edit_keeps_missing_role_witness :
  ProfileRow.role guest_row = None
  ∧ let '(st', w') :=
      Users.handleSaveUser (λ s, s) (js "u3") None None reversed_order
        (Users.openEditModal (Users.mapUser guest_row) staff_page)
        guest_world in
    alerts w' = alerts guest_world
    ∧ ∀ p, p ∈ profiles (db w') → ProfileRow.id p = ProfileRow.id guest_row →
           ProfileRow.role p = None.
Proof.
  split; [reflexivity|].
  destruct (edit_keeps_missing_role (λ s, s) (js "u3") None None
              reversed_order guest_row staff_page guest_world eq_refl)
    as [_ H].
  destruct (Users.handleSaveUser _ _ _ _ _ _ _) as [st' w'].
  destruct H as (Halerts & _ & Hstored). split; [exact Halerts|].
  exact (Hstored eq_refl).
Defined.

(** ** The professionals page *)

Lemma includes_false_drop (p s : jsstring) (i : nat) :
  includes p s = false → startsWith p (drop i s) = false.
Proof.
  revert i. induction s as [|c s IH]; intros i H.
  - rewrite drop_nil. destruct p; [done|done].
  - apply includes_false_inv in H as [H0 Hs].
    destruct i as [|i]; [done|]. by apply IH.
Qed.

Lemma startsWith_app_long (p x t : jsstring) :
  (length p ≤ length x)%nat → startsWith p (x ++ t) = startsWith p x.
Proof.
  revert x. induction p as [|a p IH]; intros x Hlen; [by destruct x|].
  destruct x as [|b x]; [simpl in Hlen; lia|].
  cbn [startsWith app]. rewrite IH; [done|]. simpl in Hlen. lia.
Qed.

(** A string joined to another by the delimiter splits back into the two,
    when the delimiter does not occur before the join nor in the second. *)
Lemma split_joined (a b : jsstring) :
  includes (js " | ") (a ++ js " |") = false →
  includes (js " | ") b = false →
  split (js " | ") (a ++ js " | " ++ b) = [a; b].
Proof.
  intros Ha Hb. symmetry. apply segments_split; [apply delimiter_nonempty|].
  apply segments_cut; [|by apply segments_whole].
  intros i Hi.
  assert (js " | " = js " |" ++ [32]) as Hsep by (vm_compute; reflexivity).
  rewrite Hsep at 2. rewrite <-(app_assoc (js " |")), (app_assoc a).
  rewrite drop_app_le by (rewrite length_app; lia).
  rewrite startsWith_app_long.
  - by apply includes_false_drop.
  - rewrite length_drop, length_app.
    assert (length (js " | ") = 3%nat) as -> by (vm_compute; reflexivity).
    assert (length (js " |") = 2%nat) as -> by (vm_compute; reflexivity).
    lia.
Qed.

Lemma fullName_nonempty (f : Professionals.FormData) :
  ∃ c s, Professionals.fullName f = c :: s.
Proof.
  unfold Professionals.fullName. case_bool_decide.
  - assert (js "Drº" = [68; 114; 186]) as -> by (vm_compute; reflexivity).
    by eexists _, _.
  - assert (js "Drª" = [68; 114; 170]) as -> by (vm_compute; reflexivity).
    by eexists _, _.
Qed.

(** The mapping of the row that [handleSave] builds from a form. *)
Lemma mapProfessional_new_professional (id : jsstring) (f : Professionals.FormData) :
  includes (js " | ") (Professionals.specialty f ++ js " |") = false →
  includes (js " | ") (Professionals.sector f) = false →
  let d := Professionals.mapProfessional (Professionals.new_professional id f) in
  Doctor.id d = id
  ∧ Doctor.name d = Professionals.fullName f
  ∧ Doctor.specialty d
    = trim (or_else (Some (Professionals.specialty f)) (js "Geral"))
  ∧ Doctor.sector d = trim (Professionals.sector f)
  ∧ Doctor.phone d = Professionals.phone f
  ∧ Doctor.status d = or_else (Some (Professionals.status f)) (js "active").
Proof.
  intros Hspec Hsec d. subst d.
  unfold Professionals.mapProfessional, Professionals.new_professional.
  cbn [Doctor.id Doctor.name Doctor.specialty Doctor.sector Doctor.phone
       Doctor.status ProfileRow.id ProfileRow.name ProfileRow.specialty
       ProfileRow.phone ProfileRow.status].
  split; [done|]. split.
  { destruct (fullName_nonempty f) as (c & s & ->). done. }
  assert (split (js " | ")
            (or_else (Some (Professionals.combinedSpecialty f)) [])
          = [Professionals.specialty f; Professionals.sector f]) as ->.
  { unfold Professionals.combinedSpecialty.
    rewrite <-(split_joined _ _ Hspec Hsec). f_equal.
    by destruct (Professionals.specialty f ++ js " | " ++ Professionals.sector f). }
  unfold at_index. cbn [lookup list_lookup].
  split; [done|]. split.
  { by destruct (Professionals.sector f). }
  split; [by destruct (Professionals.phone f)|done].
Qed.

(** X15.  What [handleSave] stores for a professional maps back to what
    was entered, when the delimiter occurs neither in the sector nor in
    the specialty followed by " |": the sector is the one entered,
    trimmed; the specialty is the one entered, trimmed, or 'Geral' when
    none was entered; the name is the one entered after its title. *)
Theorem professional_round_trip (id : jsstring) (f : Professionals.FormData) :
  includes (js " | ") (Professionals.specialty f ++ js " |") = false →
  includes (js " | ") (Professionals.sector f) = false →
  let d := Professionals.mapProfessional (Professionals.new_professional id f) in
  Doctor.id d = id
  ∧ Doctor.name d = Professionals.fullName f
  ∧ Doctor.specialty d
    = trim (or_else (Some (Professionals.specialty f)) (js "Geral"))
  ∧ Doctor.sector d = trim (Professionals.sector f)
  ∧ Doctor.phone d = Professionals.phone f
  ∧ Doctor.status d = or_else (Some (Professionals.status f)) (js "active").
Proof. apply mapProfessional_new_professional. Qed.

Lemma professional_round_trip_witness :
  (includes (js " | ") (Professionals.specialty new_professional_form ++ js " |")
   = false
   ∧ includes (js " | ") (Professionals.sector new_professional_form) = false)
  ∧ let d := Professionals.mapProfessional
               (Professionals.new_professional (js "d9") new_professional_form) in
    Doctor.sector d = trim (Professionals.sector new_professional_form)
    ∧ trim (Professionals.sector new_professional_form)
      = js "8º Andar ( CLÍNICA MÉDICA / CARDIOLOGIA )".
Proof.
  assert (includes (js " | ")
            (Professionals.specialty new_professional_form ++ js " |") = false)
    as Hspec by (vm_compute; reflexivity).
  assert (includes (js " | ") (Professionals.sector new_professional_form)
          = false) as Hsec by (vm_compute; reflexivity).
  split; [by split|]. intros d. split.
  - exact (proj1 (proj2 (proj2 (proj2
      (professional_round_trip (js "d9") new_professional_form Hspec Hsec))))).
  - vm_compute. reflexivity.
Defined.

Lemma trimStart_idem (s : jsstring) : trimStart (trimStart s) = trimStart s.
Proof.
  induction s as [|c s IH]; [done|]. cbn [trimStart].
  destruct (is_white_space c) eqn:Hc; [done|]. cbn [trimStart]. by rewrite Hc.
Qed.

(** The title [handleSave] puts before a name is the one [openModal] cuts
    off, with the white space after it. *)
Lemma strip_title_fullName (f : Professionals.FormData) :
  strip_title (Professionals.fullName f) = trimStart (Professionals.name f).
Proof.
  unfold Professionals.fullName.
  assert (js " " = [32]) as -> by (vm_compute; reflexivity).
  case_bool_decide.
  - assert (js "Drº" = [68; 114; 186]) as -> by (vm_compute; reflexivity).
    reflexivity.
  - assert (js "Drª" = [68; 114; 170]) as -> by (vm_compute; reflexivity).
    reflexivity.
Qed.

Section ProfessionalsList.

Variable toLowerCase : jsstring → jsstring.

(** X16.  Opening the edit form on a professional that was saved from a
    form shows that form again, the name trimmed: provided the specialty
    and the sector entered are not empty, have no white space around them
    and do not bring the delimiter in, and a gender and a status were
    entered. *)
Theorem edit_form_round_trip (ctx : AuthContext.t) (id : jsstring)
  (f : Professionals.FormData) (st : Professionals.State) :
  includes (js " | ") (Professionals.specialty f ++ js " |") = false →
  trim (Professionals.specialty f) = Professionals.specialty f →
  Professionals.specialty f ≠ [] →
  includes (js " | ") (Professionals.sector f) = false →
  trim (Professionals.sector f) = Professionals.sector f →
  Professionals.sector f ≠ [] →
  Professionals.gender f ≠ [] →
  Professionals.status f ≠ [] →
  let d := Professionals.mapProfessional (Professionals.new_professional id f) in
  let st' := Professionals.openModal toLowerCase ctx (Some d) st in
  Professionals.formData st'
  = Professionals.mkForm (trim (Professionals.name f))
      (Professionals.specialty f) (Professionals.phone f)
      (Professionals.gender f) (Professionals.sector f)
      (Professionals.status f)
  ∧ Professionals.editingProfessional st' = Some d
  ∧ Professionals.isModalOpen st' = true.
Proof.
  intros Hspec Hspec_trim Hspec_ne Hsec Hsec_trim Hsec_ne Hgender Hstatus d st'.
  destruct (mapProfessional_new_professional id f Hspec Hsec)
    as (_ & Hname & Hspecialty & Hsector & Hphone & Hstat).
  fold d in Hname, Hspecialty, Hsector, Hphone, Hstat.
  assert (Doctor.gender d = Some (Professionals.gender f)) as Hgen.
  { subst d. cbn. by destruct (Professionals.gender f). }
  subst st'. unfold Professionals.openModal.
  cbn [Professionals.setIsModalOpen Professionals.setFormData
       Professionals.setEditingProfessional Professionals.formData
       Professionals.editingProfessional Professionals.isModalOpen].
  split; [|done].
  rewrite Hname, Hspecialty, Hsector, Hphone, Hstat, Hgen.
  rewrite strip_title_fullName, Hsec_trim.
  f_equal.
  - unfold trim. by rewrite trimStart_idem.
  - destruct (Professionals.specialty f); [done|]. exact Hspec_trim.
  - by destruct (Professionals.gender f).
  - by destruct (Professionals.sector f).
  - by destruct (Professionals.status f).
Qed.

(** X17.  The page lists professionals of the selected sector only.  A
    professional created from a valid form, when the delimiter occurs
    neither in the sector entered nor in the specialty entered followed
    by " |" and the store answers, is in the cache, whatever the order
    in which the store answers; it is listed under no sector but its own
    and, with an empty search, it is listed under its own. *)
Theorem saved_professional_listed (randomUUID : jsstring) (order : RowOrder)
  (st : Professionals.State) (w : World) :
  Professionals.editingProfessional st = None →
  Professionals.name (Professionals.formData st) ≠ [] →
  includes (js " | ")
    (Professionals.specialty (Professionals.formData st) ++ js " |") = false →
  includes (js " | ") (Professionals.sector (Professionals.formData st))
  = false →
  let d := Professionals.mapProfessional
             (Professionals.new_professional randomUUID
                (Professionals.formData st)) in
  let '(st', w') :=
    Professionals.handleSave randomUUID None None order st w in
  d ∈ Professionals.professionals st'
  ∧ (∀ ctx p, p ∈ Professionals.filtered toLowerCase ctx st' →
     Doctor.sector p = AuthContext.selectedFloor ctx)
  ∧ (∀ ctx, d ∈ Professionals.filtered toLowerCase ctx st' →
     AuthContext.selectedFloor ctx
     = trim (Professionals.sector (Professionals.formData st)))
  ∧ (∀ ctx, Professionals.search st = [] → toLowerCase [] = [] →
     AuthContext.selectedFloor ctx
     = trim (Professionals.sector (Professionals.formData st)) →
     d ∈ Professionals.filtered toLowerCase ctx st').
Proof.
  intros Hcreate Hname Hspec Hsec d.
  destruct (mapProfessional_new_professional randomUUID
              (Professionals.formData st) Hspec Hsec)
    as (_ & _ & _ & Hsector & _).
  fold d in Hsector.
  unfold Professionals.handleSave. rewrite Hcreate.
  destruct (Professionals.name (Professionals.formData st)) as [|c n] eqn:Hn;
    [done|].
  unfold Professionals.fetchProfessionals, remote, write, query,
    select_profiles_by_role, insert_profile.
  cbn [db profiles Professionals.setLoading Professionals.setProfessionals
       Professionals.showToast Professionals.setIsModalOpen
       Professionals.professionals].
  assert (∀ ctx (s : Professionals.State) p,
            p ∈ Professionals.filtered toLowerCase ctx s →
            p ∈ Professionals.professionals s
            ∧ Doctor.sector p = AuthContext.selectedFloor ctx) as Hfiltered.
  { intros ctx s p [Hp Hin]%list_elem_of_filter. split; [done|].
    cbn zeta in Hp. apply andb_true_iff in Hp as [_ Hp].
    by apply bool_decide_eq_true in Hp. }
  assert (d ∈ Professionals.mapProfessional
                <$> order (filter (λ p, ProfileRow.role p = Some (js "doctor"))
                             (profiles (db w)
                              ++ [Professionals.new_professional randomUUID
                                    (Professionals.formData st)]))) as Hcached.
  { apply list_elem_of_fmap. eexists. split; [done|].
    rewrite arrange_rows, filter_app, filter_cons_True by done.
    apply elem_of_app. right. by left. }
  split; [|split; [|split]].
  - exact Hcached.
  - intros ctx p Hp. by apply Hfiltered in Hp as [_ ?].
  - intros ctx Hd. apply Hfiltered in Hd as [_ Hd]. by rewrite <-Hd, Hsector.
  - intros ctx Hsearch Hlower Hfloor.
    apply list_elem_of_filter. split.
    + cbn zeta.
      cbn [Professionals.search Professionals.setLoading
           Professionals.setProfessionals Professionals.showToast
           Professionals.setIsModalOpen].
      rewrite Hsearch, Hlower.
      apply andb_true_iff. split.
      * apply orb_true_iff. left. by destruct (toLowerCase (Doctor.name d)).
      * apply bool_decide_eq_true. by rewrite Hsector.
    + cbn [Professionals.professionals]. exact Hcached.
Qed.

End ProfessionalsList.

Lemma edit_form_round_trip_witness :
  Professionals.formData
    (Professionals.openModal (λ s, s) floor9_ctx
       (Some (Professionals.mapProfessional
                (Professionals.new_professional (js "d9")
                   new_professional_form)))
       new_professional_page)
  = Professionals.mkForm (trim (Professionals.name new_professional_form))
      (Professionals.specialty new_professional_form)
      (Professionals.phone new_professional_form)
      (Professionals.gender new_professional_form)
      (Professionals.sector new_professional_form)
      (Professionals.status new_professional_form).
Proof.
  apply (edit_form_round_trip (λ s, s) floor9_ctx (js "d9")
           new_professional_form new_professional_page);
    vm_compute; (reflexivity || discriminate).
Defined.

Lemma saved_professional_listed_witness :
  let d := Professionals.mapProfessional
             (Professionals.new_professional (js "d9")
                (Professionals.formData new_professional_page)) in
  let '(st', w') :=
    Professionals.handleSave (js "d9") None None reversed_order
      new_professional_page staff_world in
  d ∈ Professionals.professionals st'
  ∧ (d ∈ Professionals.filtered (λ s, s) floor9_ctx st' → False).
Proof.
  intros d.
  assert (Professionals.name (Professionals.formData new_professional_page)
          ≠ []) as Hname by (vm_compute; discriminate).
  pose proof (saved_professional_listed (λ s, s) (js "d9") reversed_order
                new_professional_page staff_world eq_refl Hname
                ltac:(vm_compute; reflexivity) ltac:(vm_compute; reflexivity))
    as H.
  cbn zeta in H. fold d in H.
  destruct (Professionals.handleSave _ _ _ _ _ _) as [st' w'].
  destruct H as (Hlast & _ & Hown & _). split; [exact Hlast|].
  intros Hd. apply Hown in Hd. vm_compute in Hd. discriminate.
Defined.

(** ** The provider of the auth context *)

Lemma map_profile_target id f s (p : ProfileRow.t) :
  p ∈ profiles (map_profile id f s) → ProfileRow.id p = id →
  (∀ q, ProfileRow.id (f q) = ProfileRow.id q) →
  ∃ q, q ∈ profiles s ∧ ProfileRow.id q = id ∧ p = f q.
Proof.
  unfold map_profile. cbn [profiles].
  intros (q & -> & Hq)%list_elem_of_fmap Hid Hf.
  case_bool_decide as Hq'; [|done]. by exists q.
Qed.

(** X18.  When the profile fetched is the one of the account named in the
    provider, the session holds it as an administrator whatever the store
    says and whatever it answers to the promotion; when the store answers
    the promotion, the stored profile carries the flag too. *)
Theorem named_account_promoted (update_fault : option jsstring)
  (userId : jsstring) (data : ProfileRow.t) (st : AuthProvider.State)
  (w : World) :
  AuthProvider.select_profile userId (db w) = [data] →
  ProfileRow.name data = Some (js "Luiz Gustavo Macedo Segura") →
  let '(st', w') := AuthProvider.fetchProfile None update_fault userId st w in
  AuthProvider.isAdmin <$> AuthProvider.user st' = Some true
  ∧ (update_fault = None →
     ∀ p, p ∈ profiles (db w') → ProfileRow.id p = userId →
          to_boolean (ProfileRow.is_admin p) = true).
Proof.
  intros Hone Hname. unfold AuthProvider.fetchProfile, remote, query.
  rewrite Hone, Hname, bool_decide_true by done. cbn [andb].
  assert (∀ p, p ∈ profiles (db w) → ProfileRow.id p = userId → p = data)
    as Hrow.
  { intros p Hp Hid.
    assert (p ∈ AuthProvider.select_profile userId (db w)) as Hin
      by by apply list_elem_of_filter.
    rewrite Hone in Hin. by apply list_elem_of_singleton in Hin. }
  destruct (to_boolean (ProfileRow.is_admin data)) eqn:Hflag; cbn [negb].
  - cbn [AuthProvider.setUser AuthProvider.user AuthProvider.mappedUser
         AuthProvider.isAdmin fmap option_fmap option_map db].
    split; [by rewrite Hflag|]. intros _ p Hp Hid.
    by rewrite (Hrow p Hp Hid).
  - unfold write. destruct update_fault as [message|];
      cbn [AuthProvider.setUser AuthProvider.user AuthProvider.mappedUser
           AuthProvider.isAdmin fmap option_fmap option_map db to_boolean].
    + by split.
    + split; [done|]. intros _ p Hp Hid.
      unfold update_profile_is_admin in Hp.
      apply map_profile_target in Hp as (q & _ & _ & ->); done.
Qed.

Lemma named_account_promoted_witness :
  let demoted := (Users.toggleAdmin reception_ctx None (js "u7") true
                    staff_page named_world).2 in
  (∃ data, AuthProvider.select_profile (js "u7") (db demoted) = [data]
           ∧ ProfileRow.name data = Some (js "Luiz Gustavo Macedo Segura")
           ∧ ProfileRow.is_admin data = Some false)
  ∧ let '(st', w') :=
      AuthProvider.fetchProfile None None (js "u7") (signed_in (js "u7"))
        demoted in
    AuthProvider.isAdmin <$> AuthProvider.user st' = Some true
    ∧ ∀ p, p ∈ profiles (db w') → ProfileRow.id p = js "u7" →
           to_boolean (ProfileRow.is_admin p) = true.
Proof.
  intros demoted.
  set (data := ProfileRow.mk (js "u7") (Some (js "Luiz Gustavo Macedo Segura"))
                 (Some (js "luiz@example.com")) (Some (js "reception"))
                 (Some (js "CDU - CENTRO DE DIAGNÓSTICO UNIMED")) None None
                 None (Some (js "online")) (Some (js "male")) (Some false)).
  assert (AuthProvider.select_profile (js "u7") (db demoted) = [data]) as Hone
    by (vm_compute; reflexivity).
  split; [by exists data|].
  pose proof (named_account_promoted None (js "u7") data (signed_in (js "u7"))
                demoted Hone eq_refl) as H.
  destruct (AuthProvider.fetchProfile _ _ _ _ _) as [st' w'].
  destruct H as [Hsession Hstore]. split; [exact Hsession|]. by apply Hstore.
Defined.

(** X19.  [updateStatus] shows the new status in the session at once and
    does not take it back: when the store rejects the write the session
    holds the new status while the store is as it was, and the failure is
    logged only; when the store answers, the stored profiles of the user
    carry the status and no other profile changes. *)
Theorem update_status_optimistic (update_fault : option jsstring)
  (status : jsstring) (st : AuthProvider.State) (w : World)
  (u : AuthProvider.User) :
  AuthProvider.user st = Some u →
  AuthProvider.id u ≠ [] →
  let '(st', w') := AuthProvider.updateStatus update_fault status st w in
  AuthProvider.status <$> AuthProvider.user st' = Some (Some status)
  ∧ alerts w' = alerts w
  ∧ (∀ message, update_fault = Some message →
     db w' = db w ∧ console w' = console w ++ [js "Error updating status:"])
  ∧ (update_fault = None →
     (∀ p, p ∈ profiles (db w') → ProfileRow.id p = AuthProvider.id u →
      ProfileRow.status p = Some status)
     ∧ (∀ p, ProfileRow.id p ≠ AuthProvider.id u →
        p ∈ profiles (db w') ↔ p ∈ profiles (db w))).
Proof.
  intros Huser Hid. unfold AuthProvider.updateStatus. rewrite Huser.
  destruct (AuthProvider.id u) as [|c i] eqn:Hi; [done|].
  unfold remote, write. destruct update_fault as [message|]; cbn.
  - by repeat split.
  - split; [done|]. split; [done|]. split; [done|]. intros _. split.
    + intros p Hp Hp'. unfold AuthProvider.update_profile_status in Hp.
      apply map_profile_target in Hp as (q & _ & _ & ->); done.
    + intros p Hne. by apply map_profile_others.
Qed.

Lemma update_status_optimistic_witness :
  (AuthProvider.user rita_session
   = Some (AuthProvider.mkUser (js "u1") (js "Rita") (js "rita@example.com")
             (js "reception") None None (Some (js "online")) true)
   ∧ js "u1" ≠ [])
  ∧ let '(st', w') :=
      AuthProvider.updateStatus (Some (js "Failed to fetch")) (js "offline")
        rita_session admin_world in
    AuthProvider.status <$> AuthProvider.user st' = Some (Some (js "offline"))
    ∧ db w' = db admin_world.
Proof.
  assert (js "u1" ≠ []) as Hid by (vm_compute; discriminate).
  split; [by split|].
  pose proof (update_status_optimistic (Some (js "Failed to fetch"))
                (js "offline") rita_session admin_world _ eq_refl Hid) as H.
  destruct (AuthProvider.updateStatus _ _ _ _) as [st' w'].
  destruct H as (Hsession & _ & Hfail & _).
  split; [exact Hsession|]. by destruct (Hfail _ eq_refl).
Defined.

(** X20.  [logout] ends the session whatever the store answers: the user
    and the session are gone and the selected sector is kept.  Without a
    user nothing is sent; with one, when the store answers, the stored
    profiles of the user are 'offline'. *)
Theorem logout_ends_session (update_fault : option jsstring)
  (st : AuthProvider.State) (w : World) :
  let '(st', w') := AuthProvider.logout update_fault st w in
  AuthProvider.user st' = None
  ∧ AuthProvider.session st' = None
  ∧ AuthProvider.selectedFloor st' = AuthProvider.selectedFloor st
  ∧ (AuthProvider.user st = None → w' = w)
  ∧ (∀ u, AuthProvider.user st = Some u → AuthProvider.id u ≠ [] →
     update_fault = None →
     ∀ p, p ∈ profiles (db w') → ProfileRow.id p = AuthProvider.id u →
          ProfileRow.status p = Some (js "offline")).
Proof.
  unfold AuthProvider.logout. cbn [AuthProvider.setSession AuthProvider.setUser
    AuthProvider.user AuthProvider.session AuthProvider.selectedFloor].
  split; [done|]. split; [done|]. split; [done|]. split.
  - by intros ->.
  - intros u -> Hid ->. destruct (AuthProvider.id u) as [|c i] eqn:Hi; [done|].
    unfold remote, write. cbn [snd db]. intros p Hp Hp'.
    unfold AuthProvider.update_profile_status in Hp.
    apply map_profile_target in Hp as (q & _ & _ & ->); done.
Qed.

Lemma logout_ends_session_witness :
  let '(st', w') := AuthProvider.logout None rita_session admin_world in
  AuthProvider.user st' = None
  ∧ ∀ p, p ∈ profiles (db w') → ProfileRow.id p = js "u1" →
         ProfileRow.status p = Some (js "offline").
Proof.
  pose proof (logout_ends_session None rita_session admin_world) as H.
  destruct (AuthProvider.logout _ _ _) as [st' w'].
  destruct H as (Huser & _ & _ & _ & Hoffline). split; [exact Huser|].
  apply (Hoffline _ eq_refl); [|done]. vm_compute. discriminate.
Defined.
(** ** The dashboard *)

Lemma distinct_mono (l k : list jsstring) :
  (∀ x, x ∈ l → x ∈ k) → (Dashboard.distinct l ≤ Dashboard.distinct k)%nat.
Proof.
  intros Hsub. unfold Dashboard.distinct.
  apply submseteq_length, NoDup_submseteq; [apply NoDup_remove_dups|].
  intros x Hx. apply elem_of_remove_dups, Hsub, elem_of_remove_dups, Hx.
Qed.

Lemma distinct_length (l : list jsstring) :
  (Dashboard.distinct l ≤ length l)%nat.
Proof.
  unfold Dashboard.distinct.
  apply submseteq_length, NoDup_submseteq; [apply NoDup_remove_dups|].
  intros x Hx. apply elem_of_remove_dups, Hx.
Qed.

Lemma distinct_app (l k : list jsstring) :
  (Dashboard.distinct (l ++ k)
   ≤ Dashboard.distinct l + Dashboard.distinct k)%nat.
Proof.
  unfold Dashboard.distinct. rewrite <- length_app.
  apply submseteq_length, NoDup_submseteq; [apply NoDup_remove_dups|].
  intros x Hx. rewrite elem_of_remove_dups in Hx.
  rewrite elem_of_app, !elem_of_remove_dups. apply elem_of_app, Hx.
Qed.

Lemma doctors_by_shift (allocsData : list Dashboard.AllocationRow) :
  (Dashboard.distinct (Dashboard.doctor_of <$> allocsData)
   ≤ Dashboard.distinct
       (Dashboard.doctor_of <$> Dashboard.on_shift morning allocsData)
     + Dashboard.distinct
         (Dashboard.doctor_of <$> Dashboard.on_shift afternoon allocsData))%nat.
Proof.
  etransitivity; [|apply distinct_app]. apply distinct_mono.
  intros x (a & -> & Ha)%list_elem_of_fmap. apply elem_of_app.
  destruct (DBAllocation.shift (Dashboard.allocation a)) eqn:Hshift;
    [left|right]; apply list_elem_of_fmap; exists a; split; try done;
    apply list_elem_of_filter; done.
Qed.

Lemma doctors_of_shift (shift : Shift)
  (allocsData : list Dashboard.AllocationRow) :
  (Dashboard.distinct
     (Dashboard.doctor_of <$> Dashboard.on_shift shift allocsData)
   ≤ Dashboard.distinct (Dashboard.doctor_of <$> allocsData))%nat.
Proof.
  apply distinct_mono. intros x (a & -> & Ha)%list_elem_of_fmap.
  apply list_elem_of_fmap. exists a. split; [done|].
  apply list_elem_of_filter in Ha as [_ Ha]. exact Ha.
Qed.

Lemma filter_items_values {A} (P : A → Prop) `{!∀ x, Decision (P x)}
  (l : list A) :
  Types.filter_items P (Types.Array (Some <$> l)) = Some (filter P l).
Proof. unfold Types.filter_items. by rewrite mapM_fmap_Some. Qed.

Lemma filter_items_throws {A} (P : A → Prop) `{!∀ x, Decision (P x)}
  (value : Types.Parsed A) :
  value ≠ Types.SyntaxError →
  Types.filter_items P value = None ↔ throws_on_filter value.
Proof.
  intros Hvalue. destruct value as [| |items]; [done|done|].
  unfold Types.filter_items, throws_on_filter.
  rewrite fmap_None, mapM_None, Exists_exists. split.
  - by intros (item & Hitem & ->).
  - intros Hnull. by exists None.
Qed.

(** What the two queries of the dashboard answer and leave behind. *)
Lemma dashboard_queries (ctx : AuthContext.t) (now : Date)
  (rooms_fault allocations_fault : option jsstring) (w : World) :
  let '(roomsAnswer, w1) :=
    remote (js "rooms") SELECT rooms_fault
      (query (select_rooms (AuthContext.selectedFloor ctx))) w in
  let '(allocsData, w2) :=
    match Room.id <$> match roomsAnswer with
                      | Data data => data
                      | Failed _ => []
                      end with
    | [] => ([], w1)
    | _ :: _ =>
      match remote (js "room_allocations") SELECT allocations_fault
              (query (Dashboard.select_allocations_with_profiles
                        (Dashboard.getLocalDateKey now)
                        (Room.id <$> match roomsAnswer with
                                     | Data data => data
                                     | Failed _ => []
                                     end)))
              w1 with
      | (Data data, w2) => (data, w2)
      | (Failed _, w2) => ([], w2)
      end
    end in
  console w2 = console w
  ∧ (rooms_fault = None →
     match roomsAnswer with
     | Data data => data
     | Failed _ => []
     end = select_rooms (AuthContext.selectedFloor ctx) (db w))
  ∧ (rooms_fault = None → allocations_fault = None →
     allocsData
     = Dashboard.select_allocations_with_profiles
         (Dashboard.getLocalDateKey now)
         (Room.id <$> select_rooms (AuthContext.selectedFloor ctx) (db w))
         (db w))
  ∧ (rooms_fault ≠ None →
     match roomsAnswer with
     | Data data => data
     | Failed _ => []
     end = [] ∧ allocsData = []).
Proof.
  destruct rooms_fault as [message|]; unfold remote at 1; unfold query at 1;
    cbn [fmap list_fmap]; [done|].
  destruct (Room.id <$> select_rooms _ _) as [|i ids] eqn:Hids.
  - split; [done|]. split; [done|]. split; [|done]. intros _ _.
    unfold Dashboard.select_allocations_with_profiles, select_allocations.
    rewrite filter_nothing; [done|]. intros a _ [_ Ha].
    by apply elem_of_nil in Ha.
  - destruct allocations_fault as [message|]; unfold remote, query; cbn [db];
      done.
Qed.

Lemma dashboard_queries_world (ctx : AuthContext.t) (now : Date)
  (rooms_fault allocations_fault : option jsstring) (w : World) :
  let '(roomsAnswer, w1) :=
    remote (js "rooms") SELECT rooms_fault
      (query (select_rooms (AuthContext.selectedFloor ctx))) w in
  let '(allocsData, w2) :=
    match Room.id <$> match roomsAnswer with
                      | Data data => data
                      | Failed _ => []
                      end with
    | [] => ([], w1)
    | _ :: _ =>
      match remote (js "room_allocations") SELECT allocations_fault
              (query (Dashboard.select_allocations_with_profiles
                        (Dashboard.getLocalDateKey now)
                        (Room.id <$> match roomsAnswer with
                                     | Data data => data
                                     | Failed _ => []
                                     end)))
              w1 with
      | (Data data, w2) => (data, w2)
      | (Failed _, w2) => ([], w2)
      end
    end in
  db w2 = db w
  ∧ alerts w2 = alerts w
  ∧ ∃ sent, requests w2 = requests w ++ sent
            ∧ Forall (λ r, is_write r = false) sent.
Proof.
  destruct rooms_fault as [message|]; unfold remote at 1; unfold query at 1;
    cbn [fmap list_fmap].
  { split; [done|]. split; [done|].
    exists [mkRequest (js "rooms") SELECT]. split; [done|].
    by repeat constructor. }
  destruct (Room.id <$> select_rooms _ _) as [|i ids].
  { split; [done|]. split; [done|].
    exists [mkRequest (js "rooms") SELECT]. split; [done|].
    by repeat constructor. }
  destruct allocations_fault as [message|]; unfold remote, query;
    cbn [db requests console alerts];
    (split; [done|]; split; [done|];
     exists [mkRequest (js "rooms") SELECT;
             mkRequest (js "room_allocations") SELECT];
     split; [by rewrite <- app_assoc|]; by repeat constructor).
Qed.

Section DashboardPage.

Variable JSON_parse_tasks : jsstring → Types.Parsed Types.Task.
Variable JSON_parse_notes : jsstring → Types.Parsed Types.Note.

(** X21.  Once the dashboard has loaded, its counters are consistent: the
    high-priority tasks are among the pending ones, which are among the
    stored ones, the urgent notes are among the pending ones, which are
    among the stored ones, the doctors of each shift are among the doctors
    of the day, who are at most the doctors of the two shifts together and
    at most one per allocation shown. *)
Theorem dashboard_stats_bounds (ctx : AuthContext.t) (now : Date)
  (localStorage : AuthContext.Storage)
  (rooms_fault allocations_fault : option jsstring)
  (st : Dashboard.State) (w : World)
  (savedTasks : list Types.Task) (savedNotes : list Types.Note) :
  JSON_parse_tasks
    (or_else (AuthContext.getItem (js "mediportal_tasks") localStorage)
       (js "[]")) = Types.Array (Some <$> savedTasks) →
  JSON_parse_notes
    (or_else (AuthContext.getItem (js "mediportal_notes") localStorage)
       (js "[]")) = Types.Array (Some <$> savedNotes) →
  let st' :=
    (Dashboard.fetchRealtimeData JSON_parse_tasks JSON_parse_notes ctx now
       localStorage rooms_fault allocations_fault st w).1 in
  let s := Dashboard.stats st' in
  (Dashboard.highPriorityTasks s ≤ Dashboard.pendingTasks s
   ∧ Dashboard.pendingTasks s ≤ length savedTasks
   ∧ Dashboard.urgentNotes s ≤ Dashboard.pendingNotes s
   ∧ Dashboard.pendingNotes s ≤ length savedNotes
   ∧ Dashboard.morningDoctors s ≤ Dashboard.totalDoctors s
   ∧ Dashboard.afternoonDoctors s ≤ Dashboard.totalDoctors s
   ∧ Dashboard.totalDoctors s
     ≤ Dashboard.morningDoctors s + Dashboard.afternoonDoctors s
   ∧ Dashboard.totalDoctors s ≤ length (Dashboard.allocations st'))%nat.
Proof.
  intros Htasks Hnotes. cbv zeta.
  destruct (Dashboard.fetchRealtimeData _ _ _ _ _ _ _ _ _) as [st' w'] eqn:Hrun.
  cbn [fst]. unfold Dashboard.fetchRealtimeData in Hrun.
  destruct (remote (js "rooms") _ _ _ _) as [roomsAnswer w1].
  destruct (match Room.id <$> _ with [] => _ | _ :: _ => _ end)
    as [allocsData w2].
  rewrite Htasks, Hnotes in Hrun.
  destruct (bool_decide _); rewrite !filter_items_values in Hrun;
    injection Hrun as <- <-;
    cbn [Dashboard.setLoading Dashboard.setStats Dashboard.setAllocations
         Dashboard.setRooms Dashboard.stats Dashboard.allocations
         Dashboard.highPriorityTasks Dashboard.pendingTasks
         Dashboard.urgentNotes Dashboard.pendingNotes
         Dashboard.morningDoctors Dashboard.afternoonDoctors
         Dashboard.totalDoctors];
    (split; [apply length_filter|]);
    (split; [apply length_filter|]);
    (split; [apply length_filter|]);
    (split; [apply length_filter|]);
    (split; [apply doctors_of_shift|]);
    (split; [apply doctors_of_shift|]);
    (split; [apply doctors_by_shift|]);
    (etransitivity; [apply distinct_length|]); by rewrite length_fmap.
Qed.



(** X24.  When the stored tasks or the stored notes are no JSON text, the
    dashboard keeps the rooms, the allocations and the counters it had,
    stops loading and logs one line.  When both parse but one of them is
    no array, or an array that holds [null], the dashboard shows the rooms
    and the allocations just fetched (none when the query of the rooms
    fails), keeps the counters it had, stops loading and logs one line. *)
Theorem dashboard_parse_failure (ctx : AuthContext.t) (now : Date)
  (localStorage : AuthContext.Storage)
  (rooms_fault allocations_fault : option jsstring)
  (st : Dashboard.State) (w : World) :
  let tasks :=
    JSON_parse_tasks
      (or_else (AuthContext.getItem (js "mediportal_tasks") localStorage)
         (js "[]")) in
  let notes :=
    JSON_parse_notes
      (or_else (AuthContext.getItem (js "mediportal_notes") localStorage)
         (js "[]")) in
  let '(st', w') :=
    Dashboard.fetchRealtimeData JSON_parse_tasks JSON_parse_notes ctx now
      localStorage rooms_fault allocations_fault st w in
  (tasks = Types.SyntaxError ∨ notes = Types.SyntaxError →
   Dashboard.rooms st' = Dashboard.rooms st
   ∧ Dashboard.allocations st' = Dashboard.allocations st
   ∧ Dashboard.stats st' = Dashboard.stats st
   ∧ Dashboard.loading st' = false
   ∧ console w' = console w ++ [js "Error loading dashboard data:"])
  ∧ (tasks ≠ Types.SyntaxError → notes ≠ Types.SyntaxError →
     throws_on_filter tasks ∨ throws_on_filter notes →
     (rooms_fault = None →
      Dashboard.rooms st'
      = select_rooms (AuthContext.selectedFloor ctx) (db w))
     ∧ (rooms_fault = None → allocations_fault = None →
        Dashboard.allocations st'
        = Dashboard.select_allocations_with_profiles
            (Dashboard.getLocalDateKey now)
            (Room.id <$> Dashboard.rooms st') (db w))
     ∧ (rooms_fault ≠ None →
        Dashboard.rooms st' = [] ∧ Dashboard.allocations st' = [])
     ∧ Dashboard.stats st' = Dashboard.stats st
     ∧ Dashboard.loading st' = false
     ∧ console w' = console w ++ [js "Error loading dashboard data:"]).
Proof.
  intros tasks notes.
  destruct (Dashboard.fetchRealtimeData _ _ _ _ _ _ _ _ _) as [st' w'] eqn:Hrun.
  unfold Dashboard.fetchRealtimeData in Hrun.
  pose proof (dashboard_queries ctx now rooms_fault allocations_fault w)
    as Hqueries.
  destruct (remote (js "rooms") _ _ _ _) as [roomsAnswer w1].
  destruct (match Room.id <$> _ with [] => _ | _ :: _ => _ end)
    as [allocsData w2].
  destruct Hqueries as (Hconsole & Hrooms & Hallocations & Hnone).
  fold tasks notes in Hrun.
  assert (∀ st1, (Dashboard.setLoading false st1,
                  console_error (js "Error loading dashboard data:") w2)
                 = (st', w') →
                 Dashboard.rooms st' = Dashboard.rooms st1
                 ∧ Dashboard.allocations st' = Dashboard.allocations st1
                 ∧ Dashboard.stats st' = Dashboard.stats st1
                 ∧ Dashboard.loading st' = false
                 ∧ console w' = console w
                                ++ [js "Error loading dashboard data:"])
    as Hcaught.
  { intros st1 [= <- <-]. unfold console_error. cbn [console].
    by rewrite Hconsole. }
  split.
  - intros Hsyntax. apply Hcaught.
    destruct Hsyntax as [Hsyntax|Hsyntax]; rewrite Hsyntax in Hrun;
      [done|by destruct tasks].
  - intros Htasks Hnotes Hthrows.
    assert ((Dashboard.setLoading false
               (Dashboard.setAllocations allocsData
                  (Dashboard.setRooms
                     match roomsAnswer with
                     | Data data => data
                     | Failed _ => []
                     end st)),
             console_error (js "Error loading dashboard data:") w2)
            = (st', w')) as Hlate.
    { destruct (bool_decide _).
      - destruct Hthrows as [Hthrows|Hthrows];
          eapply filter_items_throws in Hthrows; try done;
          rewrite Hthrows in Hrun;
          destruct tasks, notes; try done;
          by destruct (Types.filter_items _ _).
      - destruct Hthrows as [Hthrows|Hthrows];
          eapply filter_items_throws in Hthrows; try done;
          rewrite Hthrows in Hrun;
          destruct tasks, notes; try done;
          by destruct (Types.filter_items _ _). }
    apply Hcaught in Hlate as (Hr & Ha & Hs & Hl & Hc).
    cbn [Dashboard.setAllocations Dashboard.setRooms Dashboard.rooms
         Dashboard.allocations Dashboard.stats] in Hr, Ha, Hs.
    rewrite Hr, Ha, Hs.
    split; [exact Hrooms|].
    split; [intros Hrf Haf; rewrite (Hrooms Hrf); by apply Hallocations|].
    split; [exact Hnone|done].
Qed.

(** X25.  Loading the dashboard only reads: whatever the store answers
    and whatever the storage holds, the store is left as it was, every
    request sent is a [select] and no alert is shown. *)
Theorem dashboard_read_only (ctx : AuthContext.t) (now : Date)
  (localStorage : AuthContext.Storage)
  (rooms_fault allocations_fault : option jsstring)
  (st : Dashboard.State) (w : World) :
  let w' :=
    (Dashboard.fetchRealtimeData JSON_parse_tasks JSON_parse_notes ctx now
       localStorage rooms_fault allocations_fault st w).2 in
  db w' = db w
  ∧ alerts w' = alerts w
  ∧ ∃ sent, requests w' = requests w ++ sent
            ∧ Forall (λ r, is_write r = false) sent.
Proof.
  cbv zeta.
  destruct (Dashboard.fetchRealtimeData _ _ _ _ _ _ _ _ _) as [st' w'] eqn:Hrun.
  cbn [snd]. unfold Dashboard.fetchRealtimeData in Hrun.
  pose proof (dashboard_queries_world ctx now rooms_fault allocations_fault w)
    as Hworld.
  destruct (remote (js "rooms") _ _ _ _) as [roomsAnswer w1].
  destruct (match Room.id <$> _ with [] => _ | _ :: _ => _ end)
    as [allocsData w2].
  assert (w' = w2
          ∨ w' = console_error (js "Error loading dashboard data:") w2)
    as [->| ->]; [|exact Hworld|exact Hworld].
  destruct (JSON_parse_tasks _) as [| |tasks];
    [right; by injection Hrun as <- <-| |];
    (destruct (JSON_parse_notes _) as [| |notes];
     [right; by injection Hrun as <- <-| |]);
    destruct (bool_decide _);
    repeat (destruct (Types.filter_items _ _));
    first [right; by injection Hrun as <- <-
          |left; by injection Hrun as <- <-].
Qed.

End DashboardPage.

Lemma dashboard_stats_bounds_witness :
  parse_tasks
    (or_else (AuthContext.getItem (js "mediportal_tasks") stored_lists)
       (js "[]")) = Types.Array (Some <$> [mockTask3; mockTask4])
  ∧ parse_notes
      (or_else (AuthContext.getItem (js "mediportal_notes") stored_lists)
         (js "[]")) = Types.Array (Some <$> [urgent_note])
  ∧ let st' :=
      (Dashboard.fetchRealtimeData parse_tasks parse_notes reception_ctx
         (LocalDate 2024 0 10) stored_lists None None dashboard_loading
         busy_world).1 in
    let s := Dashboard.stats st' in
    (Dashboard.highPriorityTasks s ≤ Dashboard.pendingTasks s
     ∧ Dashboard.totalDoctors s
       ≤ Dashboard.morningDoctors s + Dashboard.afternoonDoctors s)%nat.
Proof.
  assert (parse_tasks
            (or_else
               (AuthContext.getItem (js "mediportal_tasks") stored_lists)
               (js "[]")) = Types.Array (Some <$> [mockTask3; mockTask4])) as Htasks
    by (vm_compute; reflexivity).
  assert (parse_notes
            (or_else
               (AuthContext.getItem (js "mediportal_notes") stored_lists)
               (js "[]")) = Types.Array (Some <$> [urgent_note])) as Hnotes
    by (vm_compute; reflexivity).
  split; [exact Htasks|]. split; [exact Hnotes|].
  destruct (dashboard_stats_bounds parse_tasks parse_notes reception_ctx
              (LocalDate 2024 0 10) stored_lists None None dashboard_loading
              busy_world _ _ Htasks Hnotes)
    as (Hhigh & _ & _ & _ & _ & _ & Htotal & _).
  split; [exact Hhigh|exact Htotal].
Defined.



Lemma dashboard_parse_failure_witness :
  (let '(st', w') :=
     Dashboard.fetchRealtimeData unreadable parse_notes reception_ctx
       (LocalDate 2024 0 10) stored_lists None None dashboard_loading
       busy_world in
   Dashboard.rooms st' = Dashboard.rooms dashboard_loading
   ∧ Dashboard.loading st' = false
   ∧ console w' = console busy_world ++ [js "Error loading dashboard data:"])
  ∧ (let '(st', w') :=
       Dashboard.fetchRealtimeData parses_with_null parse_notes reception_ctx
         (LocalDate 2024 0 10) stored_lists None None dashboard_loading
         busy_world in
     Dashboard.rooms st'
     = select_rooms (AuthContext.selectedFloor reception_ctx) (db busy_world)
     ∧ Dashboard.stats st' = Dashboard.stats dashboard_loading
     ∧ Dashboard.loading st' = false
     ∧ console w'
       = console busy_world ++ [js "Error loading dashboard data:"]).
Proof.
  split.
  - pose proof (dashboard_parse_failure unreadable parse_notes reception_ctx
                  (LocalDate 2024 0 10) stored_lists None None
                  dashboard_loading busy_world) as H.
    cbv zeta in H.
    destruct (Dashboard.fetchRealtimeData _ _ _ _ _ _ _ _ _) as [st' w'].
    destruct H as [H _].
    destruct (H (or_introl eq_refl)) as (Hrooms & _ & _ & Hloading & Hconsole).
    split; [exact Hrooms|]. split; [exact Hloading|exact Hconsole].
  - pose proof (dashboard_parse_failure parses_with_null parse_notes
                  reception_ctx (LocalDate 2024 0 10) stored_lists None None
                  dashboard_loading busy_world) as H.
    cbv zeta in H.
    destruct (Dashboard.fetchRealtimeData _ _ _ _ _ _ _ _ _) as [st' w'].
    destruct H as [_ H].
    assert (parse_notes
              (or_else
                 (AuthContext.getItem (js "mediportal_notes") stored_lists)
                 (js "[]")) ≠ Types.SyntaxError) as Hnotes
      by (vm_compute; discriminate).
    assert (throws_on_filter
              (parses_with_null
                 (or_else
                    (AuthContext.getItem (js "mediportal_tasks") stored_lists)
                    (js "[]")))) as Hnull
      by (right; left).
    destruct (H ltac:(discriminate) Hnotes (or_introl Hnull))
      as (Hrooms & _ & _ & Hstats & Hloading & Hconsole).
    split; [exact (Hrooms eq_refl)|]. split; [exact Hstats|].
    split; [exact Hloading|exact Hconsole].
Defined.

(** ** The tasks page *)

Lemma shown_done (ctx : AuthContext.t) (task : Types.Task) :
  Tasks.shown ctx Tasks.Active (Tasks.with_status Types.DONE task) = false.
Proof.
  unfold Tasks.shown, Tasks.with_status. cbn [Types.sector Types.status].
  by destruct (_ && _).
Qed.

Lemma filter_swap {A} (P Q : A → Prop) `{!∀ x, Decision (P x)}
  `{!∀ x, Decision (Q x)} (l : list A) :
  filter P (filter Q l) = filter Q (filter P l).
Proof.
  induction l as [|x l IH]; [done|]. rewrite !filter_cons.
  destruct (decide (Q x)), (decide (P x)); rewrite ?filter_cons;
    rewrite ?decide_True, ?decide_False by done; by rewrite IH.
Qed.

Lemma handleStatusChange_ids (taskId : jsstring)
  (newStatus : Types.TaskStatus) (l : list Types.Task) :
  Types.id <$> ((λ task,
                   if bool_decide (Types.id task = taskId)
                   then Tasks.with_status newStatus task
                   else task) <$> l)
  = Types.id <$> l.
Proof.
  rewrite <- list_fmap_compose. apply list_fmap_ext. intros _ t _.
  unfold compose. by destruct (bool_decide _).
Qed.

(** X26.  With the filter on 'Active', marking a task as done takes the
    tasks of its id out of the list shown and leaves the others shown as
    they were, in their order. *)
Theorem done_leaves_active_view (ctx : AuthContext.t) (taskId : jsstring)
  (st : Tasks.State) :
  Tasks.filter_by st = Tasks.Active →
  Tasks.filteredTasks ctx (Tasks.handleStatusChange taskId Types.DONE st)
  = filter (λ t, Types.id t ≠ taskId) (Tasks.filteredTasks ctx st).
Proof.
  intros Hfilter.
  unfold Tasks.filteredTasks, Tasks.handleStatusChange, Tasks.setTasks.
  cbn [Tasks.tasks Tasks.filter_by]. rewrite Hfilter.
  induction (Tasks.tasks st) as [|t l IH]; [done|].
  rewrite fmap_cons, !filter_cons, IH.
  destruct (decide (Types.id t = taskId)) as [Hid|Hid].
  - rewrite (bool_decide_true _ Hid), shown_done.
    rewrite (decide_False (P := false = true)) by done.
    destruct (decide (Tasks.shown ctx Tasks.Active t = true)); [|done].
    rewrite filter_cons. by rewrite decide_False by (by intros []).
  - rewrite (bool_decide_false _ Hid).
    destruct (decide (Tasks.shown ctx Tasks.Active t = true)); [|done].
    rewrite filter_cons. by rewrite decide_True by done.
Qed.

Lemma done_leaves_active_view_witness :
  Tasks.filteredTasks reception_ctx
    (Tasks.handleStatusChange (js "4") Types.DONE tasks_page)
  = filter (λ t, Types.id t ≠ js "4")
      (Tasks.filteredTasks reception_ctx tasks_page).
Proof. exact (done_leaves_active_view reception_ctx (js "4") tasks_page eq_refl). Defined.

(** X27.  Changing the status of a task keeps the list as long as it was,
    with the same ids and sectors in the same order; the tasks of the id
    get the new status and the tasks of any other id are left as they
    were. *)
Theorem status_change_keeps_tasks (taskId : jsstring)
  (newStatus : Types.TaskStatus) (st : Tasks.State) :
  let st' := Tasks.handleStatusChange taskId newStatus st in
  Types.id <$> Tasks.tasks st' = Types.id <$> Tasks.tasks st
  ∧ Types.sector <$> Tasks.tasks st' = Types.sector <$> Tasks.tasks st
  ∧ (∀ t, t ∈ Tasks.tasks st' → Types.id t = taskId →
          Types.status t = newStatus)
  ∧ filter (λ t, Types.id t ≠ taskId) (Tasks.tasks st')
    = filter (λ t, Types.id t ≠ taskId) (Tasks.tasks st).
Proof.
  unfold Tasks.handleStatusChange, Tasks.setTasks. cbn [Tasks.tasks].
  induction (Tasks.tasks st) as [|t l (IHid & IHsector & IHstatus & IHrest)];
    [by repeat split; intros ? ?%elem_of_nil|].
  rewrite !fmap_cons, !filter_cons, IHid, IHsector, IHrest.
  destruct (decide (Types.id t = taskId)) as [Hid|Hid].
  - rewrite (bool_decide_true _ Hid). cbn [Tasks.with_status Types.id
      Types.sector]. rewrite !(decide_False (P := Types.id t ≠ taskId)) by
      (by intros []).
    repeat split. intros t' [->|Ht']%elem_of_cons Ht'id; [done|].
    by apply IHstatus.
  - rewrite (bool_decide_false _ Hid). rewrite !decide_True by done.
    repeat split. intros t' [->|Ht']%elem_of_cons Ht'id; [done|].
    by apply IHstatus.
Qed.

Lemma status_change_keeps_tasks_witness :
  let st' := Tasks.handleStatusChange (js "4") Types.IN_PROGRESS tasks_page in
  Types.id <$> Tasks.tasks st' = Types.id <$> Tasks.tasks tasks_page
  ∧ ∀ t, t ∈ Tasks.tasks st' → Types.id t = js "4" →
         Types.status t = Types.IN_PROGRESS.
Proof.
  destruct (status_change_keeps_tasks (js "4") Types.IN_PROGRESS tasks_page)
    as (Hids & _ & Hstatus & _).
  split; [exact Hids|exact Hstatus].
Defined.

(** X28.  Once the deletion of a task is confirmed no task of its id is
    shown, whatever the filter, and the other tasks are shown as before. *)
Theorem delete_task_gone (ctx : AuthContext.t) (taskId : jsstring)
  (st : Tasks.State) :
  let st' := Tasks.handleDelete true taskId st in
  (taskId ∉ Types.id <$> Tasks.tasks st')
  ∧ Tasks.filteredTasks ctx st'
    = filter (λ t, Types.id t ≠ taskId) (Tasks.filteredTasks ctx st).
Proof.
  assert (taskId ∉ Types.id <$> filter (λ t, Types.id t ≠ taskId)
                                  (Tasks.tasks st)) as Hgone.
  { intros (t & -> & [Ht _]%list_elem_of_filter)%list_elem_of_fmap. done. }
  unfold Tasks.handleDelete, Tasks.filteredTasks.
  destruct (_ && _);
    cbn [Tasks.closeModal Tasks.setTasks Tasks.tasks Tasks.filter_by];
    (split; [exact Hgone|]); apply filter_swap.
Qed.

(** X29.  Deleting a task and changing the status of a task keep the
    modal on a listed task: when it was open on a task of the list before,
    it is closed or still open on a task of the list afterwards. *)
Theorem modal_task_kept (confirmed : bool) (taskId : jsstring)
  (newStatus : Types.TaskStatus) (st : Tasks.State) :
  modal_task_listed st →
  modal_task_listed (Tasks.handleDelete confirmed taskId st)
  ∧ modal_task_listed (Tasks.handleStatusChange taskId newStatus st).
Proof.
  intros Hlisted. split.
  - unfold Tasks.handleDelete. destruct confirmed; [|exact Hlisted].
    destruct (Tasks.isModalOpen st) eqn:Hopen;
      [|cbn [andb]; intros Hopen';
        cbn [Tasks.setTasks Tasks.isModalOpen] in Hopen';
        congruence].
    destruct (Tasks.currentTask st) as [current|] eqn:Hcurrent;
      cbn [andb fmap option_fmap option_map];
      [|rewrite bool_decide_false by done; intros _ t Ht;
        cbn [Tasks.setTasks Tasks.currentTask] in Ht; congruence].
    destruct (decide (Types.id current = taskId)) as [Hid|Hid].
    + rewrite bool_decide_true by (by rewrite Hid). done.
    + rewrite bool_decide_false by (by intros [=]).
      intros _ t Ht. cbn [Tasks.setTasks Tasks.currentTask Tasks.tasks] in *.
      rewrite Hcurrent in Ht. injection Ht as <-.
      specialize (Hlisted Hopen current Hcurrent).
      apply list_elem_of_fmap in Hlisted as (t & Ht & Hin).
      apply list_elem_of_fmap. exists t. split; [done|].
      apply list_elem_of_filter. split; [congruence|done].
  - intros Hopen t Ht. unfold Tasks.handleStatusChange, Tasks.setTasks.
    cbn [Tasks.tasks]. rewrite handleStatusChange_ids. by apply Hlisted.
Qed.

Lemma modal_task_kept_witness :
  modal_task_listed tasks_page
  ∧ modal_task_listed (Tasks.handleDelete true (js "4") tasks_page)
  ∧ Tasks.isModalOpen (Tasks.handleDelete true (js "4") tasks_page) = false.
Proof.
  assert (modal_task_listed tasks_page) as Hlisted.
  { intros _ t [= <-]. apply list_elem_of_fmap. exists mockTask4.
    split; [done|]. right. left. }
  split; [exact Hlisted|].
  split; [exact (proj1 (modal_task_kept true (js "4") Types.DONE tasks_page
                          Hlisted))|].
  vm_compute. reflexivity.
Defined.
